(** * extract_features_from_theanh_data.py: a shallow embedding

    The script reads one WRF snapshot, normalises its longitudes, checks
    that it holds a single time value, computes nine diagnostic fields
    through the [wrf] library, assembles them in an [xarray] dataset,
    crops it to a fixed window and writes it to a netCDF file.

    Conventions of the embedding:
    - Python exceptions are values of [exn]; a computation is a function
      from the [World] to an [outcome] and the next [World].
    - array elements (float32/float64 in numpy) are exact rationals [Q]:
      rounding, NaN and masked values are not part of the model.
    - the [wrf] diagnostics, [num2date] on one value, [os.makedirs] and the
      netCDF writer are parameters of the development: the script treats
      them as opaque capabilities. *)

From Stdlib Require Import Ascii String QArith Lqa.
From stdpp Require Import base option list strings gmap.

Local Open Scope string_scope.
Local Open Scope list_scope.

(** ** Exceptions and outcomes *)

(** [ValueError] and [KeyError] stand for instances of these classes,
    subclasses included (what [except (ValueError, KeyError)] matches);
    the other constructors are exceptions that are instances of neither. *)
Inductive exn : Type :=
  | ValueError
  | KeyError
  | IndexError
  | TypeError
  | AttributeError
  | AssertionError
  | OSError
  | Exception (cls : string).

Inductive outcome (A : Type) : Type :=
  | Ok (a : A)
  | Raise (e : exn).
Arguments Ok {A} a.
Arguments Raise {A} e.

(** ** n-dimensional arrays *)

(** A numpy array as nested lists: a scalar, or the list of the sub-arrays
    along the first axis. numpy arrays are rectangular, so the shape is read
    along the first elements. An array whose first axis is empty has no
    sub-array to carry the lengths of its other axes: [Arr []] is the array
    of shape [(0,)], and [Empty n rest] the array of shape
    [(0, n, rest...)]. *)

#[local] Set Warnings "-register-all,-abstract-large-number".

Inductive ndarray (A : Type) : Type :=
  | Scalar (x : A)
  | Arr (xs : list (ndarray A))
  | Empty (n : nat) (rest : list nat).
Arguments Scalar {A} x.
Arguments Arr {A} xs.
Arguments Empty {A} n rest.

Section NdarrayInd.
Context {A : Type} (P : ndarray A -> Prop).
Hypothesis HScalar : forall x, P (Scalar x).
Hypothesis HArr : forall xs, Forall P xs -> P (Arr xs).
Hypothesis HEmpty : forall n rest, P (Empty n rest).

Fixpoint ndarray_nested_ind (a : ndarray A) : P a :=
  match a with
  | Scalar x => HScalar x
  | Arr xs =>
      HArr xs
        ((fix go (l : list (ndarray A)) : Forall P l :=
            match l with
            | [] => @Stdlib.Lists.List.Forall_nil _ P
            | y :: l' =>
                @Stdlib.Lists.List.Forall_cons _ P y l' (ndarray_nested_ind y) (go l')
            end) xs)
  | Empty n rest => HEmpty n rest
  end.
End NdarrayInd.

(** [a.ndim]: the number of axes, empty ones included. *)
Fixpoint ndim {A} (a : ndarray A) : nat :=
  match a with
  | Scalar _ => 0
  | Arr xs => S (match xs with [] => 0 | x :: _ => ndim x end)
  | Empty _ rest => S (S (length rest))
  end.

(** [a.shape]. *)
Fixpoint shape {A} (a : ndarray A) : list nat :=
  match a with
  | Scalar _ => []
  | Arr xs => length xs :: match xs with [] => [] | x :: _ => shape x end
  | Empty n rest => 0%nat :: n :: rest
  end.

(** The array without element whose axes after the first have the
    lengths [sh]. *)
Definition empty_of {A} (sh : list nat) : ndarray A :=
  match sh with
  | [] => Arr []
  | n :: rest => Empty n rest
  end.

(** [a.size]: the number of elements. *)
Fixpoint nd_size {A} (a : ndarray A) : nat :=
  match a with
  | Scalar _ => 1
  | Arr xs => foldr (fun x n => nd_size x + n) 0 xs
  | Empty _ _ => 0
  end.

(** [a[i0, i1, ...]] with as many integer indices as axes. *)
Fixpoint nd_get {A} (a : ndarray A) (idx : list nat) : option A :=
  match a, idx with
  | Scalar x, [] => Some x
  | Arr xs, i :: idx' =>
      match xs !! i with
      | Some y => nd_get y idx'
      | None => None
      end
  | _, _ => None
  end.

(** An elementwise operation: the result has the shape of the argument. *)
Fixpoint nd_map {A B} (f : A -> B) (a : ndarray A) : ndarray B :=
  match a with
  | Scalar x => Scalar (f x)
  | Arr xs => Arr (map (nd_map f) xs)
  | Empty n rest => Empty n rest
  end.

(** [mapM] for [outcome]: left to right, the first exception wins. *)
Fixpoint mapM {A B} (f : A -> outcome B) (l : list A) : outcome (list B) :=
  match l with
  | [] => Ok []
  | x :: l' =>
      match f x with
      | Raise e => Raise e
      | Ok y =>
          match mapM f l' with
          | Raise e => Raise e
          | Ok ys => Ok (y :: ys)
          end
      end
  end.

(** An elementwise operation that may raise. *)
Fixpoint nd_mapM {A B} (f : A -> outcome B) (a : ndarray A) : outcome (ndarray B) :=
  match a with
  | Scalar x => match f x with Ok y => Ok (Scalar y) | Raise e => Raise e end
  | Arr xs =>
      match mapM (nd_mapM f) xs with
      | Ok ys => Ok (Arr ys)
      | Raise e => Raise e
      end
  | Empty n rest => Ok (Empty n rest)
  end.

(** Slicing [a[..., start:stop, ...]] along axis [axis]. *)
Definition slice_list {A} (start stop : nat) (l : list A) : list A :=
  take (stop - start) (drop start l).

(** The length of [start:stop] on an axis of length [n]. *)
Definition slice_len (start stop n : nat) : nat :=
  Nat.min (stop - start) (n - start).

(** A slice that leaves no sub-array keeps the lengths of the other
    axes. *)
Fixpoint slice_axis {A} (a : ndarray A) (axis start stop : nat) : ndarray A :=
  match a with
  | Scalar x => Scalar x
  | Arr xs =>
      match axis with
      | O =>
          match slice_list start stop xs with
          | [] => empty_of (match xs with [] => [] | x :: _ => shape x end)
          | ys => Arr ys
          end
      | S axis' => Arr (map (fun y => slice_axis y axis' start stop) xs)
      end
  | Empty n rest =>
      match axis with
      | O => Empty n rest
      | S O => Empty (slice_len start stop n) rest
      | S (S axis') => Empty n (alter (slice_len start stop) axis' rest)
      end
  end.

(** The length of axis [axis], read along the first elements. *)
Fixpoint axis_len {A} (a : ndarray A) (axis : nat) : option nat :=
  match a with
  | Scalar _ => None
  | Arr xs =>
      match axis with
      | O => Some (length xs)
      | S axis' => match xs with [] => None | y :: _ => axis_len y axis' end
      end
  | Empty n rest => (0%nat :: n :: rest) !! axis
  end.

(** ** Data of the three libraries *)

(** A netCDF variable: its values and its [units] attribute. *)
Record NcVariable : Type := {
  nv_values : ndarray Q;
  nv_units : option string;
}.

(** A [netCDF4.Dataset]: [ds.variables] and the global attributes
    ([ds.__dict__]). *)
Record NcDataset : Type := {
  variables : gmap string NcVariable;
  ncattrs : gmap string string;
}.

(** An [xr.DataArray] as the script uses it: [.data], [.ndim], [.attrs]. *)
Record DataArray : Type := {
  da_data : ndarray Q;
  da_attrs : gmap string string;
}.

(** An [xr.Variable]: dimension names, data, attributes. *)
Record XrVariable : Type := {
  xv_dims : list string;
  xv_data : ndarray Q;
  xv_attrs : gmap string string;
}.

(** An [xr.Dataset] with the three coordinates the script gives it. The
    data variables keep the insertion order of the dict they come from. *)
Record XrDataset : Type := {
  data_vars : list (string * XrVariable);
  coord_lat : list Q;
  coord_lon : list Q;
  coord_lev : list Z;
  xr_attrs : gmap string string;
}.

(** What [num2date] yields for one value. *)
Record datetime : Type := {
  year : nat;
  month : nat;
  day : nat;
  hour : nat;
  minute : nat;
  second : nat;
}.

(** ** The world: files, open datasets, observable calls *)

Inductive File : Type :=
  | NetCDFFile (d : NcDataset)
  | OtherFile.

(** A Python reference to an open [netCDF4.Dataset]. *)
Definition Dataset : Type := nat.

(** The calls that a run makes to the outside. [EvLogInfo] and
    [EvLogWarning] are the calls of [logging.info] and [logging.warning]
    for a field: calls, not lines of the log. *)
Inductive Event : Type :=
  | EvGetvar (varname : string) (units : option string)
  | EvDestagger
  | EvInterplevel (levels : list Z)
  | EvPrint (line : string)
  | EvLogInfo (name : string)
  | EvLogWarning (name : string)
  | EvMakedirs (path : string)
  | EvToNetcdf (path : string) (content : XrDataset).

Record World : Type := {
  fs : gmap string File;
  heap : gmap Dataset NcDataset;
  next_ref : Dataset;
  trace : list Event;
}.

Definition M (A : Type) : Type := World -> outcome A * World.

Definition ret {A} (a : A) : M A := fun w => (Ok a, w).

Definition raise {A} (e : exn) : M A := fun w => (Raise e, w).

Definition bind {A B} (m : M A) (k : A -> M B) : M B :=
  fun w =>
    match m w with
    | (Ok a, w') => k a w'
    | (Raise e, w') => (Raise e, w')
    end.

Notation "'let!' x ':=' m 'in' k" := (bind m (fun x => k))
  (at level 10, x pattern, m at level 100, k at level 200).

Definition lift {A} (r : outcome A) : M A := fun w => (r, w).

(** [try: body except <catches> as e: handler e]. *)
Definition try_except {A} (body : M A) (catches : exn -> bool)
    (handler : exn -> M A) : M A :=
  fun w =>
    match body w with
    | (Ok a, w') => (Ok a, w')
    | (Raise e, w') => if catches e then handler e w' else (Raise e, w')
    end.

(** [assert cond] (assertions enabled: the script is run as [python3]). *)
Definition assert (cond : bool) : M unit :=
  if cond then ret tt else raise AssertionError.

Definition emit (ev : Event) : M unit :=
  fun w =>
    (Ok tt, {| fs := fs w; heap := heap w; next_ref := next_ref w;
               trace := trace w ++ [ev] |}).

Definition set_heap (h : gmap Dataset NcDataset) (w : World) : World :=
  {| fs := fs w; heap := h; next_ref := next_ref w; trace := trace w |}.

(** [os.path.isfile(path)]. *)
Definition os_path_isfile (path : string) : M bool :=
  fun w => (Ok (bool_decide (is_Some (fs w !! path))), w).

(** [Dataset(path, 'a', diskless=True, persist=False)]: the file is read
    into memory; later changes stay in memory and never reach the file. A
    missing file or a file that is not netCDF raises an [OSError]. *)
Definition Dataset_open (path : string) : M Dataset :=
  fun w =>
    match fs w !! path with
    | Some (NetCDFFile d) =>
        (Ok (next_ref w),
         {| fs := fs w; heap := <[next_ref w := d]> (heap w);
            next_ref := S (next_ref w); trace := trace w |})
    | Some OtherFile => (Raise OSError, w)
    | None => (Raise OSError, w)
    end.

(** The content behind a reference. *)
Definition deref (ds : Dataset) : M NcDataset :=
  fun w =>
    match heap w !! ds with
    | Some d => (Ok d, w)
    | None => (Raise (Exception "RuntimeError"), w)
    end.

(** [ds[name]]: netCDF4 raises [IndexError] for an unknown name. *)
Definition ds_getitem (ds : Dataset) (name : string) : M NcVariable :=
  let! d := deref ds in
  match variables d !! name with
  | Some v => ret v
  | None => raise IndexError
  end.

(** [ds.variables[name]]: a dict lookup. *)
Definition ds_variables_get (ds : Dataset) (name : string) : M NcVariable :=
  let! d := deref ds in
  match variables d !! name with
  | Some v => ret v
  | None => raise KeyError
  end.

(** [var[:, :, :]]: all the values of a variable with three axes or more
    (netCDF4 completes the index with full slices); with fewer axes the
    slicing expression exceeds the number of dimensions. *)
Definition var_get_all3 (v : NcVariable) : M (ndarray Q) :=
  if Nat.leb 3 (ndim (nv_values v)) then ret (nv_values v) else raise ValueError.

(** [ds[name][:, :, :] = a]: the values of the variable are replaced in the
    dataset that [ds] refers to. *)
Definition ds_setitem_all3 (ds : Dataset) (name : string) (a : ndarray Q) : M unit :=
  let! d := deref ds in
  match variables d !! name with
  | None => raise IndexError
  | Some v =>
      if Nat.leb 3 (ndim (nv_values v)) then
        fun w =>
          (Ok tt,
           set_heap
             (<[ds := {| variables :=
                           <[name := {| nv_values := a; nv_units := nv_units v |}]>
                             (variables d);
                         ncattrs := ncattrs d |}]> (heap w)) w)
      else raise ValueError
  end.

(** [ds.__dict__]. *)
Definition ds_dict (ds : Dataset) : M (gmap string string) :=
  let! d := deref ds in ret (ncattrs d).

(** ** Constants *)

Definition PRESSURE_LEVELS : list Z :=
  [1000; 975; 950; 925; 900; 850; 800; 750; 700;
   650; 600; 550; 500; 450; 400; 350; 300; 250; 200]%Z.

Definition TIME_FORMAT : string := "%Y%m%d_%H_%M".

(** ** Longitudes *)

(** One element of [np.where(lon < 0, lon + 360, lon)]. The sum is exact
    here; numpy rounds it to the precision of the array, which keeps the
    order of the values and can store a sum just below 360 as 360. *)
Definition where_negative_add_360 (x : Q) : Q :=
  if Qlt_le_dec x 0 then (x + 360)%Q else x.

Definition convert_longitudes_to_0_360 (ds : Dataset) : M Dataset :=
  let! xlong := ds_getitem ds "XLONG" in
  let! lon := var_get_all3 xlong in
  let lon := nd_map where_negative_add_360 lon in
  let! _ := ds_setitem_all3 ds "XLONG" lon in
  ret ds.

(** ** Time stamps *)

Definition digit (n : nat) : ascii := ascii_of_nat (48 + n mod 10).

Fixpoint decimal_go (fuel n : nat) (acc : string) : string :=
  match fuel with
  | O => acc
  | S fuel' =>
      let acc' := String (digit n) acc in
      if Nat.eqb (n / 10) 0 then acc' else decimal_go fuel' (n / 10) acc'
  end.

(** [str(n)] for a natural number. *)
Definition decimal (n : nat) : string := decimal_go (S n) n EmptyString.

Fixpoint zeros (k : nat) : string :=
  match k with O => EmptyString | S k' => String "0" (zeros k') end.

(** ["%0<width>d" % n]. *)
Definition zero_padded (width n : nat) : string :=
  let s := decimal n in zeros (width - String.length s) ++ s.

(** One [strftime] directive; an unknown one is left as it is. *)
Definition strftime_directive (c : ascii) (t : datetime) : string :=
  if Ascii.eqb c "Y" then zero_padded 4 (year t)
  else if Ascii.eqb c "m" then zero_padded 2 (month t)
  else if Ascii.eqb c "d" then zero_padded 2 (day t)
  else if Ascii.eqb c "H" then zero_padded 2 (hour t)
  else if Ascii.eqb c "M" then zero_padded 2 (minute t)
  else if Ascii.eqb c "S" then zero_padded 2 (second t)
  else String "%" (String c EmptyString).

(** [t.strftime(fmt)]. *)
Fixpoint strftime (fmt : string) (t : datetime) : string :=
  match fmt with
  | EmptyString => EmptyString
  | String c rest =>
      if Ascii.eqb c "%" then
        match rest with
        | EmptyString => "%"
        | String c' rest' => strftime_directive c' t ++ strftime rest' t
        end
      else String c (strftime rest t)
  end.

(** ** Paths *)

Definition starts_with_slash (s : string) : bool :=
  match s with
  | String c _ => Ascii.eqb c "/"
  | EmptyString => false
  end.

Fixpoint ends_with_slash (s : string) : bool :=
  match s with
  | EmptyString => false
  | String c EmptyString => Ascii.eqb c "/"
  | String _ rest => ends_with_slash rest
  end.

(** [os.path.join(a, b)] of [posixpath]. *)
Definition os_path_join (a b : string) : string :=
  if starts_with_slash b then b
  else if (String.eqb a EmptyString || ends_with_slash a)%bool then a ++ b
  else a ++ "/" ++ b.

(** ** The container builder *)

Definition specify_dimensions_name (var : DataArray) : list string :=
  if Nat.eqb (ndim (da_data var)) 3 then ["lev"; "lat"; "lon"] else ["lat"; "lon"].

Definition filter_attrs (attrs : gmap string string) : gmap string string :=
  if bool_decide (is_Some (attrs !! "projection")) then delete "projection" attrs
  else attrs.

(** [xr.Variable(dims, data, attrs)]: as many names as axes. *)
Definition xr_Variable (dims : list string) (data : ndarray Q)
    (attrs : gmap string string) : outcome XrVariable :=
  if Nat.eqb (length dims) (ndim data)
  then Ok {| xv_dims := dims; xv_data := data; xv_attrs := attrs |}
  else Raise ValueError.

(** The position of a dimension name among the names of a variable. *)
Fixpoint dim_axis (dim : string) (dims : list string) : option nat :=
  match dims with
  | [] => None
  | d :: dims' =>
      if String.eqb d dim then Some 0%nat
      else match dim_axis dim dims' with Some i => Some (S i) | None => None end
  end.

(** A variable agrees with a coordinate when its axis of that name, if it
    has one, is as long as the coordinate. *)
Definition dim_size_ok (var : XrVariable) (dim : string) (n : nat) : bool :=
  match dim_axis dim (xv_dims var) with
  | None => true
  | Some i =>
      match axis_len (xv_data var) i with
      | Some k => Nat.eqb k n
      | None => false
      end
  end.

(** The values of a coordinate given as a bare array under the name of
    its dimension: an array with two axes or more is refused for want of
    dimension names. An array without axis would get no index, and the
    selection by label would fail on it: that failure is reported here. *)
Definition coord_values (a : ndarray Q) : outcome (list Q) :=
  match a with
  | Scalar _ => Raise KeyError
  | Arr xs =>
      mapM (fun x => match x with
                     | Scalar q => Ok q
                     | Arr _ | Empty _ _ => Raise ValueError
                     end) xs
  | Empty _ _ => Raise ValueError
  end.

(** [xr.Dataset(data_vars, coords, attrs)]: conflicting sizes raise. *)
Definition xr_Dataset (vars : list (string * XrVariable)) (lat lon : ndarray Q)
    (lev : list Z) (attrs : gmap string string) : outcome XrDataset :=
  match coord_values lat with
  | Raise e => Raise e
  | Ok lat =>
      match coord_values lon with
      | Raise e => Raise e
      | Ok lon =>
          if forallb (fun '(_, var) =>
                        (dim_size_ok var "lat" (length lat)
                         && dim_size_ok var "lon" (length lon)
                         && dim_size_ok var "lev" (length lev))%bool) vars
          then Ok {| data_vars := vars; coord_lat := lat; coord_lon := lon;
                     coord_lev := lev; xr_attrs := attrs |}
          else Raise ValueError
      end
  end.

Definition construct_xr_dataset (vars : list (string * DataArray))
    (lat lon : ndarray Q) (lev : list Z) (attrs : gmap string string)
    : outcome XrDataset :=
  match mapM (fun '(name, var) =>
                match xr_Variable (specify_dimensions_name var) (da_data var)
                        (filter_attrs (da_attrs var)) with
                | Ok xv => Ok (name, xv)
                | Raise e => Raise e
                end) vars with
  | Ok xvars => xr_Dataset xvars lat lon lev attrs
  | Raise e => Raise e
  end.

(** ** Label-based selection on a coordinate *)

(** One comparison of [np.searchsorted]: does the search continue to the
    right of [x]? ([side='left']: [x < key]; [side='right']: [x <= key].) *)
Definition goes_right (right : bool) (x key : Q) : bool :=
  if right then Qle_bool x key else negb (Qle_bool key x).

(** The binary search of [np.searchsorted] between [lo] and [hi]. *)
Fixpoint bisect (right : bool) (a : list Q) (key : Q) (fuel lo hi : nat) : nat :=
  match fuel with
  | O => lo
  | S fuel' =>
      if Nat.ltb lo hi then
        let mid := (lo + (hi - lo) / 2)%nat in
        match a !! mid with
        | Some x =>
            if goes_right right x key
            then bisect right a key fuel' (S mid) hi
            else bisect right a key fuel' lo mid
        | None => lo
        end
      else lo
  end.

Definition searchsorted (a : list Q) (key : Q) (right : bool) : nat :=
  bisect right a key (length a) 0 (length a).

(** [index.is_monotonic_increasing] (not strict). *)
Fixpoint is_monotonic_increasing (a : list Q) : bool :=
  match a with
  | [] => true
  | x :: a' =>
      match a' with
      | [] => true
      | y :: _ => (Qle_bool x y && is_monotonic_increasing a')%bool
      end
  end.

(** [var.isel({dim: slice(start, stop)})]. *)
Definition isel (var : XrVariable) (dim : string) (start stop : nat) : XrVariable :=
  match dim_axis dim (xv_dims var) with
  | Some i =>
      {| xv_dims := xv_dims var;
         xv_data := slice_axis (xv_data var) i start stop;
         xv_attrs := xv_attrs var |}
  | None => var
  end.

Record Args : Type := {
  inputfile : string;
  outputdir : string;
  prefix : string;
}.

(** [v[name] = values] on an [OrderedDict]: a known key keeps its place. *)
Fixpoint odict_set {V} (v : list (string * V)) (name : string) (values : V)
    : list (string * V) :=
  match v with
  | [] => [(name, values)]
  | (k, x) :: v' =>
      if String.eqb k name then (k, values) :: v' else (k, x) :: odict_set v' name values
  end.

(** [len(a)]. *)
Definition py_len {A} (a : ndarray A) : outcome nat :=
  match a with
  | Arr xs => Ok (length xs)
  | Empty _ _ => Ok 0%nat
  | Scalar _ => Raise TypeError
  end.

(** [a[0, :, 0]]: an index expression longer than the axes raises
    [ValueError], an integer index on an empty axis raises [IndexError]. *)
Definition index_0_all_0 (a : ndarray Q) : outcome (ndarray Q) :=
  match a with
  | Scalar _ | Arr [] | Empty _ [] => Raise ValueError
  | Empty _ (_ :: _) => Raise IndexError
  | Arr (Scalar _ :: _) | Arr (Arr [] :: _) => Raise ValueError
  | Arr (Empty n rest :: _) =>
      if Nat.eqb n 0 then Raise IndexError else Ok (empty_of rest)
  | Arr (Arr rows :: _) =>
      match mapM (fun row =>
                    match row with
                    | Scalar _ => Raise ValueError
                    | Arr [] | Empty _ _ => Raise IndexError
                    | Arr (x :: _) => Ok x
                    end) rows with
      | Ok xs => Ok (Arr xs)
      | Raise e => Raise e
      end
  end.

(** [a[0, 0, :]]. *)
Definition index_0_0_all (a : ndarray Q) : outcome (ndarray Q) :=
  match a with
  | Scalar _ | Arr [] | Empty _ [] => Raise ValueError
  | Empty _ (_ :: _) => Raise IndexError
  | Arr (Scalar _ :: _) | Arr (Arr [] :: _) => Raise ValueError
  | Arr (Empty _ _ :: _) => Raise IndexError
  | Arr (Arr (Scalar _ :: _) :: _) => Raise ValueError
  | Arr (Arr (Arr cols :: _) :: _) => Ok (Arr cols)
  | Arr (Arr (Empty n rest :: _) :: _) => Ok (Empty n rest)
  end.

(** ** The libraries the script calls *)

(** The script treats these as opaque capabilities. The diagnostics depend
    on the content of the dataset and on their arguments only. *)
Class Libraries : Type := {
  (** [wrf.getvar(ds, varname, units=...)]. *)
  wrf_getvar : NcDataset -> string -> option string -> outcome DataArray;
  (** [wrf.destagger(var, stagger_dim, meta=True)]. *)
  wrf_destagger : DataArray -> nat -> outcome DataArray;
  (** [wrf.interplevel(var, pressures, levels)]. *)
  wrf_interplevel : DataArray -> DataArray -> list Z -> outcome DataArray;
  (** [ph + phb] on two [DataArray]s. *)
  xr_add : DataArray -> DataArray -> outcome DataArray;
  (** [num2date] on one value, for given units. *)
  num2date_value : string -> Q -> outcome datetime;
  (** Whether [os.makedirs(path, exist_ok=True)] succeeds. *)
  os_makedirs_result : string -> outcome unit;
  (** Whether [ds.to_netcdf(path, mode='w', format='NETCDF4')] succeeds. *)
  to_netcdf_result : string -> XrDataset -> outcome unit;
  (** What [Index.slice_indexer] does on a coordinate that is not
      monotonically increasing: outside of what is modelled. *)
  slice_indexer_unordered : list Q -> Q -> Q -> outcome (nat * nat);
}.

(** ** The script *)

Section Script.
Context `{Libraries}.

Definition getvar (ds : Dataset) (varname : string) (units : option string)
    : M DataArray :=
  let! d := deref ds in
  let! _ := emit (EvGetvar varname units) in
  lift (wrf_getvar d varname units).

Definition calculate_vorticity (ds : Dataset) : M DataArray :=
  getvar ds "avo" None.

Definition calculate_geopotential (ds : Dataset) : M DataArray :=
  let! ph := getvar ds "PH" None in
  let! phb := getvar ds "PHB" None in
  let! hgt := lift (xr_add ph phb) in
  let! _ := emit EvDestagger in
  lift (wrf_destagger hgt 0).

Definition calculate_relative_humidity (ds : Dataset) : M DataArray :=
  getvar ds "rh" None.

Definition calculate_pressure (ds : Dataset) : M DataArray :=
  getvar ds "p" (Some "hPa").

Definition calculate_temperature (ds : Dataset) : M DataArray :=
  getvar ds "T" None.

Definition calculate_uwind (ds : Dataset) : M DataArray :=
  getvar ds "ua" (Some "m s-1").

Definition calculate_vwind (ds : Dataset) : M DataArray :=
  getvar ds "va" (Some "m s-1").

Definition calculate_wwind (ds : Dataset) : M DataArray :=
  getvar ds "wa" (Some "m s-1").

Definition calculate_slp (ds : Dataset) : M DataArray :=
  getvar ds "slp" (Some "hPa").

Definition calculate_cape (ds : Dataset) : M DataArray :=
  getvar ds "cape2d" None.

Definition extract_at_levels (var pressures : DataArray) (levels : list Z)
    : M DataArray :=
  let! _ := emit (EvInterplevel levels) in
  lift (wrf_interplevel var pressures levels).

(** [index.slice_indexer(lo, hi)]: on an increasing index, the positions
    from the first value [>= lo] up to the last value [<= hi]. *)
Definition slice_indexer (index : list Q) (lo hi : Q) : outcome (nat * nat) :=
  if is_monotonic_increasing index
  then Ok (searchsorted index lo false, searchsorted index hi true)
  else slice_indexer_unordered index lo hi.

(** [ds.sel] with a [slice] of [latrange] on [lat] and a [slice] of
    [lonrange] on [lon]. *)
Definition extract_in_domain (ds : XrDataset) (latrange lonrange : Q * Q)
    : outcome XrDataset :=
  match slice_indexer (coord_lat ds) (fst latrange) (snd latrange) with
  | Raise e => Raise e
  | Ok (lat0, lat1) =>
      match slice_indexer (coord_lon ds) (fst lonrange) (snd lonrange) with
      | Raise e => Raise e
      | Ok (lon0, lon1) =>
          Ok {| data_vars :=
                  map (fun '(name, var) =>
                         (name, isel (isel var "lat" lat0 lat1) "lon" lon0 lon1))
                      (data_vars ds);
                coord_lat := slice_list lat0 lat1 (coord_lat ds);
                coord_lon := slice_list lon0 lon1 (coord_lon ds);
                coord_lev := coord_lev ds;
                xr_attrs := xr_attrs ds |}
      end
  end.

(** [num2date(values, units)]: elementwise. *)
Definition num2date (values : ndarray Q) (units : string)
    : outcome (ndarray datetime) :=
  nd_mapM (num2date_value units) values.

(** [time[0].strftime(fmt)]. *)
Definition first_strftime (time : ndarray datetime) (fmt : string) : outcome string :=
  match time with
  | Arr (Scalar t :: _) => Ok (strftime fmt t)
  | Arr ((Arr _ | Empty _ _) :: _) => Raise AttributeError
  | Arr [] | Empty _ _ => Raise IndexError
  | Scalar _ => Raise TypeError
  end.

(** The table of the fields: name, diagnostic, interpolation flag. *)
Definition variables_table : list (string * (Dataset -> M DataArray) * bool) :=
  [ ("absvprs", calculate_vorticity, true);
    ("capesfc", calculate_cape, false);
    ("hgtprs", calculate_geopotential, true);
    ("rhprs", calculate_relative_humidity, true);
    ("tmpprs", calculate_temperature, true);
    ("ugrdprs", calculate_uwind, true);
    ("vgrdprs", calculate_vwind, true);
    ("vvelprs", calculate_wwind, true);
    ("slp", calculate_slp, false) ].

(** [except (ValueError, KeyError)]. *)
Definition recoverable (e : exn) : bool :=
  match e with
  | ValueError | KeyError => true
  | _ => false
  end.

(** The statements under [try] that produce the value of one field. *)
Definition compute_field (ds : Dataset) (pressures : DataArray)
    (fn : Dataset -> M DataArray) (do_extract_at_levels : bool) : M DataArray :=
  let! values := fn ds in
  if do_extract_at_levels
  then extract_at_levels values pressures PRESSURE_LEVELS
  else ret values.

(** One turn of the extraction loop. *)
Definition extract_variable (ds : Dataset) (pressures : DataArray)
    (v : list (string * DataArray))
    (entry : string * (Dataset -> M DataArray) * bool)
    : M (list (string * DataArray)) :=
  let '(name, fn, do_extract_at_levels) := entry in
  try_except
    (let! values := compute_field ds pressures fn do_extract_at_levels in
     let v := odict_set v name values in
     let! _ := emit (EvLogInfo name) in
     ret v)
    recoverable
    (fun _ => let! _ := emit (EvLogWarning name) in ret v).

Fixpoint extract_loop (ds : Dataset) (pressures : DataArray)
    (entries : list (string * (Dataset -> M DataArray) * bool))
    (v : list (string * DataArray)) : M (list (string * DataArray)) :=
  match entries with
  | [] => ret v
  | entry :: rest =>
      let! v := extract_variable ds pressures v entry in
      extract_loop ds pressures rest v
  end.

Definition LAT_RANGE : Q * Q := (5, 45)%Q.
Definition LON_RANGE : Q * Q := (100, 260)%Q.

(** The body of [if __name__ == '__main__'] is cut in three phases, run
    one after the other by [main]. *)

(** From the check of the input file to the check of the time count. *)
Definition load_snapshot (args : Args) : M (Dataset * ndarray datetime) :=
  let! isfile := os_path_isfile (inputfile args) in
  let! _ := assert isfile in
  let! ds := Dataset_open (inputfile args) in
  let! ds := convert_longitudes_to_0_360 ds in
  let! time := ds_variables_get ds "XTIME" in
  let! units := match nv_units time with
                | Some u => ret u
                | None => raise AttributeError
                end in
  let! time := lift (num2date (nv_values time) units) in
  let! n := lift (py_len time) in
  let! _ := assert (Nat.eqb n 1) in
  ret (ds, time).

(** The pressure field, then the extraction loop. *)
Definition extract_fields (ds : Dataset) : M (list (string * DataArray)) :=
  let! pressures := calculate_pressure ds in
  extract_loop ds pressures variables_table [].

(** The path given to [to_netcdf]. *)
Definition output_path (args : Args) (stamp : string) : string :=
  os_path_join (outputdir args) (prefix args ++ "_" ++ stamp ++ ".nc").

(** The container, the crop and the file. *)
Definition export (args : Args) (ds : Dataset) (time : ndarray datetime)
    (v : list (string * DataArray)) : M unit :=
  let! xlat := ds_getitem ds "XLAT" in
  let! lat_coord := lift (index_0_all_0 (nv_values xlat)) in
  let! xlong := ds_getitem ds "XLONG" in
  let! lon_coord := lift (index_0_0_all (nv_values xlong)) in
  let! attrs := ds_dict ds in
  let! xds := lift (construct_xr_dataset v lat_coord lon_coord PRESSURE_LEVELS attrs) in
  let! xds := lift (extract_in_domain xds LAT_RANGE LON_RANGE) in
  let! _ := emit (EvMakedirs (outputdir args)) in
  let! _ := lift (os_makedirs_result (outputdir args)) in
  let! stamp := lift (first_strftime time TIME_FORMAT) in
  let path := output_path args stamp in
  let! _ := emit (EvToNetcdf path xds) in
  lift (to_netcdf_result path xds).

Definition main (args : Args) : M unit :=
  let! (ds, time) := load_snapshot args in
  let! stamp := lift (first_strftime time TIME_FORMAT) in
  let! _ := emit (EvPrint stamp) in
  let! v := extract_fields ds in
  export args ds time v.

End Script.

(** ** A small snapshot and a small library, for concrete runs *)

Module Sample.

Definition row (xs : list Q) : ndarray Q := Arr (map Scalar xs).

(** One time, three rows, four columns; the grid crosses the date line. *)
Definition xlong_values : ndarray Q :=
  Arr [Arr [row [90; 150; -170; -90]; row [90; 150; -170; -90];
            row [90; 150; -170; -90]]]%Q.

Definition xlat_values : ndarray Q :=
  Arr [Arr [row [0; 0; 0; 0]; row [10; 10; 10; 10]; row [50; 50; 50; 50]]]%Q.

Definition time_units : string := "minutes since 2008-05-05 00:00:00".

Definition xlong : NcVariable :=
  {| nv_values := xlong_values; nv_units := Some "degree_east" |}.

Definition xlat : NcVariable :=
  {| nv_values := xlat_values; nv_units := Some "degree_north" |}.

Definition xtime (times : list Q) : NcVariable :=
  {| nv_values := row times; nv_units := Some time_units |}.

Definition snapshot_with_times (times : list Q) : NcDataset :=
  {| variables :=
       <["XLONG" := xlong]> (<["XLAT" := xlat]> (<["XTIME" := xtime times]> ∅));
     ncattrs := <["TITLE" := "OUTPUT FROM WRF"]> (<["projection" := "global"]> ∅) |}.

Definition snapshot : NcDataset := snapshot_with_times [0]%Q.

Definition world : World :=
  {| fs := <["wrfout.nc" := NetCDFFile snapshot]>
           (<["two_times.nc" := NetCDFFile (snapshot_with_times [0; 180]%Q)]>
           (<["no_time.nc" := NetCDFFile (snapshot_with_times [])]>
           (<["notes.txt" := OtherFile]> ∅)));
     heap := ∅;
     next_ref := 0;
     trace := [] |}.

Definition args_of (input : string) : Args :=
  {| inputfile := input; outputdir := "out"; prefix := "wrf" |}.

Definition args : Args := args_of "wrfout.nc".

Definition field_attrs : gmap string string :=
  <["units" := "s-1"]> (<["projection" := "LambertConformal"]> ∅).

Definition plane : ndarray Q :=
  Arr [row [1; 2; 3; 4]; row [5; 6; 7; 8]; row [9; 10; 11; 12]]%Q.

Definition field2d : DataArray := {| da_data := plane; da_attrs := field_attrs |}.

Definition field3d : DataArray :=
  {| da_data := Arr [plane; plane]; da_attrs := field_attrs |}.

(** The time value of the sample runs. *)
Definition date : datetime :=
  {| year := 2008; month := 5; day := 5; hour := 0; minute := 0; second := 0 |}.

(** A library in which the diagnostic [failing] raises [e], and every
    other one yields a field of the shape of the grid. *)
Definition library_failing (failing : string) (e : exn) : Libraries :=
  {| wrf_getvar d varname units :=
       if String.eqb varname failing then Raise e
       else if (String.eqb varname "cape2d" || String.eqb varname "slp")%bool
            then Ok field2d else Ok field3d;
     wrf_destagger var _ := Ok var;
     wrf_interplevel var _ levels :=
       Ok {| da_data := Arr (map (fun _ => plane) levels);
             da_attrs := da_attrs var |};
     xr_add a _ := Ok a;
     num2date_value _ x := Ok date;
     os_makedirs_result _ := Ok tt;
     to_netcdf_result _ _ := Ok tt;
     slice_indexer_unordered _ _ _ := Raise KeyError |}.

(** Relative humidity cannot be computed: a variable is missing. *)
Definition library : Libraries := library_failing "rh" KeyError.

(** The world once the input file is open. *)
Definition opened : World := (Dataset_open "wrfout.nc" world).2.

(** A prefix that is an absolute path. *)
Definition args_absolute_prefix : Args :=
  {| inputfile := "wrfout.nc"; outputdir := "out"; prefix := "/tmp/wrf" |}.

(** What the last call of [to_netcdf] in a trace was given. *)
Definition last_written (evs : list Event) : option (string * XrDataset) :=
  match last evs with
  | Some (EvToNetcdf path content) => Some (path, content)
  | _ => None
  end.

Definition empty_dataset : XrDataset :=
  {| data_vars := []; coord_lat := []; coord_lon := []; coord_lev := [];
     xr_attrs := ∅ |}.

(** The dataset that the run on [args] writes with [library]. *)
Definition output : XrDataset :=
  match last_written (trace (@main library args world).2) with
  | Some (_, content) => content
  | None => empty_dataset
  end.

(** A file that holds no variable at all. *)
Definition bare_snapshot : NcDataset := {| variables := ∅; ncattrs := ∅ |}.

Definition bare_world : World :=
  {| fs := <["bare.nc" := NetCDFFile bare_snapshot]> ∅;
     heap := ∅;
     next_ref := 0;
     trace := [] |}.

(** The library of the sample runs where no directory can be created. *)
Definition library_read_only : Libraries :=
  {| wrf_getvar := @wrf_getvar library;
     wrf_destagger := @wrf_destagger library;
     wrf_interplevel := @wrf_interplevel library;
     xr_add := @xr_add library;
     num2date_value := @num2date_value library;
     os_makedirs_result _ := Raise OSError;
     to_netcdf_result := @to_netcdf_result library;
     slice_indexer_unordered := @slice_indexer_unordered library |}.

(** The mapping that the loop of the sample run leaves. *)
Definition extracted : list (string * DataArray) :=
  match (@extract_loop library 0%nat field3d (@variables_table library) []
           opened).1 with
  | Ok v => v
  | Raise _ => []
  end.

(** The latitude column and the longitude row of the sample grid, the
    longitudes rewritten. *)
Definition lat_coord : ndarray Q := row [0; 10; 50]%Q.
Definition lon_coord : ndarray Q := row [90; 150; 190; 270]%Q.

(** The container of the sample run before the crop. *)
Definition assembled : XrDataset :=
  match construct_xr_dataset extracted lat_coord lon_coord PRESSURE_LEVELS
          (ncattrs snapshot) with
  | Ok xds => xds
  | Raise _ => empty_dataset
  end.

(** The crop of [assembled] to the window of the script. *)
Definition cropped : XrDataset :=
  match @extract_in_domain library assembled (5, 45)%Q (100, 260)%Q with
  | Ok xds => xds
  | Raise _ => empty_dataset
  end.

(** A file whose record axis is empty: no time value, and longitudes and
    latitudes of shape [(0, 3, 4)]. *)
Definition zero_records : NcDataset :=
  {| variables :=
       <["XLONG" := {| nv_values := Empty 3 [4%nat]; nv_units := Some "degree_east" |}]>
         (<["XLAT" := {| nv_values := Empty 3 [4%nat];
                         nv_units := Some "degree_north" |}]>
            (<["XTIME" := xtime []]> ∅));
     ncattrs := ∅ |}.

Definition zero_records_world : World :=
  {| fs := <["empty.nc" := NetCDFFile zero_records]> ∅;
     heap := ∅;
     next_ref := 0;
     trace := [] |}.

(** A field with three axes, the second of which is empty: shape
    [(2, 0, 4)]. *)
Definition hollow : DataArray :=
  {| da_data := Arr [Empty 4 []; Empty 4 []]; da_attrs := field_attrs |}.

(** A field with one axis only. *)
Definition profile : DataArray :=
  {| da_data := row [1; 2; 3]%Q; da_attrs := field_attrs |}.

(** Half a minute after [date]. *)
Definition date_later : datetime :=
  {| year := 2008; month := 5; day := 5; hour := 0; minute := 0; second := 30 |}.

End Sample.

(** ** Notions used by the statements *)

(** The events a computation has added to the trace. *)
Definition new_events (w w' : World) : list Event :=
  drop (length (trace w)) (trace w').

(** The content of a dataset after the longitude rewrite. *)
Definition with_normalised_longitudes (d : NcDataset) (xlong : NcVariable) : NcDataset :=
  {| variables :=
       <["XLONG" := {| nv_values := nd_map where_negative_add_360 (nv_values xlong);
                       nv_units := nv_units xlong |}]> (variables d);
     ncattrs := ncattrs d |}.

(** [lo <= x <= hi]. *)
Definition in_window (lo hi x : Q) : bool := (Qle_bool lo x && Qle_bool x hi)%bool.

(** The events of the extraction phase: calls of the diagnostics library,
    with the fixed levels as the only interpolation target, and log lines. *)
Inductive extraction_event : Event -> Prop :=
  | ee_getvar varname units : extraction_event (EvGetvar varname units)
  | ee_destagger : extraction_event EvDestagger
  | ee_interplevel : extraction_event (EvInterplevel PRESSURE_LEVELS)
  | ee_info name : extraction_event (EvLogInfo name)
  | ee_warning name : extraction_event (EvLogWarning name).

(** A call of the pressure diagnostic. *)
Definition is_pressure_call (ev : Event) : bool :=
  match ev with
  | EvGetvar varname (Some units) => (String.eqb varname "p" && String.eqb units "hPa")%bool
  | _ => false
  end.

(** A call of [to_netcdf]. *)
Definition is_write (ev : Event) : bool :=
  match ev with
  | EvToNetcdf _ _ => true
  | _ => false
  end.

(** [name in v] and [v[name]] on the ordered dict. *)
Fixpoint odict_get {V} (v : list (string * V)) (name : string) : option V :=
  match v with
  | [] => None
  | (k, x) :: v' => if String.eqb k name then Some x else odict_get v' name
  end.

(** [m] only adds events that satisfy [P], leaves the open datasets and the
    files as they are, and its outcome depends on the open datasets only. *)
Definition emits {A} (P : Event -> Prop) (m : M A) : Prop :=
  forall w,
    (exists evs, trace (m w).2 = trace w ++ evs /\ Forall P evs) /\
    heap (m w).2 = heap w /\
    fs (m w).2 = fs w /\
    (forall w2, heap w2 = heap w -> (m w2).1 = (m w).1).

(** The events of one turn of the loop: no call of the pressure diagnostic. *)
Definition field_event (ev : Event) : Prop :=
  extraction_event ev /\ is_pressure_call ev = false.

Definition field_name (entry : string * (Dataset -> M DataArray) * bool) : string :=
  entry.1.1.

(** What the statements under [try] yield for one entry of the table. *)
Definition field_outcome `{Libraries} (ds : Dataset) (pressures : DataArray)
    (entry : string * (Dataset -> M DataArray) * bool) (w : World) : outcome DataArray :=
  (compute_field ds pressures entry.1.2 entry.2 w).1.

(** The facts behind a call of [to_netcdf] in a run of [main]. *)
Inductive Written `{Libraries} (args : Args) (w : World) : string -> XrDataset -> Prop :=
  | Written_intro d xlong xlat tv u x t ds w1 v lat lon assembled out :
      fs w !! inputfile args = Some (NetCDFFile d) ->
      variables d !! "XLONG" = Some xlong ->
      (3 <= ndim (nv_values xlong))%nat ->
      variables d !! "XTIME" = Some tv ->
      nv_units tv = Some u ->
      nv_values tv = Arr [Scalar x] ->
      num2date_value u x = Ok t ->
      heap w1 !! ds = Some (with_normalised_longitudes d xlong) ->
      (extract_fields ds w1).1 = Ok v ->
      variables d !! "XLAT" = Some xlat ->
      index_0_all_0 (nv_values xlat) = Ok lat ->
      index_0_0_all (nd_map where_negative_add_360 (nv_values xlong)) = Ok lon ->
      construct_xr_dataset v lat lon PRESSURE_LEVELS (ncattrs d) = Ok assembled ->
      extract_in_domain assembled LAT_RANGE LON_RANGE = Ok out ->
      os_makedirs_result (outputdir args) = Ok tt ->
      Written args w (output_path args (strftime TIME_FORMAT t)) out.

(** The call of the pressure diagnostic. *)
Definition pressure_call : Event := EvGetvar "p" (Some "hPa").

(** The shapes the events of a run can take: nothing; the time stamp, the
    pressure call and events of the loop; then the directory; then the
    file. *)
Inductive main_events `{Libraries} (args : Args) (w : World) : list Event -> Prop :=
  | me_early : main_events args w []
  | me_extracting stamp evs :
      Forall field_event evs ->
      main_events args w (EvPrint stamp :: pressure_call :: evs)
  | me_makedirs stamp evs :
      Forall field_event evs ->
      main_events args w
        (EvPrint stamp :: pressure_call :: evs ++ [EvMakedirs (outputdir args)])
  | me_written stamp evs path out :
      Forall field_event evs ->
      Written args w path out ->
      main_events args w
        (EvPrint stamp :: pressure_call :: evs
           ++ [EvMakedirs (outputdir args); EvToNetcdf path out]).

(** Values never decrease along the list. *)
Definition sorted_Q (a : list Q) : Prop :=
  forall i j x y, (i <= j)%nat -> a !! i = Some x -> a !! j = Some y -> (x <= y)%Q.

(** The levels named by an event are the fixed ones. *)
Definition levels_fixed (ev : Event) : Prop :=
  match ev with
  | EvInterplevel levels => levels = PRESSURE_LEVELS
  | EvToNetcdf _ content => coord_lev content = PRESSURE_LEVELS
  | _ => True
  end.

(** Whether a computation has yielded a value. *)
Definition succeeded {A} (r : outcome A) : bool :=
  match r with Ok _ => true | Raise _ => false end.

(** The calls of [logging.info] and [logging.warning]. *)
Definition is_logging_call (ev : Event) : bool :=
  match ev with
  | EvLogInfo _ | EvLogWarning _ => true
  | _ => false
  end.

(** The logging calls that a list of field outcomes leads to: a call of
    [logging.info] for a value, a call of [logging.warning] for an
    exception that the loop catches, and nothing from the first exception
    that it does not catch. *)
Fixpoint logging_calls (results : list (string * outcome DataArray)) : list Event :=
  match results with
  | [] => []
  | (name, Ok _) :: rest => EvLogInfo name :: logging_calls rest
  | (name, Raise e) :: rest =>
      if recoverable e then EvLogWarning name :: logging_calls rest else []
  end.

(** The calls that write a line to the log. The script configures no
    logger, so the root logger keeps its default level [WARNING]: a call
    of [logging.warning] writes a line, a call of [logging.info] writes
    none. *)
Definition writes_log_line (ev : Event) : bool :=
  match ev with
  | EvLogWarning _ => true
  | _ => false
  end.

(** The fields that a list of field outcomes drops: those with an
    exception that the loop catches, up to the first exception that it
    does not catch. *)
Fixpoint dropped_fields (results : list (string * outcome DataArray)) : list string :=
  match results with
  | [] => []
  | (_, Ok _) :: rest => dropped_fields rest
  | (name, Raise e) :: rest =>
      if recoverable e then name :: dropped_fields rest else []
  end.

(** Every element of an array passes the test [p]. *)
Fixpoint nd_forallb {A} (p : A -> bool) (a : ndarray A) : bool :=
  match a with
  | Scalar x => p x
  | Arr xs => forallb (nd_forallb p) xs
  | Empty _ _ => true
  end.

(** The number that a string of decimal digits writes, after [acc]. *)
Fixpoint digits_value (s : string) (acc : nat) : nat :=
  match s with
  | EmptyString => acc
  | String c rest => digits_value rest (10 * acc + (nat_of_ascii c - 48))
  end.

(** The fields of a time value that [TIME_FORMAT] prints fill their
    width: four digits for the year, two for the others. *)
Definition in_calendar_range (t : datetime) : Prop :=
  (1000 <= year t /\ year t < 10000 /\ month t < 100 /\ day t < 100
   /\ hour t < 100 /\ minute t < 100)%nat.

(** * Properties *)

(** ** The monad *)

Lemma bind_run {A B} (m : M A) (k : A -> M B) (w : World) :
  bind m k w =
  match m w with
  | (Ok a, w') => k a w'
  | (Raise e, w') => (Raise e, w')
  end.
Proof. reflexivity. Qed.

Lemma bind_ok {A B} (m : M A) (k : A -> M B) w a w' :
  m w = (Ok a, w') -> bind m k w = k a w'.
Proof. intros E. unfold bind. now rewrite E. Qed.

Lemma bind_raise {A B} (m : M A) (k : A -> M B) w e w' :
  m w = (Raise e, w') -> bind m k w = (Raise e, w').
Proof. intros E. unfold bind. now rewrite E. Qed.

Lemma new_events_app w w' evs :
  trace w' = trace w ++ evs -> new_events w w' = evs.
Proof.
  intros E. unfold new_events. rewrite E. now rewrite drop_app_length.
Qed.

(** One step of a run: the first computation of a [bind] either yields a
    value or raises. *)
Tactic Notation "step" hyp(H) "as" ident(a) ident(w1) ident(E) :=
  match type of H with
  | bind ?m ?k ?w = _ =>
      let e := fresh "e" in
      rewrite bind_run in H; destruct (m w) as [[a | e] w1] eqn:E
  end.

Ltac done_run H := inversion H; subst; clear H.

Lemma assert_inv b w r w' :
  assert b w = (r, w') ->
  w' = w /\
  (r = Ok tt /\ b = true \/ r = Raise AssertionError /\ b = false).
Proof. destruct b; intros E; inversion E; auto. Qed.

Lemma lift_inv {A} (o : outcome A) w r w' : lift o w = (r, w') -> w' = w /\ o = r.
Proof. intros E; inversion E; auto. Qed.

Lemma emit_inv ev w r w' :
  emit ev w = (r, w') ->
  r = Ok tt /\ trace w' = trace w ++ [ev] /\ heap w' = heap w /\ fs w' = fs w.
Proof. intros E. inversion E. auto. Qed.

Lemma deref_run ds w d : heap w !! ds = Some d -> deref ds w = (Ok d, w).
Proof. intros E. unfold deref. now rewrite E. Qed.

Lemma deref_inv ds w r w' :
  deref ds w = (r, w') ->
  w' = w /\ match r with Ok d => heap w !! ds = Some d | Raise _ => heap w !! ds = None end.
Proof. unfold deref. destruct (heap w !! ds); intros E; inversion E; auto. Qed.

Lemma ds_getitem_inv ds name w r w' :
  ds_getitem ds name w = (r, w') ->
  w' = w /\
  match r with
  | Ok v => exists d, heap w !! ds = Some d /\ variables d !! name = Some v
  | Raise _ => True
  end.
Proof.
  unfold ds_getitem. intros E. step E as a w1 E0.
  - apply deref_inv in E0 as [-> Hd].
    destruct (variables a !! name) eqn:Hv; done_run E; eauto.
  - apply deref_inv in E0 as [-> Hd]. done_run E. auto.
Qed.

Lemma ds_variables_get_inv ds name w r w' :
  ds_variables_get ds name w = (r, w') ->
  w' = w /\
  match r with
  | Ok v => exists d, heap w !! ds = Some d /\ variables d !! name = Some v
  | Raise _ => True
  end.
Proof.
  unfold ds_variables_get. intros E. step E as a w1 E0.
  - apply deref_inv in E0 as [-> Hd].
    destruct (variables a !! name) eqn:Hv; done_run E; eauto.
  - apply deref_inv in E0 as [-> Hd]. done_run E. auto.
Qed.

Lemma ds_dict_inv ds w r w' :
  ds_dict ds w = (r, w') ->
  w' = w /\
  match r with
  | Ok attrs => exists d, heap w !! ds = Some d /\ attrs = ncattrs d
  | Raise _ => True
  end.
Proof.
  unfold ds_dict. intros E. step E as d w1 E0; apply deref_inv in E0 as [-> Hd];
    done_run E; eauto.
Qed.

Lemma Dataset_open_inv path w r w' :
  Dataset_open path w = (r, w') ->
  trace w' = trace w /\ fs w' = fs w /\
  match r with
  | Ok ds => exists d, fs w !! path = Some (NetCDFFile d) /\ heap w' !! ds = Some d
  | Raise _ => True
  end.
Proof.
  unfold Dataset_open. destruct (fs w !! path) as [[d |] |]; intros E; done_run E; simpl; auto.
  repeat split; auto. exists d. split; [reflexivity |]. apply lookup_insert_eq.
Qed.

(** ** Arrays and lists *)

Lemma nd_get_nd_map {A B} (f : A -> B) (a : ndarray A) :
  forall idx, nd_get (nd_map f a) idx = f <$> nd_get a idx.
Proof.
  induction a as [x | xs IH | n rest] using ndarray_nested_ind; intros idx.
  - destruct idx; reflexivity.
  - destruct idx as [| i idx]; [reflexivity |].
    simpl. rewrite list_lookup_fmap.
    destruct (xs !! i) as [y |] eqn:E; simpl; [| reflexivity].
    rewrite Forall_forall in IH. apply IH.
    eapply list_elem_of_lookup_2; eassumption.
  - destruct idx; reflexivity.
Qed.

Lemma ndim_shape {A} (a : ndarray A) : ndim a = length (shape a).
Proof.
  induction a as [x | xs IH | n rest] using ndarray_nested_ind;
    [reflexivity | | reflexivity].
  simpl. f_equal. destruct xs as [| y ys]; [reflexivity |]. now inversion IH.
Qed.

(** Shapes under elementwise conversion. *)
Lemma mapM_Forall2 {A B} (f : A -> outcome B) (l : list A) (ys : list B) :
  mapM f l = Ok ys -> Forall2 (fun x y => f x = Ok y) l ys.
Proof.
  revert ys. induction l as [| x l IH]; intros ys E; simpl in E.
  - injection E as <-. constructor.
  - destruct (f x) as [y | e] eqn:Hx; [| discriminate].
    destruct (mapM f l) as [ys' | e]; [| discriminate].
    injection E as <-. constructor; auto.
Qed.

Lemma mapM_raise {A B} (f : A -> outcome B) (l : list A) (e : exn) :
  (forall x e', x ∈ l -> f x = Raise e' -> e' = e) ->
  (exists x, x ∈ l /\ exists e', f x = Raise e') ->
  mapM f l = Raise e.
Proof.
  induction l as [| y l IH]; intros Hall (x & Hx & e' & Hfx).
  - inversion Hx.
  - simpl. destruct (f y) as [b | e1] eqn:Hy.
    + rewrite IH; [reflexivity | |].
      * intros x0 e0 Hx0. apply Hall. now right.
      * apply elem_of_cons in Hx as [-> | Hx]; [congruence |].
        exists x. split; [exact Hx |]. now exists e'.
    + f_equal. eapply Hall; [| exact Hy]. now left.
Qed.

Lemma mapM_scalars {A B} (f : A -> outcome B) (xs : list A) (ys : list B) :
  mapM f xs = Ok ys ->
  mapM (nd_mapM f) (Scalar <$> xs) = Ok (Scalar <$> ys) /\ length ys = length xs.
Proof.
  revert ys. induction xs as [| x xs IH]; intros ys E; simpl in E.
  - injection E as <-. auto.
  - destruct (f x) as [y |] eqn:Hx; [| discriminate].
    destruct (mapM f xs) as [ys' |]; [| discriminate].
    injection E as <-. destruct (IH ys' eq_refl) as [IH1 IH2].
    change (Scalar <$> x :: xs) with (Scalar x :: (Scalar <$> xs)).
    cbn [mapM nd_mapM]. rewrite Hx, IH1. simpl. auto.
Qed.

Lemma nd_mapM_size {A B} (f : A -> outcome B) (a : ndarray A) :
  forall b, nd_mapM f a = Ok b -> nd_size b = nd_size a.
Proof.
  induction a as [x | xs IH | n rest] using ndarray_nested_ind;
    intros b E; simpl in E.
  - destruct (f x); [| discriminate]. now injection E as <-.
  - destruct (mapM (nd_mapM f) xs) as [ys | e] eqn:Hm; [| discriminate].
    injection E as <-. apply mapM_Forall2 in Hm. simpl.
    induction Hm as [| x y xs' ys' Hxy Hrest IHrest]; [reflexivity |].
    simpl. inversion IH; subst. f_equal; auto.
  - now injection E as <-.
Qed.

Lemma nd_mapM_single {A B} (f : A -> outcome B) (a : ndarray A) (y : B) :
  nd_mapM f a = Ok (Arr [Scalar y]) -> exists x, a = Arr [Scalar x] /\ f x = Ok y.
Proof.
  destruct a as [x | xs | n rest]; simpl.
  - destruct (f x); discriminate.
  - destruct (mapM (nd_mapM f) xs) as [ys | e] eqn:Hm; [| discriminate].
    intros E. injection E as ->. apply mapM_Forall2 in Hm.
    inversion Hm as [| x0 y0 xs0 ys0 Hx Hrest]; subst.
    inversion Hrest; subst.
    destruct x0 as [x | zs | n rest]; simpl in Hx.
    + destruct (f x) eqn:Hf; [| discriminate]. injection Hx as ->. eauto.
    + destruct (mapM (nd_mapM f) zs); discriminate.
    + discriminate.
  - discriminate.
Qed.

Lemma last_elem_of {A} (l : list A) (x : A) : last l = Some x -> x ∈ l.
Proof.
  induction l as [| y l IH]; [discriminate |].
  destruct l as [| z l]; simpl.
  - intros E. injection E as ->. left.
  - intros E. right. now apply IH.
Qed.

(** ** The ordered dict *)

Lemma odict_get_set_eq {V} (v : list (string * V)) name x :
  odict_get (odict_set v name x) name = Some x.
Proof.
  induction v as [| [k y] v IH]; simpl.
  - now rewrite String.eqb_refl.
  - destruct (String.eqb k name) eqn:E; simpl; rewrite E; auto.
Qed.

Lemma odict_get_set_ne {V} (v : list (string * V)) name name' x :
  name <> name' -> odict_get (odict_set v name x) name' = odict_get v name'.
Proof.
  intros Hne. induction v as [| [k y] v IH]; simpl.
  - destruct (String.eqb_spec name name'); congruence.
  - destruct (String.eqb_spec k name) as [-> | Hk]; simpl.
    + destruct (String.eqb_spec name name'); congruence.
    + destruct (String.eqb_spec k name'); auto.
Qed.

(** ** Strings, paths and time stamps *)

Lemma string_app_nil_r (s : string) : (s ++ EmptyString)%string = s.
Proof.
  induction s as [| c s IH]; [reflexivity |].
  change (String c (s ++ EmptyString)%string = String c s). now rewrite IH.
Qed.

Lemma string_length_app (s1 s2 : string) :
  String.length (s1 ++ s2)%string = (String.length s1 + String.length s2)%nat.
Proof.
  induction s1 as [| c s1 IH]; [reflexivity |].
  change (S (String.length (s1 ++ s2)%string)
          = S (String.length s1 + String.length s2)). now rewrite IH.
Qed.

Lemma strftime_TIME_FORMAT (t : datetime) :
  strftime TIME_FORMAT t =
  (zero_padded 4 (year t) ++ zero_padded 2 (month t) ++ zero_padded 2 (day t)
     ++ "_" ++ zero_padded 2 (hour t) ++ "_" ++ zero_padded 2 (minute t))%string.
Proof.
  unfold TIME_FORMAT. cbn [strftime strftime_directive Ascii.eqb Bool.eqb].
  now rewrite string_app_nil_r.
Qed.

Lemma zero_padded_length_4 (n : nat) :
  (n < 10000)%nat -> String.length (zero_padded 4 n) = 4%nat.
Proof.
  intros Hn.
  assert (Hall : forallb (fun k => Nat.eqb (String.length (zero_padded 4 k)) 4)
                   (seq 0 10000) = true) by (vm_compute; reflexivity).
  rewrite forallb_forall in Hall. apply Nat.eqb_eq, Hall, in_seq. lia.
Qed.

Lemma zero_padded_length_2 (n : nat) :
  (n < 100)%nat -> String.length (zero_padded 2 n) = 2%nat.
Proof.
  intros Hn.
  assert (Hall : forallb (fun k => Nat.eqb (String.length (zero_padded 2 k)) 2)
                   (seq 0 100) = true) by (vm_compute; reflexivity).
  rewrite forallb_forall in Hall. apply Nat.eqb_eq, Hall, in_seq. lia.
Qed.

Lemma starts_with_slash_app (s rest : string) :
  starts_with_slash (s ++ "_" ++ rest)%string = starts_with_slash s.
Proof. destruct s; reflexivity. Qed.

Lemma os_path_join_cases (a b : string) :
  (starts_with_slash b = true -> os_path_join a b = b) /\
  (starts_with_slash b = false -> ends_with_slash a = true ->
   os_path_join a b = (a ++ b)%string) /\
  (starts_with_slash b = false -> ends_with_slash a = false -> a <> EmptyString ->
   os_path_join a b = (a ++ "/" ++ b)%string).
Proof.
  unfold os_path_join. repeat split.
  - now intros ->.
  - intros -> ->. now rewrite orb_true_r.
  - intros -> -> Ha. destruct (String.eqb_spec a EmptyString); [contradiction | reflexivity].
Qed.

(** ** Longitude normalisation *)

Lemma where_negative x : (x < 0)%Q -> where_negative_add_360 x = (x + 360)%Q.
Proof.
  intros Hx. unfold where_negative_add_360.
  destruct (Qlt_le_dec x 0) as [_ | Hge]; [reflexivity |].
  exfalso. apply (Qlt_not_le _ _ Hx Hge).
Qed.

Lemma where_nonnegative x : (0 <= x)%Q -> where_negative_add_360 x = x.
Proof.
  intros Hx. unfold where_negative_add_360.
  destruct (Qlt_le_dec x 0) as [Hlt | _]; [| reflexivity].
  exfalso. apply (Qlt_not_le _ _ Hlt Hx).
Qed.

Lemma convert_longitudes_run ds w d xlong :
  heap w !! ds = Some d ->
  variables d !! "XLONG" = Some xlong ->
  (3 <= ndim (nv_values xlong))%nat ->
  convert_longitudes_to_0_360 ds w =
  (Ok ds, set_heap (<[ds := with_normalised_longitudes d xlong]> (heap w)) w).
Proof.
  intros Hd Hx Hn. apply Nat.leb_le in Hn. unfold convert_longitudes_to_0_360.
  unfold ds_getitem at 1.
  rewrite (bind_ok _ _ w xlong w).
  2:{ rewrite (bind_ok _ _ w d w) by now apply deref_run. now rewrite Hx. }
  rewrite (bind_ok _ _ w (nv_values xlong) w).
  2:{ unfold var_get_all3. now rewrite Hn. }
  unfold ds_setitem_all3.
  erewrite bind_ok; [reflexivity |].
  rewrite (bind_ok _ _ w d w) by now apply deref_run.
  rewrite Hx, Hn. reflexivity.
Qed.

Lemma convert_longitudes_cases ds w :
  (exists d xlong,
      heap w !! ds = Some d /\ variables d !! "XLONG" = Some xlong /\
      (3 <= ndim (nv_values xlong))%nat) \/
  (exists e, convert_longitudes_to_0_360 ds w = (Raise e, w)).
Proof.
  destruct (heap w !! ds) as [d |] eqn:Hd.
  - destruct (variables d !! "XLONG") as [xlong |] eqn:Hx.
    + destruct (Nat.leb 3 (ndim (nv_values xlong))) eqn:Hn.
      * left. exists d, xlong. apply Nat.leb_le in Hn. auto.
      * right. exists ValueError. unfold convert_longitudes_to_0_360, ds_getitem.
        rewrite (bind_ok _ _ w xlong w).
        2:{ rewrite (bind_ok _ _ w d w) by now apply deref_run. now rewrite Hx. }
        apply bind_raise. unfold var_get_all3. now rewrite Hn.
    + right. exists IndexError. unfold convert_longitudes_to_0_360, ds_getitem.
      apply bind_raise. rewrite (bind_ok _ _ w d w) by now apply deref_run.
      now rewrite Hx.
  - right. exists (Exception "RuntimeError").
    unfold convert_longitudes_to_0_360, ds_getitem.
    apply bind_raise. apply bind_raise. unfold deref. now rewrite Hd.
Qed.

Lemma convert_longitudes_inv ds w r w' :
  convert_longitudes_to_0_360 ds w = (r, w') ->
  (exists e, r = Raise e /\ w' = w) \/
  (exists d xlong,
      heap w !! ds = Some d /\ variables d !! "XLONG" = Some xlong /\
      (3 <= ndim (nv_values xlong))%nat /\ r = Ok ds /\
      w' = set_heap (<[ds := with_normalised_longitudes d xlong]> (heap w)) w).
Proof.
  intros E. destruct (convert_longitudes_cases ds w) as [(d & xlong & Hd & Hx & Hn) | (e & He)].
  - rewrite (convert_longitudes_run ds w d xlong Hd Hx Hn) in E. done_run E.
    right. exists d, xlong. auto.
  - rewrite He in E. done_run E. left. eauto.
Qed.

(** C2. On a dataset whose [XLONG] has at least three axes (the script
    indexes it with three slices), the call returns the
    reference it was given, and the dataset behind that reference holds, at
    every position of [XLONG], [x + 360] where it held a negative [x] and
    [x] where it held a non-negative [x]. Nothing else changes: the other
    variables, the global attributes, the other open datasets, the files
    and the trace are as before. *)
Theorem convert_longitudes_to_0_360_in_place
    (ds : Dataset) (w : World) (d : NcDataset) (xlong : NcVariable) :
  heap w !! ds = Some d ->
  variables d !! "XLONG" = Some xlong ->
  (3 <= ndim (nv_values xlong))%nat ->
  exists w' d' xlong',
    convert_longitudes_to_0_360 ds w = (Ok ds, w') /\
    heap w' !! ds = Some d' /\
    variables d' !! "XLONG" = Some xlong' /\
    (forall idx x,
        nd_get (nv_values xlong) idx = Some x ->
        ((x < 0)%Q -> nd_get (nv_values xlong') idx = Some (x + 360)%Q) /\
        ((0 <= x)%Q -> nd_get (nv_values xlong') idx = Some x)) /\
    (forall idx, nd_get (nv_values xlong) idx = None ->
                 nd_get (nv_values xlong') idx = None) /\
    (forall name, name <> "XLONG" -> variables d' !! name = variables d !! name) /\
    ncattrs d' = ncattrs d /\
    (forall other, other <> ds -> heap w' !! other = heap w !! other) /\
    fs w' = fs w /\ trace w' = trace w.
Proof.
  intros Hd Hx Hn.
  eexists _, (with_normalised_longitudes d xlong), _.
  split; [apply (convert_longitudes_run ds w d xlong Hd Hx Hn) |].
  split; [simpl; apply lookup_insert_eq |].
  split; [simpl; apply lookup_insert_eq |].
  split.
  { intros idx x Hget. simpl. rewrite nd_get_nd_map, Hget. simpl.
    split; intros Hs.
    - now rewrite where_negative.
    - now rewrite where_nonnegative. }
  split.
  { intros idx Hget. simpl. now rewrite nd_get_nd_map, Hget. }
  split.
  { intros name Hne. simpl. apply lookup_insert_ne. congruence. }
  split; [reflexivity |].
  split.
  { intros other Hne. simpl. apply lookup_insert_ne. congruence. }
  split; reflexivity.
Qed.

(** ** The container builder *)

Lemma filter_attrs_lookup (attrs : gmap string string) (key : string) :
  filter_attrs attrs !! key =
  if decide (key = "projection") then None else attrs !! key.
Proof.
  unfold filter_attrs. case_bool_decide as Hp.
  - rewrite lookup_delete. repeat case_decide; congruence.
  - case_decide as Hk; [| reflexivity].
    subst key. destruct (attrs !! "projection") eqn:E; [| reflexivity].
    exfalso. apply Hp. eauto.
Qed.

Lemma construct_xr_dataset_inv vars lat lon lev attrs xds :
  construct_xr_dataset vars lat lon lev attrs = Ok xds ->
  coord_values lat = Ok (coord_lat xds) /\
  coord_values lon = Ok (coord_lon xds) /\
  coord_lev xds = lev /\
  xr_attrs xds = attrs /\
  Forall2 (fun field var =>
             var.1 = field.1 /\
             xv_dims var.2 = specify_dimensions_name field.2 /\
             xv_data var.2 = da_data field.2 /\
             xv_attrs var.2 = filter_attrs (da_attrs field.2))
          vars (data_vars xds).
Proof.
  unfold construct_xr_dataset.
  destruct (mapM _ vars) as [xvars | e] eqn:Hm; [| discriminate].
  unfold xr_Dataset.
  destruct (coord_values lat) as [lat' | e]; [| discriminate].
  destruct (coord_values lon) as [lon' | e]; [| discriminate].
  destruct (forallb _ xvars); [| discriminate].
  intros E. injection E as <-. simpl. repeat split.
  apply mapM_Forall2 in Hm.
  eapply Forall2_impl; [exact Hm |].
  intros [name var] [name' xv]. unfold xr_Variable.
  destruct (Nat.eqb _ _); [| discriminate].
  intros E. injection E as <- <-. simpl. auto.
Qed.

(** C5. The builder names the axes of every field it is given by the
    number of axes of its array, and by nothing else: the names are (lev,
    lat, lon) exactly when the array has three axes, and (lat, lon) for any
    other number of axes. In a container that the builder returns, each
    variable holds the array of its field under these names. A field with
    neither two nor three axes gets the two names like any other field
    without three axes; [xr.Variable] refuses two names for it, and the
    builder raises a [ValueError]. *)
Theorem specify_dimensions_name_rule (vars : list (string * DataArray))
    (lat lon : ndarray Q) (lev : list Z) (attrs : gmap string string) :
  (forall field,
      (specify_dimensions_name field = ["lev"; "lat"; "lon"]
       <-> ndim (da_data field) = 3%nat) /\
      (specify_dimensions_name field = ["lat"; "lon"]
       <-> ndim (da_data field) <> 3%nat)) /\
  (forall xds,
      construct_xr_dataset vars lat lon lev attrs = Ok xds ->
      Forall2 (fun field var =>
                 var.1 = field.1 /\
                 xv_data var.2 = da_data field.2 /\
                 (xv_dims var.2 = ["lev"; "lat"; "lon"]
                  <-> ndim (da_data field.2) = 3%nat) /\
                 (xv_dims var.2 = ["lat"; "lon"]
                  <-> ndim (da_data field.2) <> 3%nat))
              vars (data_vars xds)) /\
  (forall name field,
      (name, field) ∈ vars ->
      ndim (da_data field) <> 3%nat ->
      ndim (da_data field) <> 2%nat ->
      specify_dimensions_name field = ["lat"; "lon"] /\
      xr_Variable (specify_dimensions_name field) (da_data field)
        (filter_attrs (da_attrs field)) = Raise ValueError /\
      construct_xr_dataset vars lat lon lev attrs = Raise ValueError).
Proof.
  assert (Hrule : forall field,
             (specify_dimensions_name field = ["lev"; "lat"; "lon"]
              <-> ndim (da_data field) = 3%nat) /\
             (specify_dimensions_name field = ["lat"; "lon"]
              <-> ndim (da_data field) <> 3%nat)).
  { intros field. unfold specify_dimensions_name.
    destruct (Nat.eqb_spec (ndim (da_data field)) 3) as [E | E]; split; split;
      intros; try congruence; try discriminate. }
  split; [exact Hrule |]. split.
  - intros xds Hasm.
    destruct (construct_xr_dataset_inv _ _ _ _ _ _ Hasm) as (_ & _ & _ & _ & Hfields).
    eapply Forall2_impl; [exact Hfields |].
    intros [name field] [name' var] (Hname & Hdims & Hdata & _).
    cbn [fst snd] in *. rewrite Hdims.
    split; [exact Hname |]. split; [exact Hdata |]. apply Hrule.
  - intros name field Hin H3 H2.
    assert (Hnames : specify_dimensions_name field = ["lat"; "lon"])
      by now apply Hrule.
    assert (Hvar : xr_Variable (specify_dimensions_name field) (da_data field)
                     (filter_attrs (da_attrs field)) = Raise ValueError).
    { unfold xr_Variable. rewrite Hnames. cbn [length].
      destruct (Nat.eqb_spec 2 (ndim (da_data field))) as [E | _];
        [congruence | reflexivity]. }
    split; [exact Hnames |]. split; [exact Hvar |].
    unfold construct_xr_dataset.
    rewrite (mapM_raise _ vars ValueError); [reflexivity | |].
    + intros [name' field'] e' _. unfold xr_Variable.
      destruct (Nat.eqb _ _); [discriminate |]. now intros [= <-].
    + exists (name, field). split; [exact Hin |]. exists ValueError.
      now rewrite Hvar.
Qed.

(** ** Searching a sorted coordinate *)

Lemma is_monotonic_increasing_tail x a :
  is_monotonic_increasing (x :: a) = true -> is_monotonic_increasing a = true.
Proof.
  simpl. destruct a as [| y a]; [reflexivity |].
  intros Hm. now apply andb_prop in Hm as [_ Hm].
Qed.

Lemma is_monotonic_increasing_head x a :
  is_monotonic_increasing (x :: a) = true ->
  forall k y, a !! k = Some y -> (x <= y)%Q.
Proof.
  revert x. induction a as [| z a IH]; intros x Hm k y Hk.
  - rewrite lookup_nil in Hk. discriminate.
  - pose proof Hm as Hm'. simpl in Hm'. apply andb_prop in Hm' as [Hxz Hza].
    apply Qle_bool_iff in Hxz.
    destruct k as [| k]; simpl in Hk.
    + injection Hk as <-. exact Hxz.
    + apply Qle_trans with z; [exact Hxz |]. now apply (IH z Hza k).
Qed.

Lemma is_monotonic_increasing_sorted a :
  is_monotonic_increasing a = true -> sorted_Q a.
Proof.
  induction a as [| x a IH]; intros Hm i j xi xj Hij Hi Hj.
  - rewrite lookup_nil in Hi. discriminate.
  - destruct i as [| i], j as [| j]; simpl in Hi, Hj.
    + injection Hi as <-. injection Hj as <-. apply Qle_refl.
    + injection Hi as <-. now apply (is_monotonic_increasing_head x a Hm j).
    + lia.
    + apply (IH (is_monotonic_increasing_tail x a Hm) i j); auto. lia.
Qed.

Lemma goes_right_monotone right key x y :
  (x <= y)%Q -> goes_right right y key = true -> goes_right right x key = true.
Proof.
  intros Hxy. unfold goes_right. destruct right.
  - rewrite !Qle_bool_iff. intros Hy. now apply Qle_trans with y.
  - rewrite !negb_true_iff. intros Hy.
    destruct (Qle_bool key x) eqn:Hx; [| reflexivity].
    apply Qle_bool_iff in Hx.
    assert (Hky : Qle_bool key y = true)
      by (apply Qle_bool_iff; now apply Qle_trans with x).
    congruence.
Qed.

Lemma bisect_S right a key fuel lo hi :
  bisect right a key (S fuel) lo hi =
  if Nat.ltb lo hi then
    match a !! (lo + (hi - lo) / 2)%nat with
    | Some x =>
        if goes_right right x key
        then bisect right a key fuel (S (lo + (hi - lo) / 2)) hi
        else bisect right a key fuel lo (lo + (hi - lo) / 2)
    | None => lo
    end
  else lo.
Proof. reflexivity. Qed.

Lemma bisect_spec right a key :
  sorted_Q a ->
  forall fuel lo hi,
    (hi - lo <= fuel)%nat -> (lo <= hi)%nat -> (hi <= length a)%nat ->
    (forall i x, (i < lo)%nat -> a !! i = Some x -> goes_right right x key = true) ->
    (forall i x, (hi <= i)%nat -> a !! i = Some x -> goes_right right x key = false) ->
    forall i x, a !! i = Some x ->
      ((i < bisect right a key fuel lo hi)%nat <-> goes_right right x key = true).
Proof.
  intros Hsorted. induction fuel as [| fuel IH]; intros lo hi Hfuel Hlo Hhi Hleft Hright.
  - assert (hi = lo) as -> by lia. simpl. intros i x Hi. split.
    + intros Hlt. eapply Hleft; eauto.
    + intros Hg. destruct (Nat.lt_ge_cases i lo) as [? | Hge]; [assumption |].
      rewrite (Hright i x Hge Hi) in Hg. discriminate.
  - rewrite bisect_S. destruct (Nat.ltb_spec lo hi) as [Hlt | Hge].
    + set (mid := (lo + (hi - lo) / 2)%nat).
      assert (Hmid : (lo <= mid < hi)%nat).
      { subst mid. split; [lia |].
        assert ((hi - lo) / 2 < hi - lo)%nat by (apply Nat.div_lt; lia). lia. }
      destruct (a !! mid) as [xm |] eqn:Hxm.
      * destruct (goes_right right xm key) eqn:Hg.
        -- apply IH; try lia.
           ++ intros i x Hi Hx. apply goes_right_monotone with xm; [| exact Hg].
              apply (Hsorted i mid); auto. lia.
           ++ exact Hright.
        -- apply IH; try lia.
           ++ exact Hleft.
           ++ intros i x Hi Hx. destruct (goes_right right x key) eqn:Hgx; [| reflexivity].
              rewrite <- Hg. symmetry.
              apply goes_right_monotone with x; [| exact Hgx].
              apply (Hsorted mid i); auto.
      * apply lookup_ge_None in Hxm. lia.
    + assert (hi = lo) as -> by lia. intros i x Hi. split.
      * intros Hlt'. eapply Hleft; eauto.
      * intros Hg. destruct (Nat.lt_ge_cases i lo) as [? | Hge']; [assumption |].
        rewrite (Hright i x Hge' Hi) in Hg. discriminate.
Qed.

Lemma searchsorted_spec a key right :
  sorted_Q a ->
  forall i x, a !! i = Some x ->
    ((i < searchsorted a key right)%nat <-> goes_right right x key = true).
Proof.
  intros Hsorted. unfold searchsorted. apply bisect_spec; auto; try lia.
  intros i x Hi Hx. apply lookup_lt_Some in Hx. lia.
Qed.

Lemma slice_list_filter {A} (p : A -> bool) (a : list A) :
  forall start stop,
    (forall i x, a !! i = Some x -> (p x = true <-> (start <= i < stop)%nat)) ->
    slice_list start stop a = List.filter p a.
Proof.
  unfold slice_list.
  induction a as [| x a IH]; intros start stop Hp.
  - now rewrite drop_nil, take_nil.
  - destruct start as [| start].
    + destruct stop as [| stop]; simpl.
      * destruct (p x) eqn:Hx.
        -- apply (Hp 0%nat x) in Hx; [lia | reflexivity].
        -- rewrite <- (IH 0%nat 0%nat); [reflexivity |].
           intros i y Hi. split; [| lia]. intros Hy.
           apply (Hp (S i) y) in Hy; [lia | exact Hi].
      * assert (Hx : p x = true) by (apply (Hp 0%nat x); [reflexivity | lia]).
        rewrite Hx. f_equal.
        rewrite <- (IH 0%nat stop); [now rewrite Nat.sub_0_r |].
        intros i y Hi. rewrite (Hp (S i) y Hi). lia.
    + simpl. destruct (p x) eqn:Hx.
      * apply (Hp 0%nat x) in Hx; [lia | reflexivity].
      * rewrite <- (IH start (stop - 1)%nat).
        -- f_equal. lia.
        -- intros i y Hi. rewrite (Hp (S i) y Hi). lia.
Qed.

Lemma window_slice a lo hi :
  is_monotonic_increasing a = true ->
  slice_list (searchsorted a lo false) (searchsorted a hi true) a =
  List.filter (in_window lo hi) a.
Proof.
  intros Hm. apply is_monotonic_increasing_sorted in Hm.
  apply slice_list_filter. intros i x Hi.
  pose proof (searchsorted_spec a lo false Hm i x Hi) as Hl.
  pose proof (searchsorted_spec a hi true Hm i x Hi) as Hr.
  unfold goes_right in Hl, Hr. unfold in_window.
  rewrite andb_true_iff, <- Hr.
  rewrite negb_true_iff in Hl.
  destruct (Qle_bool lo x).
  - split.
    + intros [_ Hlt]. split; [| exact Hlt].
      destruct (Nat.lt_ge_cases i (searchsorted a lo false)) as [Hlt' | ?];
        [| assumption].
      apply Hl in Hlt'. discriminate.
    + tauto.
  - split.
    + intros [? _]. discriminate.
    + intros [Hge _]. assert (i < searchsorted a lo false)%nat by now apply Hl. lia.
Qed.

Lemma in_window_bounds lo hi x :
  in_window lo hi x = true <-> (lo <= x)%Q /\ (x <= hi)%Q.
Proof. unfold in_window. now rewrite andb_true_iff, !Qle_bool_iff. Qed.

Lemma elem_of_window lo hi (a : list Q) x :
  x ∈ List.filter (in_window lo hi) a <-> x ∈ a /\ (lo <= x)%Q /\ (x <= hi)%Q.
Proof.
  rewrite !list_elem_of_In, filter_In, in_window_bounds. reflexivity.
Qed.

(** ** Events of a computation *)

Lemma emits_ret {A} P (a : A) : emits P (ret a).
Proof.
  intros w. repeat split; try reflexivity.
  exists []. split; [symmetry; apply app_nil_r | constructor].
Qed.

Lemma emits_lift {A} P (o : outcome A) : emits P (lift o).
Proof.
  intros w. repeat split; try reflexivity.
  exists []. split; [symmetry; apply app_nil_r | constructor].
Qed.

Lemma emits_emit P ev : P ev -> emits P (emit ev).
Proof.
  intros Hev w. repeat split; try reflexivity.
  exists [ev]. split; [reflexivity | repeat constructor; exact Hev].
Qed.

Lemma emits_deref P ds : emits P (deref ds).
Proof.
  intros w. unfold deref. repeat split.
  - exists []. split; [| constructor].
    destruct (heap w !! ds); simpl; symmetry; apply app_nil_r.
  - destruct (heap w !! ds); reflexivity.
  - destruct (heap w !! ds); reflexivity.
  - intros w2 ->. destruct (heap w !! ds); reflexivity.
Qed.

Lemma emits_bind {A B} P (m : M A) (k : A -> M B) :
  emits P m -> (forall a, emits P (k a)) -> emits P (bind m k).
Proof.
  intros Hm Hk w. destruct (Hm w) as ((evs1 & Ht1 & HP1) & Hh1 & Hf1 & Hd1).
  unfold bind. destruct (m w) as [[a | e] w1] eqn:E; simpl in *.
  - destruct (Hk a w1) as ((evs2 & Ht2 & HP2) & Hh2 & Hf2 & Hd2).
    repeat split.
    + exists (evs1 ++ evs2). rewrite Ht2, Ht1, app_assoc. split; [reflexivity |].
      apply Forall_app; auto.
    + congruence.
    + congruence.
    + intros w2 Hw2. specialize (Hd1 w2 Hw2).
      destruct (Hm w2) as (_ & Hh1' & _).
      destruct (m w2) as [[a' | e'] w1'] eqn:E'; simpl in *; [| discriminate].
      injection Hd1 as ->. apply Hd2. congruence.
  - repeat split; auto.
    + exists evs1. auto.
    + intros w2 Hw2. specialize (Hd1 w2 Hw2).
      destruct (m w2) as [[a' | e'] w1'] eqn:E'; simpl in *; [discriminate |].
      congruence.
Qed.

Lemma emits_try_except {A} P (body : M A) catches handler :
  emits P body -> (forall e, emits P (handler e)) ->
  emits P (try_except body catches handler).
Proof.
  intros Hm Hk w. destruct (Hm w) as ((evs1 & Ht1 & HP1) & Hh1 & Hf1 & Hd1).
  unfold try_except. destruct (body w) as [[a | e] w1] eqn:E; simpl in *.
  - repeat split; auto.
    + exists evs1. auto.
    + intros w2 Hw2. specialize (Hd1 w2 Hw2).
      destruct (body w2) as [[a' | e'] w1'] eqn:E'; simpl in *; [| discriminate].
      congruence.
  - destruct (catches e) eqn:Hc.
    + destruct (Hk e w1) as ((evs2 & Ht2 & HP2) & Hh2 & Hf2 & Hd2).
      repeat split.
      * exists (evs1 ++ evs2). rewrite Ht2, Ht1, app_assoc. split; [reflexivity |].
        apply Forall_app; auto.
      * congruence.
      * congruence.
      * intros w2 Hw2. specialize (Hd1 w2 Hw2).
        destruct (Hm w2) as (_ & Hh1' & _).
        destruct (body w2) as [[a' | e'] w1'] eqn:E'; simpl in *; [discriminate |].
        injection Hd1 as ->. rewrite Hc. apply Hd2. congruence.
    + repeat split; auto.
      * exists evs1. auto.
      * intros w2 Hw2. specialize (Hd1 w2 Hw2).
        destruct (body w2) as [[a' | e'] w1'] eqn:E'; simpl in *; [discriminate |].
        injection Hd1 as ->. now rewrite Hc.
Qed.

Lemma emits_weaken {A} (P Q : Event -> Prop) (m : M A) :
  (forall ev, P ev -> Q ev) -> emits P m -> emits Q m.
Proof.
  intros HPQ Hm w. destruct (Hm w) as ((evs & Ht & HP) & Hrest).
  split; [| exact Hrest]. exists evs. split; [exact Ht |].
  eapply Forall_impl; eauto.
Qed.

(** ** The script *)

Section Run.
Context `{Libraries}.

(** *** Loading the snapshot *)

Lemma load_snapshot_spec args w r w' :
  load_snapshot args w = (r, w') ->
  trace w' = trace w /\
  fs w' = fs w /\
  match r with
  | Raise _ => True
  | Ok (ds, time) =>
      exists d xlong tv u,
        fs w !! inputfile args = Some (NetCDFFile d) /\
        variables d !! "XLONG" = Some xlong /\
        (3 <= ndim (nv_values xlong))%nat /\
        variables d !! "XTIME" = Some tv /\
        nv_units tv = Some u /\
        num2date (nv_values tv) u = Ok time /\
        py_len time = Ok 1%nat /\
        heap w' !! ds = Some (with_normalised_longitudes d xlong)
  end.
Proof.
  unfold load_snapshot. intros E.
  step E as isfile w1 E0; unfold os_path_isfile in E0;
    [injection E0 as <- <- | discriminate].
  step E as u0 w2 E0; apply assert_inv in E0 as [-> Hb]; [| done_run E; auto].
  destruct Hb as [[_ Hfile] | [? _]]; [| discriminate].
  step E as ds w3 E0; apply Dataset_open_inv in E0 as (Ht1 & Hf1 & Hopen);
    [| done_run E; auto].
  destruct Hopen as (d & Hfs & Hheap).
  step E as ds' w4 E0; apply convert_longitudes_inv in E0
    as [(e' & Hr & ->) | (d0 & xlong & Hd0 & Hx & Hn & Hr & ->)];
    try discriminate; [| done_run E; auto].
  injection Hr as ->. rewrite Hheap in Hd0. injection Hd0 as <-.
  step E as tv w5 E0; apply ds_variables_get_inv in E0 as [-> Htv];
    [| done_run E; auto].
  destruct Htv as (d1 & Hd1 & Htv). simpl in Hd1. rewrite lookup_insert_eq in Hd1.
  injection Hd1 as <-. simpl in Htv. rewrite lookup_insert_ne in Htv by discriminate.
  destruct (nv_units tv) as [u |] eqn:Hu.
  2:{ rewrite bind_run in E. done_run E. auto. }
  rewrite bind_run in E. cbn [ret] in E.
  step E as time w6 E0; apply lift_inv in E0 as [-> Hnum]; [| done_run E; auto].
  step E as n w7 E0; apply lift_inv in E0 as [-> Hlen]; [| done_run E; auto].
  step E as u1 w8 E0; apply assert_inv in E0 as [-> Hb]; [| done_run E; auto].
  destruct Hb as [[_ Hone] | [? _]]; [| discriminate].
  done_run E. apply Nat.eqb_eq in Hone. subst.
  repeat split; auto.
  exists d, xlong, tv, u. repeat split; auto.
  simpl. apply lookup_insert_eq.
Qed.

Lemma load_snapshot_run args w d xlong tv u x t :
  fs w !! inputfile args = Some (NetCDFFile d) ->
  variables d !! "XLONG" = Some xlong ->
  (3 <= ndim (nv_values xlong))%nat ->
  variables d !! "XTIME" = Some tv ->
  nv_units tv = Some u ->
  nv_values tv = Arr [Scalar x] ->
  num2date_value u x = Ok t ->
  exists w1,
    load_snapshot args w = (Ok (next_ref w, Arr [Scalar t]), w1) /\
    trace w1 = trace w /\
    heap w1 !! next_ref w = Some (with_normalised_longitudes d xlong).
Proof.
  intros Hfs Hx Hn Htv Hu Hval Hdate.
  destruct (load_snapshot args w) as [r w1] eqn:E. exists w1.
  unfold load_snapshot in E.
  rewrite bind_run in E. unfold os_path_isfile at 1 in E. rewrite Hfs in E.
  rewrite bool_decide_eq_true_2 in E by eauto.
  rewrite bind_run in E. cbn [assert ret] in E.
  rewrite bind_run in E. unfold Dataset_open at 1 in E. rewrite Hfs in E.
  set (w0 := {| fs := fs w; heap := <[next_ref w:=d]> (heap w);
                next_ref := S (next_ref w); trace := trace w |}) in E.
  assert (Hd0 : heap w0 !! next_ref w = Some d) by apply lookup_insert_eq.
  rewrite bind_run, (convert_longitudes_run _ w0 d xlong Hd0 Hx Hn) in E.
  set (w2 := set_heap _ w0) in E.
  assert (Hd2 : heap w2 !! next_ref w = Some (with_normalised_longitudes d xlong))
    by apply lookup_insert_eq.
  rewrite bind_run in E. unfold ds_variables_get at 1 in E.
  rewrite bind_run, (deref_run _ _ _ Hd2) in E.
  assert (Htv2 : variables (with_normalised_longitudes d xlong) !! "XTIME" = Some tv).
  { simpl. rewrite lookup_insert_ne by discriminate. exact Htv. }
  rewrite Htv2 in E. cbn [ret] in E. rewrite Hu in E.
  rewrite bind_run in E. cbn [ret] in E.
  rewrite bind_run in E. unfold lift at 1 in E. unfold num2date in E.
  rewrite Hval in E. simpl nd_mapM in E. rewrite Hdate in E.
  simpl in E. injection E as <- <-. auto.
Qed.

Lemma single_time_shape (time : ndarray datetime) fmt stamp :
  py_len time = Ok 1%nat -> first_strftime time fmt = Ok stamp ->
  exists t, time = Arr [Scalar t] /\ stamp = strftime fmt t.
Proof.
  destruct time as [t | [| [t | ys | n rest] [| z zs]] | n rest]; simpl;
    intros Hlen Hs;
    try discriminate.
  injection Hs as <-. eauto.
Qed.

Lemma main_time_count args w d tv :
  fs w !! inputfile args = Some (NetCDFFile d) ->
  variables d !! "XTIME" = Some tv ->
  nd_size (nv_values tv) <> 1%nat ->
  exists e w', main args w = (Raise e, w') /\ trace w' = trace w.
Proof.
  intros Hfs Htv Hsize. unfold main.
  destruct (load_snapshot args w) as [[[ds time] | e] w1] eqn:E.
  - pose proof (load_snapshot_spec _ _ _ _ E)
      as (Htr & _ & d0 & xlong & tv0 & u & Hfs0 & _ & _ & Htv0 & _ & Hnum & Hlen & _).
    rewrite Hfs in Hfs0. injection Hfs0 as <-.
    rewrite Htv in Htv0. injection Htv0 as <-.
    destruct (first_strftime time TIME_FORMAT) as [stamp | e] eqn:Hs.
    + exfalso. destruct (single_time_shape _ _ _ Hlen Hs) as (t & -> & _).
      apply nd_mapM_size in Hnum. simpl in Hnum. lia.
    + exists e, w1. split; [| exact Htr].
      rewrite (bind_ok _ _ _ _ _ E).
      apply bind_raise. unfold lift. now rewrite Hs.
  - pose proof (load_snapshot_spec _ _ _ _ E) as (Htr & _).
    exists e, w1. split; [| exact Htr]. now apply bind_raise.
Qed.

Lemma time_assertion_fires args w d xlong tv u xs ts :
  fs w !! inputfile args = Some (NetCDFFile d) ->
  variables d !! "XLONG" = Some xlong ->
  (3 <= ndim (nv_values xlong))%nat ->
  variables d !! "XTIME" = Some tv ->
  nv_units tv = Some u ->
  nv_values tv = Arr (Scalar <$> xs) ->
  mapM (num2date_value u) xs = Ok ts ->
  length xs <> 1%nat ->
  (main args w).1 = Raise AssertionError.
Proof.
  intros Hfs Hx Hn Htv Hu Hval Hdates Hlen.
  destruct (mapM_scalars _ _ _ Hdates) as [Hm Hl].
  unfold main. rewrite bind_run.
  destruct (load_snapshot args w) as [r w1] eqn:E.
  enough (r = Raise AssertionError) as -> by reflexivity.
  unfold load_snapshot in E.
  rewrite bind_run in E. unfold os_path_isfile at 1 in E. rewrite Hfs in E.
  rewrite bool_decide_eq_true_2 in E by eauto.
  rewrite bind_run in E. cbn [assert ret] in E.
  rewrite bind_run in E. unfold Dataset_open at 1 in E. rewrite Hfs in E.
  set (w0 := {| fs := fs w; heap := <[next_ref w:=d]> (heap w);
                next_ref := S (next_ref w); trace := trace w |}) in E.
  assert (Hd0 : heap w0 !! next_ref w = Some d) by apply lookup_insert_eq.
  rewrite bind_run, (convert_longitudes_run _ w0 d xlong Hd0 Hx Hn) in E.
  set (w2 := set_heap _ w0) in E.
  assert (Hd2 : heap w2 !! next_ref w = Some (with_normalised_longitudes d xlong))
    by apply lookup_insert_eq.
  rewrite bind_run in E. unfold ds_variables_get at 1 in E.
  rewrite bind_run, (deref_run _ _ _ Hd2) in E.
  assert (Htv2 : variables (with_normalised_longitudes d xlong) !! "XTIME" = Some tv).
  { simpl. rewrite lookup_insert_ne by discriminate. exact Htv. }
  rewrite Htv2 in E. cbn [ret] in E. rewrite Hu in E.
  rewrite bind_run in E. cbn [ret] in E.
  rewrite bind_run in E. unfold lift at 1 in E. unfold num2date in E.
  rewrite Hval in E. cbn [nd_mapM] in E. rewrite Hm in E.
  rewrite bind_run in E. cbn [lift py_len] in E.
  rewrite length_fmap, Hl in E.
  destruct (Nat.eqb_spec (length xs) 1) as [? | _]; [contradiction |].
  simpl in E. now injection E as <- _.
Qed.

(** *** The extraction loop *)

Lemma emits_getvar P ds varname units :
  P (EvGetvar varname units) -> emits P (getvar ds varname units).
Proof.
  intros HP. unfold getvar.
  apply emits_bind; [apply emits_deref |]. intros d.
  apply emits_bind; [now apply emits_emit |]. intros _.
  apply emits_lift.
Qed.

Lemma emits_extract_at_levels P var pressures levels :
  P (EvInterplevel levels) -> emits P (extract_at_levels var pressures levels).
Proof.
  intros HP. unfold extract_at_levels.
  apply emits_bind; [now apply emits_emit |]. intros _. apply emits_lift.
Qed.

Lemma field_event_getvar varname units :
  is_pressure_call (EvGetvar varname units) = false ->
  field_event (EvGetvar varname units).
Proof. intros E. split; [constructor | exact E]. Qed.

Lemma field_event_interplevel : field_event (EvInterplevel PRESSURE_LEVELS).
Proof. split; [constructor | reflexivity]. Qed.

Lemma field_event_not_write ev : field_event ev -> is_write ev = false.
Proof. intros [Hev _]. now destruct Hev. Qed.

Lemma emits_table ds entry :
  entry ∈ variables_table -> emits field_event (entry.1.2 ds).
Proof.
  unfold variables_table. intros Hin.
  repeat (apply elem_of_cons in Hin as [-> | Hin]);
    try (apply emits_getvar, field_event_getvar; reflexivity).
  - simpl. unfold calculate_geopotential.
    apply emits_bind; [apply emits_getvar, field_event_getvar; reflexivity |].
    intros ph.
    apply emits_bind; [apply emits_getvar, field_event_getvar; reflexivity |].
    intros phb.
    apply emits_bind; [apply emits_lift |]. intros hgt.
    apply emits_bind; [apply emits_emit; split; [constructor | reflexivity] |].
    intros _. apply emits_lift.
  - apply elem_of_nil in Hin. contradiction.
Qed.

Lemma emits_compute_field P ds pressures fn flag :
  emits P (fn ds) -> P (EvInterplevel PRESSURE_LEVELS) ->
  emits P (compute_field ds pressures fn flag).
Proof.
  intros Hfn HP. unfold compute_field.
  apply emits_bind; [exact Hfn |]. intros values.
  destruct flag; [now apply emits_extract_at_levels | apply emits_ret].
Qed.

Lemma emits_extract_variable ds pressures v entry :
  emits field_event (entry.1.2 ds) ->
  emits field_event (extract_variable ds pressures v entry).
Proof.
  destruct entry as [[name fn] flag]. simpl. intros Hfn.
  apply emits_try_except.
  - apply emits_bind.
    + apply emits_compute_field; [exact Hfn | apply field_event_interplevel].
    + intros values. apply emits_bind; [| intros _; apply emits_ret].
      apply emits_emit. split; [constructor | reflexivity].
  - intros e. apply emits_bind; [| intros _; apply emits_ret].
    apply emits_emit. split; [constructor | reflexivity].
Qed.

Lemma emits_extract_loop ds pressures entries :
  (forall entry, entry ∈ entries -> emits field_event (entry.1.2 ds)) ->
  forall v, emits field_event (extract_loop ds pressures entries v).
Proof.
  induction entries as [| entry rest IH]; intros Hall v; simpl.
  - apply emits_ret.
  - apply emits_bind.
    + apply emits_extract_variable, Hall. left.
    + intros v'. apply IH. intros entry' Hin. apply Hall. now right.
Qed.

Lemma extract_variable_outcome ds pressures v entry w :
  (extract_variable ds pressures v entry w).1 =
  match field_outcome ds pressures entry w with
  | Ok values => Ok (odict_set v (field_name entry) values)
  | Raise e => if recoverable e then Ok v else Raise e
  end.
Proof.
  destruct entry as [[name fn] flag].
  unfold field_outcome, field_name, extract_variable, try_except, bind. simpl.
  destruct (compute_field ds pressures fn flag w) as [[values | e] w1]; simpl.
  - reflexivity.
  - destruct (recoverable e); reflexivity.
Qed.

Lemma field_outcome_heap ds pressures entry w w2 :
  emits field_event (entry.1.2 ds) -> heap w2 = heap w ->
  field_outcome ds pressures entry w2 = field_outcome ds pressures entry w.
Proof.
  intros Hfn Hheap. unfold field_outcome.
  apply (emits_compute_field field_event ds pressures _ entry.2 Hfn
           field_event_interplevel w); exact Hheap.
Qed.

Lemma variables_table_names :
  map field_name variables_table =
  ["absvprs"; "capesfc"; "hgtprs"; "rhprs"; "tmpprs"; "ugrdprs"; "vgrdprs";
   "vvelprs"; "slp"].
Proof. reflexivity. Qed.

Lemma variables_table_NoDup : NoDup (map field_name variables_table).
Proof.
  rewrite variables_table_names. apply (bool_decide_unpack _). vm_compute. exact I.
Qed.

Lemma extract_loop_outcome ds pressures entries :
  (forall entry, entry ∈ entries -> emits field_event (entry.1.2 ds)) ->
  NoDup (map field_name entries) ->
  forall v w,
    match (extract_loop ds pressures entries v w).1 with
    | Raise e =>
        recoverable e = false /\
        exists entry, entry ∈ entries /\ field_outcome ds pressures entry w = Raise e
    | Ok v' =>
        (forall entry, entry ∈ entries ->
           match field_outcome ds pressures entry w with
           | Ok values => odict_get v' (field_name entry) = Some values
           | Raise e =>
               recoverable e = true /\
               odict_get v' (field_name entry) = odict_get v (field_name entry)
           end) /\
        (forall name, name ∉ map field_name entries ->
                      odict_get v' name = odict_get v name)
    end.
Proof.
  induction entries as [| entry rest IH]; intros Hall Hnodup v w.
  - simpl. split; [intros entry Hin; now apply elem_of_nil in Hin | auto].
  - apply NoDup_cons in Hnodup as [Hfresh Hnodup].
    assert (Hrest : forall entry', entry' ∈ rest -> emits field_event (entry'.1.2 ds))
      by (intros entry' Hin; apply Hall; now right).
    assert (Hentry : emits field_event (entry.1.2 ds)) by (apply Hall; left).
    simpl. rewrite bind_run.
    pose proof (extract_variable_outcome ds pressures v entry w) as Hout.
    destruct (emits_extract_variable ds pressures v entry Hentry w)
      as (_ & Hheap & _).
    destruct (extract_variable ds pressures v entry w) as [[v1 | e1] w1];
      simpl in Hout, Hheap.
    + specialize (IH Hrest Hnodup v1 w1).
      destruct (extract_loop ds pressures rest v1 w1) as [[v' | e'] w2]; simpl in *.
      * destruct IH as [IHin IHout]. split.
        -- intros entry' Hin. apply elem_of_cons in Hin as [-> | Hin].
           ++ rewrite (IHout _ Hfresh).
              destruct (field_outcome ds pressures entry w) as [values | e].
              ** injection Hout as ->. apply odict_get_set_eq.
              ** destruct (recoverable e); [| discriminate].
                 injection Hout as ->. auto.
           ++ specialize (IHin _ Hin).
              rewrite (field_outcome_heap _ _ _ w w1 (Hrest _ Hin) Hheap) in IHin.
              destruct (field_outcome ds pressures entry' w) as [values' | e'];
                [exact IHin |].
              destruct IHin as [Hrec Hget]. split; [exact Hrec |].
              rewrite Hget.
              destruct (field_outcome ds pressures entry w) as [values | e].
              ** injection Hout as ->. apply odict_get_set_ne.
                 intros Heq. apply Hfresh. rewrite Heq.
                 apply list_elem_of_fmap. eauto.
              ** destruct (recoverable e); [| discriminate].
                 now injection Hout as ->.
        -- intros name Hname. apply not_elem_of_cons in Hname as [Hne Hname].
           rewrite (IHout _ Hname).
           destruct (field_outcome ds pressures entry w) as [values | e].
           ++ injection Hout as ->. now apply odict_get_set_ne.
           ++ destruct (recoverable e); [| discriminate]. now injection Hout as ->.
      * destruct IH as [Hrec (entry' & Hin & Hraise)]. split; [exact Hrec |].
        exists entry'. split; [now right |].
        now rewrite <- (field_outcome_heap _ _ _ w w1 (Hrest _ Hin) Hheap).
    + destruct (field_outcome ds pressures entry w) as [values | e] eqn:Hfo;
        [discriminate |].
      destruct (recoverable e) eqn:Hrec; [discriminate |].
      injection Hout as ->. split; [exact Hrec |].
      exists entry. split; [left | exact Hfo].
Qed.

Lemma extract_fields_events ds w d :
  heap w !! ds = Some d ->
  exists evs,
    trace (extract_fields ds w).2 = trace w ++ pressure_call :: evs /\
    Forall field_event evs /\
    heap (extract_fields ds w).2 = heap w /\
    (forall e, wrf_getvar d "p" (Some "hPa") = Raise e ->
               (extract_fields ds w).1 = Raise e /\ evs = []).
Proof.
  intros Hd. unfold extract_fields, calculate_pressure, getvar.
  rewrite bind_run, bind_run, (deref_run _ _ _ Hd), bind_run.
  destruct (emit (EvGetvar "p" (Some "hPa")) w) as [r1 w1] eqn:E1.
  apply emit_inv in E1 as (-> & Ht1 & Hh1 & _).
  unfold lift at 1.
  destruct (wrf_getvar d "p" (Some "hPa")) as [pressures | e] eqn:Hp.
  - destruct (emits_extract_loop ds pressures variables_table
                (fun entry => emits_table ds entry) [] w1)
      as ((evs & Ht2 & Hevs) & Hh2 & _).
    exists evs. rewrite Ht2, Ht1, <- app_assoc.
    split; [reflexivity |]. split; [exact Hevs |].
    split.
    { change (heap (extract_loop ds pressures variables_table [] w1).2 = heap w).
      congruence. }
    intros e He. discriminate.
  - exists []. simpl. rewrite Ht1.
    split; [reflexivity |]. split; [constructor |].
    split; [exact Hh1 |]. intros e' He'. now injection He' as ->.
Qed.

(** *** The crop and the export *)

Lemma isel_keeps var dim start stop :
  xv_dims (isel var dim start stop) = xv_dims var /\
  xv_attrs (isel var dim start stop) = xv_attrs var.
Proof. unfold isel. destruct (dim_axis dim (xv_dims var)); auto. Qed.

Lemma extract_in_domain_inv xds latrange lonrange out :
  extract_in_domain xds latrange lonrange = Ok out ->
  coord_lev out = coord_lev xds /\
  xr_attrs out = xr_attrs xds /\
  Forall2 (fun var var' =>
             var'.1 = var.1 /\
             xv_dims var'.2 = xv_dims var.2 /\
             xv_attrs var'.2 = xv_attrs var.2)
          (data_vars xds) (data_vars out).
Proof.
  unfold extract_in_domain.
  destruct (slice_indexer (coord_lat xds) _ _) as [[lat0 lat1] | e]; [| discriminate].
  destruct (slice_indexer (coord_lon xds) _ _) as [[lon0 lon1] | e]; [| discriminate].
  intros E. injection E as <-. simpl. repeat split.
  induction (data_vars xds) as [| [name var] vars IH]; constructor; [| exact IH].
  simpl. split; [reflexivity |].
  destruct (isel_keeps (isel var "lat" lat0 lat1) "lon" lon0 lon1) as [-> ->].
  apply isel_keeps.
Qed.

Lemma extract_in_domain_sorted xds latrange lonrange out :
  extract_in_domain xds latrange lonrange = Ok out ->
  is_monotonic_increasing (coord_lat xds) = true ->
  is_monotonic_increasing (coord_lon xds) = true ->
  coord_lat out = List.filter (in_window latrange.1 latrange.2) (coord_lat xds) /\
  coord_lon out = List.filter (in_window lonrange.1 lonrange.2) (coord_lon xds).
Proof.
  unfold extract_in_domain, slice_indexer. intros E Hlat Hlon.
  rewrite Hlat, Hlon in E. injection E as <-. simpl.
  split; now apply window_slice.
Qed.

Lemma export_spec args ds time v w r w' :
  export args ds time v w = (r, w') ->
  heap w' = heap w /\ fs w' = fs w /\
  exists evs,
    trace w' = trace w ++ evs /\
    (evs = [] \/
     evs = [EvMakedirs (outputdir args)] \/
     exists d xlat xlong lat lon assembled out stamp,
       heap w !! ds = Some d /\
       variables d !! "XLAT" = Some xlat /\
       index_0_all_0 (nv_values xlat) = Ok lat /\
       variables d !! "XLONG" = Some xlong /\
       index_0_0_all (nv_values xlong) = Ok lon /\
       construct_xr_dataset v lat lon PRESSURE_LEVELS (ncattrs d) = Ok assembled /\
       extract_in_domain assembled LAT_RANGE LON_RANGE = Ok out /\
       os_makedirs_result (outputdir args) = Ok tt /\
       first_strftime time TIME_FORMAT = Ok stamp /\
       evs = [EvMakedirs (outputdir args); EvToNetcdf (output_path args stamp) out] /\
       r = to_netcdf_result (output_path args stamp) out).
Proof.
  assert (Hnil : exists evs,
             trace w = trace w ++ evs /\
             (evs = [] \/
              evs = [EvMakedirs (outputdir args)] \/
              exists d xlat xlong lat lon assembled out stamp,
                heap w !! ds = Some d /\
                variables d !! "XLAT" = Some xlat /\
                index_0_all_0 (nv_values xlat) = Ok lat /\
                variables d !! "XLONG" = Some xlong /\
                index_0_0_all (nv_values xlong) = Ok lon /\
                construct_xr_dataset v lat lon PRESSURE_LEVELS (ncattrs d)
                  = Ok assembled /\
                extract_in_domain assembled LAT_RANGE LON_RANGE = Ok out /\
                os_makedirs_result (outputdir args) = Ok tt /\
                first_strftime time TIME_FORMAT = Ok stamp /\
                evs = [EvMakedirs (outputdir args);
                       EvToNetcdf (output_path args stamp) out] /\
                r = to_netcdf_result (output_path args stamp) out)).
  { exists []. split; [symmetry; apply app_nil_r | now left]. }
  unfold export. intros E.
  step E as xlat w1 E0; apply ds_getitem_inv in E0 as [-> Hxlat];
    [| done_run E; auto].
  destruct Hxlat as (d & Hd & Hxlat).
  step E as lat w2 E0; apply lift_inv in E0 as [-> Hlat]; [| done_run E; auto].
  step E as xlong w3 E0; apply ds_getitem_inv in E0 as [-> Hxlong];
    [| done_run E; auto].
  destruct Hxlong as (d' & Hd' & Hxlong). rewrite Hd in Hd'. injection Hd' as <-.
  step E as lon w4 E0; apply lift_inv in E0 as [-> Hlon]; [| done_run E; auto].
  step E as attrs w5 E0; apply ds_dict_inv in E0 as [-> Hattrs];
    [| done_run E; auto].
  destruct Hattrs as (d' & Hd' & ->). rewrite Hd in Hd'. injection Hd' as <-.
  step E as assembled w6 E0; apply lift_inv in E0 as [-> Hasm];
    [| done_run E; auto].
  step E as out w7 E0; apply lift_inv in E0 as [-> Hcrop]; [| done_run E; auto].
  step E as u1 w8 E0; apply emit_inv in E0 as (Hr & Ht8 & Hh8 & Hf8);
    [| discriminate].
  step E as u2 w9 E0; apply lift_inv in E0 as [-> Hmkdir].
  2:{ done_run E. repeat split; auto. eauto. }
  destruct u2.
  step E as stamp w10 E0; apply lift_inv in E0 as [-> Hstamp].
  2:{ done_run E. repeat split; auto. eauto. }
  step E as u3 w11 E0; apply emit_inv in E0 as (Hr' & Ht11 & Hh11 & Hf11);
    [| discriminate].
  apply lift_inv in E as [-> <-].
  split; [congruence |]. split; [congruence |].
  exists [EvMakedirs (outputdir args); EvToNetcdf (output_path args stamp) out].
  split; [rewrite Ht11, Ht8, <- app_assoc; reflexivity |].
  right. right. exists d, xlat, xlong, lat, lon, assembled, out, stamp.
  repeat split; auto.
Qed.

(** *** A whole run *)

Lemma main_spec args w : main_events args w (new_events w (main args w).2).
Proof.
  destruct (main args w) as [r w'] eqn:Hmain. simpl. unfold main in Hmain.
  step Hmain as loaded w1 E0;
    pose proof (load_snapshot_spec _ _ _ _ E0) as (Ht1 & Hf1 & Hload).
  2:{ done_run Hmain. rewrite new_events_app with (evs := []); [constructor |].
      rewrite Ht1. symmetry. apply app_nil_r. }
  destruct loaded as [ds time].
  destruct Hload as (d & xlong & tv & u & Hfs & Hx & Hn & Htv & Hu & Hnum & Hlen & Hheap).
  step Hmain as stamp w2 E1; apply lift_inv in E1 as [-> Hstamp].
  2:{ done_run Hmain. rewrite new_events_app with (evs := []); [constructor |].
      rewrite Ht1. symmetry. apply app_nil_r. }
  destruct (single_time_shape _ _ _ Hlen Hstamp) as (t & -> & ->).
  apply nd_mapM_single in Hnum as (x & Hvalues & Hdate).
  step Hmain as u1 w3 E2; apply emit_inv in E2 as (Hr3 & Ht3 & Hh3 & Hf3);
    [| discriminate].
  rewrite bind_run in Hmain.
  assert (Hheap3 : heap w3 !! ds = Some (with_normalised_longitudes d xlong))
    by congruence.
  destruct (extract_fields_events ds w3 _ Hheap3) as (evs & Ht4 & Hevs & Hh4 & _).
  destruct (extract_fields ds w3) as [[v | e] w4] eqn:E3; simpl in Ht4, Hh4.
  2:{ done_run Hmain.
      rewrite new_events_app
        with (evs := EvPrint (strftime TIME_FORMAT t) :: pressure_call :: evs).
      - now constructor.
      - rewrite Ht4, Ht3, Ht1, <- app_assoc. reflexivity. }
  apply export_spec in Hmain as (Hh5 & Hf5 & evs2 & Ht5 & Hexp).
  assert (Htrace : trace w' =
                   trace w ++ EvPrint (strftime TIME_FORMAT t)
                     :: pressure_call :: evs ++ evs2).
  { rewrite Ht5, Ht4, Ht3, Ht1, <- !app_assoc. reflexivity. }
  rewrite (new_events_app _ _ _ Htrace).
  destruct Hexp as [-> | [-> | Hw]].
  - rewrite app_nil_r. now constructor.
  - now constructor.
  - destruct Hw as (d' & xlat & xlong' & lat & lon & assembled & out & stamp
                    & Hd' & Hxlat & Hlat & Hxlong' & Hlon & Hasm & Hcrop & Hmk
                    & Hstamp' & -> & _).
    simpl in Hstamp'. injection Hstamp' as <-.
    assert (Hd4 : heap w4 !! ds = Some (with_normalised_longitudes d xlong))
      by congruence.
    rewrite Hd4 in Hd'. injection Hd' as <-.
    simpl in Hxlat, Hxlong'. rewrite lookup_insert_eq in Hxlong'.
    injection Hxlong' as <-. simpl in Hlon.
    rewrite lookup_insert_ne in Hxlat by discriminate.
    constructor; [assumption |].
    eapply (Written_intro args w d xlong xlat tv u x t ds w3 v); eauto.
    now rewrite E3.
Qed.

Lemma main_write_inv args w path out :
  EvToNetcdf path out ∈ new_events w (main args w).2 -> Written args w path out.
Proof.
  intros Hin. pose proof (main_spec args w) as Hspec.
  assert (Hno : forall evs, Forall field_event evs -> EvToNetcdf path out ∉ evs).
  { intros evs Hevs Hmem. rewrite Forall_forall in Hevs.
    apply Hevs, field_event_not_write in Hmem. discriminate. }
  inversion Hspec as [Heq | stamp evs Hevs Heq | stamp evs Hevs Heq
                      | stamp evs path' out' Hevs Hw Heq];
    rewrite <- Heq in Hin.
  - now apply elem_of_nil in Hin.
  - apply elem_of_cons in Hin as [Hin | Hin]; [discriminate |].
    apply elem_of_cons in Hin as [Hin | Hin]; [discriminate |].
    now apply Hno in Hin.
  - apply elem_of_cons in Hin as [Hin | Hin]; [discriminate |].
    apply elem_of_cons in Hin as [Hin | Hin]; [discriminate |].
    apply elem_of_app in Hin as [Hin | Hin]; [now apply Hno in Hin |].
    apply list_elem_of_singleton in Hin. discriminate.
  - apply elem_of_cons in Hin as [Hin | Hin]; [discriminate |].
    apply elem_of_cons in Hin as [Hin | Hin]; [discriminate |].
    apply elem_of_app in Hin as [Hin | Hin]; [now apply Hno in Hin |].
    apply elem_of_cons in Hin as [Hin | Hin]; [discriminate |].
    apply list_elem_of_singleton in Hin. injection Hin as -> ->. exact Hw.
Qed.

Lemma filter_is_write_field_events evs :
  Forall field_event evs -> List.filter is_write evs = [].
Proof.
  induction 1 as [| ev evs Hev _ IH]; [reflexivity |].
  simpl. now rewrite (field_event_not_write ev Hev).
Qed.

Lemma main_writes_at_most_once args w :
  (length (List.filter is_write (new_events w (main args w).2)) <= 1)%nat.
Proof.
  destruct (main_spec args w) as [| stamp evs Hevs | stamp evs Hevs
                                  | stamp evs path out Hevs _]; simpl;
    try rewrite List.filter_app; rewrite ?(filter_is_write_field_events evs Hevs);
    simpl; lia.
Qed.

Lemma written_fields args w path out :
  Written args w path out ->
  exists ds pressures w1 v,
    (extract_loop ds pressures variables_table [] w1).1 = Ok v /\
    map fst (data_vars out) = map fst v.
Proof.
  intros Hw.
  destruct Hw as [d xlong xlat tv u x t ds w1 v lat lon assembled out
                    Hfs Hx Hn Htv Hu Hval Hdate Hheap Hv Hxlat Hlat Hlon Hasm
                    Hcrop Hmk].
  unfold extract_fields in Hv. rewrite bind_run in Hv.
  destruct (calculate_pressure ds w1) as [[pressures | e] w2]; [| discriminate].
  exists ds, pressures, w2, v. split; [exact Hv |].
  destruct (extract_in_domain_inv _ _ _ _ Hcrop) as (_ & _ & Hvars).
  destruct (construct_xr_dataset_inv _ _ _ _ _ _ Hasm) as (_ & _ & _ & _ & Hfields).
  assert (Hnames : Forall2 (fun field var => var.1 = field.1) v (data_vars out)).
  { eapply Forall2_trans; [| exact Hfields | exact Hvars].
    intros field var var' (Hname & _) (Hname' & _). congruence. }
  clear -Hnames. induction Hnames as [| field var v vars Hname _ IH]; [reflexivity |].
  simpl. now rewrite Hname, IH.
Qed.

Lemma main_pressure_failure args w d xlong tv u x t e :
  fs w !! inputfile args = Some (NetCDFFile d) ->
  variables d !! "XLONG" = Some xlong ->
  (3 <= ndim (nv_values xlong))%nat ->
  variables d !! "XTIME" = Some tv ->
  nv_units tv = Some u ->
  nv_values tv = Arr [Scalar x] ->
  num2date_value u x = Ok t ->
  wrf_getvar (with_normalised_longitudes d xlong) "p" (Some "hPa") = Raise e ->
  (main args w).1 = Raise e /\
  new_events w (main args w).2 = [EvPrint (strftime TIME_FORMAT t); pressure_call].
Proof.
  intros Hfs Hx Hn Htv Hu Hval Hdate Hp.
  destruct (load_snapshot_run args w d xlong tv u x t Hfs Hx Hn Htv Hu Hval Hdate)
    as (w1 & Hload & Ht1 & Hh1).
  unfold main. rewrite (bind_ok _ _ _ _ _ Hload).
  rewrite bind_run. cbn [lift first_strftime].
  rewrite bind_run.
  destruct (emit (EvPrint (strftime TIME_FORMAT t)) w1) as [r2 w2] eqn:E2.
  apply emit_inv in E2 as (-> & Ht2 & Hh2 & _).
  assert (Hd2 : heap w2 !! next_ref w = Some (with_normalised_longitudes d xlong))
    by congruence.
  destruct (extract_fields_events (next_ref w) w2 _ Hd2) as (evs & Ht3 & _ & _ & Hfail).
  destruct (Hfail e Hp) as [Hr ->].
  rewrite bind_run.
  destruct (extract_fields (next_ref w) w2) as [r3 w3]. simpl in Hr, Ht3. subst r3.
  simpl. split; [reflexivity |].
  apply new_events_app. rewrite Ht3, Ht2, Ht1, <- app_assoc. reflexivity.
Qed.

Lemma main_events_from_snapshot args w d xlong tv u x t :
  fs w !! inputfile args = Some (NetCDFFile d) ->
  variables d !! "XLONG" = Some xlong ->
  (3 <= ndim (nv_values xlong))%nat ->
  variables d !! "XTIME" = Some tv ->
  nv_units tv = Some u ->
  nv_values tv = Arr [Scalar x] ->
  num2date_value u x = Ok t ->
  exists evs,
    new_events w (main args w).2 =
      EvPrint (strftime TIME_FORMAT t) :: pressure_call :: evs /\
    Forall (fun ev => is_pressure_call ev = false) evs.
Proof.
  intros Hfs Hx Hn Htv Hu Hval Hdate.
  destruct (load_snapshot_run args w d xlong tv u x t Hfs Hx Hn Htv Hu Hval Hdate)
    as (w1 & Hload & Ht1 & Hh1).
  unfold main. rewrite (bind_ok _ _ _ _ _ Hload).
  rewrite bind_run. cbn [lift first_strftime].
  rewrite bind_run.
  destruct (emit (EvPrint (strftime TIME_FORMAT t)) w1) as [r2 w2] eqn:E2.
  apply emit_inv in E2 as (-> & Ht2 & Hh2 & _).
  assert (Hd2 : heap w2 !! next_ref w = Some (with_normalised_longitudes d xlong))
    by congruence.
  destruct (extract_fields_events (next_ref w) w2 _ Hd2) as (evs & Ht3 & Hevs & _).
  assert (Hevs' : Forall (fun ev => is_pressure_call ev = false) evs).
  { eapply Forall_impl; [exact Hevs |]. now intros ev [_ Hev]. }
  rewrite bind_run.
  destruct (extract_fields (next_ref w) w2) as [[v | e] w3]; simpl in Ht3.
  - destruct (export args (next_ref w) (Arr [Scalar t]) v w3) as [r4 w4] eqn:E4.
    apply export_spec in E4 as (_ & _ & evs2 & Ht4 & Hevs2). simpl.
    exists (evs ++ evs2). split.
    + apply new_events_app. rewrite Ht4, Ht3, Ht2, Ht1, <- !app_assoc. reflexivity.
    + apply Forall_app. split; [exact Hevs' |].
      destruct Hevs2 as [-> | [-> | (? & ? & ? & ? & ? & ? & ? & ? & Hrest)]].
      * constructor.
      * repeat constructor.
      * destruct Hrest as (_ & _ & _ & _ & _ & _ & _ & _ & _ & -> & _).
        repeat constructor.
  - simpl. exists evs. split; [| exact Hevs'].
    apply new_events_app. rewrite Ht3, Ht2, Ht1, <- !app_assoc. reflexivity.
Qed.

Lemma extraction_event_not_write ev : extraction_event ev -> is_write ev = false.
Proof. now destruct 1. Qed.

Lemma main_aborts_with_loop args w ds time w1 stamp pressures w2 w3 e :
  load_snapshot args w = (Ok (ds, time), w1) ->
  first_strftime time TIME_FORMAT = Ok stamp ->
  emit (EvPrint stamp) w1 = (Ok tt, w2) ->
  calculate_pressure ds w2 = (Ok pressures, w3) ->
  (extract_loop ds pressures variables_table [] w3).1 = Raise e ->
  (main args w).1 = Raise e /\
  List.filter is_write (new_events w (main args w).2) = [].
Proof.
  intros Hload Hstamp Hemit Hp Hloop.
  pose proof (load_snapshot_spec _ _ _ _ Hload) as (Ht1 & _).
  apply emit_inv in Hemit as Hemit'. destruct Hemit' as (_ & Ht2 & _).
  destruct (emits_getvar extraction_event ds "p" (Some "hPa")
              (ee_getvar _ _) w2) as ((evsP & HtP & HevsP) & _).
  fold (calculate_pressure ds) in HtP. rewrite Hp in HtP. simpl in HtP.
  destruct (emits_extract_loop ds pressures variables_table
              (fun entry => emits_table ds entry) [] w3)
    as ((evsL & HtL & HevsL) & _).
  destruct (extract_loop ds pressures variables_table [] w3) as [r4 w4] eqn:E4.
  simpl in Hloop, HtL. subst r4.
  assert (Hmain : main args w = (Raise e, w4)).
  { unfold main. rewrite (bind_ok _ _ _ _ _ Hload).
    rewrite bind_run. unfold lift at 1. rewrite Hstamp.
    rewrite bind_run, Hemit.
    rewrite bind_run. unfold extract_fields. rewrite bind_run, Hp, E4.
    reflexivity. }
  rewrite Hmain. cbn [fst snd]. split; [reflexivity |].
  rewrite (new_events_app w w4 (EvPrint stamp :: evsP ++ evsL)).
  - simpl. rewrite List.filter_app.
    assert (HP : List.filter is_write evsP = []).
    { clear -HevsP. induction HevsP as [| ev evs Hev _ IH]; [reflexivity |].
      simpl. now rewrite (extraction_event_not_write ev Hev). }
    rewrite HP. simpl. now apply filter_is_write_field_events.
  - rewrite HtL, HtP, Ht2, Ht1, <- !app_assoc. reflexivity.
Qed.

(** *** The failure policy of the loop *)

(** C1. The table holds nine fields. Only [ValueError] and [KeyError] are
    caught. When the loop completes, every field of the table whose
    computation (with its interpolation, if it has one) raised nothing is in
    the mapping with the value computed, and every other field raised one
    of the two caught kinds and is not in the mapping; when the loop does
    not complete, it ends with an exception of another kind, raised by the
    computation of one of the fields. So a field that raises an exception
    of another kind always ends the loop. A run whose loop ends with an
    exception ends with that exception and writes nothing. The fields of a
    file that is written are, in order, the fields of the mapping the loop
    has built. *)
Theorem extraction_failure_policy :
  length variables_table = 9%nat /\
  (forall e, recoverable e = true <-> e = ValueError \/ e = KeyError) /\
  (forall ds pressures w,
      match (extract_loop ds pressures variables_table [] w).1 with
      | Ok v =>
          forall entry, entry ∈ variables_table ->
            match field_outcome ds pressures entry w with
            | Ok values => odict_get v (field_name entry) = Some values
            | Raise e =>
                recoverable e = true /\ odict_get v (field_name entry) = None
            end
      | Raise e =>
          recoverable e = false /\
          exists entry,
            entry ∈ variables_table /\ field_outcome ds pressures entry w = Raise e
      end) /\
  (forall ds pressures w entry e,
      entry ∈ variables_table ->
      field_outcome ds pressures entry w = Raise e ->
      recoverable e = false ->
      exists e', (extract_loop ds pressures variables_table [] w).1 = Raise e') /\
  (forall args w ds time w1 stamp pressures w2 w3 e,
      load_snapshot args w = (Ok (ds, time), w1) ->
      first_strftime time TIME_FORMAT = Ok stamp ->
      emit (EvPrint stamp) w1 = (Ok tt, w2) ->
      calculate_pressure ds w2 = (Ok pressures, w3) ->
      (extract_loop ds pressures variables_table [] w3).1 = Raise e ->
      (main args w).1 = Raise e /\
      List.filter is_write (new_events w (main args w).2) = []) /\
  (forall args w path out,
      EvToNetcdf path out ∈ new_events w (main args w).2 ->
      exists ds pressures w1 v,
        (extract_loop ds pressures variables_table [] w1).1 = Ok v /\
        map fst (data_vars out) = map fst v).
Proof.
  assert (Hloop : forall ds pressures w,
             match (extract_loop ds pressures variables_table [] w).1 with
             | Ok v =>
                 forall entry, entry ∈ variables_table ->
                   match field_outcome ds pressures entry w with
                   | Ok values => odict_get v (field_name entry) = Some values
                   | Raise e =>
                       recoverable e = true /\
                       odict_get v (field_name entry) = None
                   end
             | Raise e =>
                 recoverable e = false /\
                 exists entry,
                   entry ∈ variables_table /\
                   field_outcome ds pressures entry w = Raise e
             end).
  { intros ds pressures w.
    pose proof (extract_loop_outcome ds pressures variables_table
                  (fun entry => emits_table ds entry) variables_table_NoDup [] w)
      as Hout.
    destruct (extract_loop ds pressures variables_table [] w).1 as [v | e];
      [| exact Hout].
    destruct Hout as [Hin _]. exact Hin. }
  split; [reflexivity |]. split.
  { intros e. split.
    - destruct e; simpl; intros; try discriminate; auto.
    - intros [-> | ->]; reflexivity. }
  split; [exact Hloop |]. split.
  - intros ds pressures w entry e Hin Hraise Hfatal.
    specialize (Hloop ds pressures w).
    destruct (extract_loop ds pressures variables_table [] w).1 as [v | e'];
      [| eauto].
    specialize (Hloop entry Hin). rewrite Hraise in Hloop.
    destruct Hloop as [Hrec _]. congruence.
  - split; [apply main_aborts_with_loop |].
    intros args w path out Hin. apply (written_fields args w path out).
    now apply main_write_inv.
Qed.

(** *** The domain crop *)

(** C3. What a run writes is the crop of the assembled container to the
    window 5..45 by 100..260. The container is assembled from the fields of
    the extraction phase and from the whole latitude column and longitude
    row of the snapshot, so nothing is cropped before. When both
    coordinates increase, the latitudes and longitudes written are exactly
    those of the assembled grid that lie in the window, bounds included. *)
Theorem crop_once_after_assembly (args : Args) (w : World) (path : string)
    (out : XrDataset) :
  EvToNetcdf path out ∈ new_events w (main args w).2 ->
  exists d xlat xlong ds w1 v lat lon assembled,
    fs w !! inputfile args = Some (NetCDFFile d) /\
    variables d !! "XLAT" = Some xlat /\
    variables d !! "XLONG" = Some xlong /\
    (extract_fields ds w1).1 = Ok v /\
    index_0_all_0 (nv_values xlat) = Ok lat /\
    index_0_0_all (nd_map where_negative_add_360 (nv_values xlong)) = Ok lon /\
    construct_xr_dataset v lat lon PRESSURE_LEVELS (ncattrs d) = Ok assembled /\
    coord_values lat = Ok (coord_lat assembled) /\
    coord_values lon = Ok (coord_lon assembled) /\
    extract_in_domain assembled (5, 45)%Q (100, 260)%Q = Ok out /\
    length (List.filter is_write (new_events w (main args w).2)) = 1%nat /\
    (is_monotonic_increasing (coord_lat assembled) = true ->
     is_monotonic_increasing (coord_lon assembled) = true ->
     (forall x, x ∈ coord_lat out <->
                x ∈ coord_lat assembled /\ (5 <= x)%Q /\ (x <= 45)%Q) /\
     (forall x, x ∈ coord_lon out <->
                x ∈ coord_lon assembled /\ (100 <= x)%Q /\ (x <= 260)%Q) /\
     coord_lat out = List.filter (in_window 5 45) (coord_lat assembled) /\
     coord_lon out = List.filter (in_window 100 260) (coord_lon assembled)).
Proof.
  intros Hin.
  assert (Hone : length (List.filter is_write (new_events w (main args w).2)) = 1%nat).
  { apply Nat.le_antisymm; [apply main_writes_at_most_once |].
    assert (Hmem : In (EvToNetcdf path out)
                     (List.filter is_write (new_events w (main args w).2))).
    { apply filter_In. split; [now apply list_elem_of_In | reflexivity]. }
    destruct (List.filter is_write (new_events w (main args w).2));
      [contradiction | simpl; lia]. }
  pose proof (main_write_inv args w path out Hin) as Hw.
  destruct Hw as [d xlong xlat tv u x0 t ds w1 v lat lon assembled out
                    Hfs Hx Hn Htv Hu Hval Hdate Hheap Hv Hxlat Hlat Hlon Hasm
                    Hcrop Hmk].
  destruct (construct_xr_dataset_inv _ _ _ _ _ _ Hasm) as (Hclat & Hclon & _).
  exists d, xlat, xlong, ds, w1, v, lat, lon, assembled.
  repeat (split; [assumption |]).
  intros Hmlat Hmlon.
  destruct (extract_in_domain_sorted _ _ _ _ Hcrop Hmlat Hmlon) as [Elat Elon].
  simpl in Elat, Elon. rewrite Elat, Elon.
  split; [intros x; apply elem_of_window |].
  split; [intros x; apply elem_of_window |]. auto.
Qed.

(** *** The time count *)

(** C4. When the time coordinate of the input holds more than one value,
    the run ends with an exception before it has printed, called a
    diagnostic or written anything. When the coordinate is a plain list of
    values that all convert to dates and the longitudes are well formed,
    the exception is the [AssertionError] of the time-count check. *)
Theorem more_than_one_time_aborts (args : Args) (w : World) (d : NcDataset)
    (tv : NcVariable) :
  fs w !! inputfile args = Some (NetCDFFile d) ->
  variables d !! "XTIME" = Some tv ->
  (1 < nd_size (nv_values tv))%nat ->
  (exists e, (main args w).1 = Raise e /\ new_events w (main args w).2 = []) /\
  (forall xlong u xs ts,
      variables d !! "XLONG" = Some xlong ->
      (3 <= ndim (nv_values xlong))%nat ->
      nv_units tv = Some u ->
      nv_values tv = Arr (Scalar <$> xs) ->
      mapM (num2date_value u) xs = Ok ts ->
      (main args w).1 = Raise AssertionError).
Proof.
  intros Hfs Htv Hsize. split.
  - destruct (main_time_count args w d tv Hfs Htv) as (e & w' & Hrun & Htrace);
      [lia |].
    exists e. rewrite Hrun. simpl. split; [reflexivity |].
    apply new_events_app. rewrite Htrace. symmetry. apply app_nil_r.
  - intros xlong u xs ts Hx Hn Hu Hval Hdates.
    apply (time_assertion_fires args w d xlong tv u xs ts); auto.
    rewrite Hval in Hsize. intros Hone.
    destruct xs as [| x [| y xs]]; simpl in Hone, Hsize; try discriminate; lia.
Qed.

(** C10. When the time coordinate of the input holds no value at all, the
    run ends with an exception before it has printed, called a diagnostic
    or written anything. When the coordinate is the empty list and the
    longitudes are well formed, the exception is the [AssertionError] of
    the time-count check. *)
Theorem no_time_aborts (args : Args) (w : World) (d : NcDataset) (tv : NcVariable) :
  fs w !! inputfile args = Some (NetCDFFile d) ->
  variables d !! "XTIME" = Some tv ->
  nd_size (nv_values tv) = 0%nat ->
  (exists e, (main args w).1 = Raise e /\ new_events w (main args w).2 = []) /\
  (forall xlong u,
      variables d !! "XLONG" = Some xlong ->
      (3 <= ndim (nv_values xlong))%nat ->
      nv_units tv = Some u ->
      nv_values tv = Arr [] ->
      (main args w).1 = Raise AssertionError).
Proof.
  intros Hfs Htv Hsize. split.
  - destruct (main_time_count args w d tv Hfs Htv) as (e & w' & Hrun & Htrace);
      [lia |].
    exists e. rewrite Hrun. simpl. split; [reflexivity |].
    apply new_events_app. rewrite Htrace. symmetry. apply app_nil_r.
  - intros xlong u Hx Hn Hu Hval.
    apply (time_assertion_fires args w d xlong tv u [] []); auto.
Qed.

(** *** The pressure levels, the attributes and the path *)

(** C6. The pressure levels are the fixed list of 19 values from 1000 down
    to 200. In every run, every interpolation is asked for exactly these
    levels and the level coordinate of what is written is exactly this
    list, whatever the input. *)
Theorem pressure_levels_are_fixed (args : Args) (w : World) :
  PRESSURE_LEVELS =
    [1000; 975; 950; 925; 900; 850; 800; 750; 700;
     650; 600; 550; 500; 450; 400; 350; 300; 250; 200]%Z /\
  length PRESSURE_LEVELS = 19%nat /\
  Forall levels_fixed (new_events w (main args w).2).
Proof.
  split; [reflexivity |]. split; [reflexivity |].
  assert (Hfield : forall evs, Forall field_event evs -> Forall levels_fixed evs).
  { intros evs Hevs. eapply Forall_impl; [exact Hevs |].
    intros ev [Hev _]. destruct Hev; simpl; auto. }
  destruct (main_spec args w) as [| stamp evs Hevs | stamp evs Hevs
                                  | stamp evs path out Hevs Hw].
  - constructor.
  - repeat (constructor; [exact I |]). auto.
  - repeat (constructor; [exact I |]). apply Forall_app. split; [auto |].
    repeat constructor.
  - repeat (constructor; [exact I |]). apply Forall_app. split; [auto |].
    constructor; [exact I |]. constructor; [| constructor]. simpl.
    destruct Hw as [d xlong xlat tv u x t ds w1 v lat lon assembled out
                      Hfs Hx Hn Htv Hu Hval Hdate Hheap Hv Hxlat Hlat Hlon Hasm
                      Hcrop Hmk].
    destruct (extract_in_domain_inv _ _ _ _ Hcrop) as (-> & _).
    now destruct (construct_xr_dataset_inv _ _ _ _ _ _ Hasm) as (_ & _ & -> & _).
Qed.

(** C7. In what a run writes, each field keeps its name and carries the
    attributes it had after extraction, without [projection] and with every
    other attribute as it was; the global attributes are those of the
    input file, all of them ([projection] included, if the file has one). *)
Theorem projection_is_the_only_attribute_removed (args : Args) (w : World)
    (path : string) (out : XrDataset) :
  EvToNetcdf path out ∈ new_events w (main args w).2 ->
  exists d ds w1 v,
    fs w !! inputfile args = Some (NetCDFFile d) /\
    (extract_fields ds w1).1 = Ok v /\
    xr_attrs out = ncattrs d /\
    Forall2 (fun field var =>
               var.1 = field.1 /\
               forall key,
                 xv_attrs var.2 !! key =
                 if decide (key = "projection") then None
                 else da_attrs field.2 !! key)
            v (data_vars out).
Proof.
  intros Hin. pose proof (main_write_inv args w path out Hin) as Hw.
  destruct Hw as [d xlong xlat tv u x t ds w1 v lat lon assembled out
                    Hfs Hx Hn Htv Hu Hval Hdate Hheap Hv Hxlat Hlat Hlon Hasm
                    Hcrop Hmk].
  exists d, ds, w1, v. repeat (split; [assumption |]).
  destruct (extract_in_domain_inv _ _ _ _ Hcrop) as (_ & -> & Hvars).
  destruct (construct_xr_dataset_inv _ _ _ _ _ _ Hasm) as (_ & _ & _ & -> & Hfields).
  split; [reflexivity |].
  eapply Forall2_trans; [| exact Hfields | exact Hvars].
  intros field var var' (Hname & _ & _ & Hattrs) (Hname' & _ & Hattrs').
  split; [congruence |]. intros key.
  rewrite Hattrs', Hattrs. apply filter_attrs_lookup.
Qed.

(** Where a run writes. The path given to [to_netcdf] is [os.path.join] of
    the output directory and of the file name made of the prefix as it was
    given, an underscore, the single time value of the snapshot printed as
    year (four digits), month, day, underscore, hour, underscore, minute
    (two digits each), and [.nc]. It is the directory, a slash and the name
    when the directory is not empty and has no final slash and the prefix
    has no initial slash; the directory and the name when the directory
    ends with a slash; the name alone when the prefix starts with a
    slash. *)
Theorem output_path_is_joined (args : Args) (w : World) (path : string)
    (out : XrDataset) :
  EvToNetcdf path out ∈ new_events w (main args w).2 ->
  exists d tv u x t,
    fs w !! inputfile args = Some (NetCDFFile d) /\
    variables d !! "XTIME" = Some tv /\
    nv_units tv = Some u /\
    nv_values tv = Arr [Scalar x] /\
    num2date_value u x = Ok t /\
    let stamp :=
      (zero_padded 4 (year t) ++ zero_padded 2 (month t) ++ zero_padded 2 (day t)
         ++ "_" ++ zero_padded 2 (hour t) ++ "_" ++ zero_padded 2 (minute t))%string in
    let name := (prefix args ++ "_" ++ stamp ++ ".nc")%string in
    strftime TIME_FORMAT t = stamp /\
    ((year t < 10000)%nat -> (month t < 100)%nat -> (day t < 100)%nat ->
     (hour t < 100)%nat -> (minute t < 100)%nat -> String.length stamp = 14%nat) /\
    path = os_path_join (outputdir args) name /\
    (starts_with_slash (prefix args) = false ->
     ends_with_slash (outputdir args) = false ->
     outputdir args <> EmptyString ->
     path = (outputdir args ++ "/" ++ name)%string) /\
    (starts_with_slash (prefix args) = false ->
     ends_with_slash (outputdir args) = true ->
     path = (outputdir args ++ name)%string) /\
    (starts_with_slash (prefix args) = true -> path = name).
Proof.
  intros Hin. pose proof (main_write_inv args w path out Hin) as Hw.
  destruct Hw as [d xlong xlat tv u x t ds w1 v lat lon assembled out
                    Hfs Hx Hn Htv Hu Hval Hdate Hheap Hv Hxlat Hlat Hlon Hasm
                    Hcrop Hmk].
  exists d, tv, u, x, t. repeat (split; [assumption |]).
  cbv zeta. split; [apply strftime_TIME_FORMAT |]. split.
  { intros Hy Hm Hd Hh Hmi.
    rewrite !string_length_app, zero_padded_length_4, !zero_padded_length_2 by assumption.
    reflexivity. }
  unfold output_path. rewrite strftime_TIME_FORMAT.
  split; [reflexivity |].
  destruct (os_path_join_cases (outputdir args)
              (prefix args ++ "_" ++
                 (zero_padded 4 (year t) ++ zero_padded 2 (month t)
                    ++ zero_padded 2 (day t) ++ "_" ++ zero_padded 2 (hour t)
                    ++ "_" ++ zero_padded 2 (minute t)) ++ ".nc")%string)
    as (Habs & Hslash & Hplain).
  rewrite starts_with_slash_app in Habs, Hslash, Hplain.
  repeat split; auto.
Qed.

(** *** The pressure field *)

(** C9. On a snapshot that passes the time check, the pressure diagnostic
    is called once, right after the time stamp is printed and before every
    other call of the diagnostics library; an exception it raises, of any
    kind ([ValueError] and [KeyError] included, which the loop would catch),
    ends the run with that exception: no field is extracted and nothing is
    written. *)
Theorem pressure_once_outside_handler (args : Args) (w : World) (d : NcDataset)
    (xlong tv : NcVariable) (u : string) (x : Q) (t : datetime) :
  fs w !! inputfile args = Some (NetCDFFile d) ->
  variables d !! "XLONG" = Some xlong ->
  (3 <= ndim (nv_values xlong))%nat ->
  variables d !! "XTIME" = Some tv ->
  nv_units tv = Some u ->
  nv_values tv = Arr [Scalar x] ->
  num2date_value u x = Ok t ->
  (exists evs,
      new_events w (main args w).2 =
        EvPrint (strftime TIME_FORMAT t) :: EvGetvar "p" (Some "hPa") :: evs /\
      Forall (fun ev => is_pressure_call ev = false) evs) /\
  (forall e,
      wrf_getvar (with_normalised_longitudes d xlong) "p" (Some "hPa") = Raise e ->
      (main args w).1 = Raise e /\
      new_events w (main args w).2 =
        [EvPrint (strftime TIME_FORMAT t); EvGetvar "p" (Some "hPa")]) /\
  recoverable ValueError = true /\ recoverable KeyError = true.
Proof.
  intros Hfs Hx Hn Htv Hu Hval Hdate. split; [| split].
  - now apply (main_events_from_snapshot args w d xlong tv u x t).
  - intros e Hp. now apply (main_pressure_failure args w d xlong tv u x t e).
  - split; reflexivity.
Qed.

End Run.

(** ** Concrete runs *)

(** The longitude rewrite on the sample snapshot: -170 becomes 190. *)
Lemma convert_longitudes_to_0_360_in_place_witness :
  heap Sample.opened !! 0%nat = Some Sample.snapshot /\
  variables Sample.snapshot !! "XLONG" = Some Sample.xlong /\
  (3 <= ndim (nv_values Sample.xlong))%nat /\
  exists w' d' xlong',
    convert_longitudes_to_0_360 0%nat Sample.opened = (Ok 0%nat, w') /\
    heap w' !! 0%nat = Some d' /\
    variables d' !! "XLONG" = Some xlong' /\
    nd_get (nv_values xlong') [0; 0; 2]%nat = Some 190%Q /\
    nd_get (nv_values xlong') [0; 0; 1]%nat = Some 150%Q.
Proof.
  assert (H1 : heap Sample.opened !! 0%nat = Some Sample.snapshot)
    by (vm_compute; reflexivity).
  assert (H2 : variables Sample.snapshot !! "XLONG" = Some Sample.xlong)
    by (vm_compute; reflexivity).
  assert (H3 : (3 <= ndim (nv_values Sample.xlong))%nat) by (simpl; lia).
  repeat split; try assumption.
  destruct (convert_longitudes_to_0_360_in_place 0%nat Sample.opened
              Sample.snapshot Sample.xlong H1 H2 H3)
    as (w' & d' & xlong' & Hrun & Hheap & Hvar & Hvalues & _).
  exists w', d', xlong'. repeat split; try assumption.
  - apply (Hvalues [0; 0; 2]%nat (-170)%Q); reflexivity.
  - apply (Hvalues [0; 0; 1]%nat 150%Q); [reflexivity | discriminate].
Defined.

(** The sample run writes its file; the crop keeps latitude 10 and
    longitudes 150 and 190. *)
Lemma crop_once_after_assembly_witness :
  EvToNetcdf "out/wrf_20080505_00_00.nc" Sample.output
    ∈ new_events Sample.world (@main Sample.library Sample.args Sample.world).2 /\
  (exists assembled,
      coord_lat assembled = [0; 10; 50]%Q /\
      coord_lon assembled = [90; 150; 190; 270]%Q /\
      @extract_in_domain Sample.library assembled (5, 45)%Q (100, 260)%Q
        = Ok Sample.output) /\
  coord_lat Sample.output = [10]%Q /\
  coord_lon Sample.output = [150; 190]%Q.
Proof.
  assert (Hrun : EvToNetcdf "out/wrf_20080505_00_00.nc" Sample.output
                   ∈ new_events Sample.world
                       (@main Sample.library Sample.args Sample.world).2)
    by (apply last_elem_of; vm_compute; reflexivity).
  split; [exact Hrun |].
  destruct (@crop_once_after_assembly Sample.library Sample.args Sample.world _ _ Hrun)
    as (d & xlat & xlong & ds & w1 & v & lat & lon & assembled & Hfs & Hxlat
        & Hxlong & _ & Hlat & Hlon & Hasm & Hclat & Hclon & Hcrop & _ & Hwindow).
  vm_compute in Hfs. injection Hfs as <-.
  vm_compute in Hxlat. injection Hxlat as <-.
  vm_compute in Hxlong. injection Hxlong as <-.
  vm_compute in Hlat. injection Hlat as <-.
  vm_compute in Hlon. injection Hlon as <-.
  assert (Hclat' : coord_lat assembled = [0; 10; 50]%Q).
  { vm_compute in Hclat. injection Hclat as Hclat. symmetry. exact Hclat. }
  assert (Hclon' : coord_lon assembled = [90; 150; 190; 270]%Q).
  { vm_compute in Hclon. injection Hclon as Hclon. symmetry. exact Hclon. }
  rewrite Hclat', Hclon' in Hwindow.
  destruct Hwindow as (_ & _ & Elat & Elon); [reflexivity | reflexivity |].
  split; [| split; [exact Elat | exact Elon]].
  exists assembled. auto.
Defined.

(** The sample run keeps the global attribute [projection] of the file and
    drops the attribute [projection] of every field. *)
Lemma projection_is_the_only_attribute_removed_witness :
  EvToNetcdf "out/wrf_20080505_00_00.nc" Sample.output
    ∈ new_events Sample.world (@main Sample.library Sample.args Sample.world).2 /\
  xr_attrs Sample.output !! "projection" = Some "global" /\
  exists v,
    Forall2 (fun field var =>
               var.1 = field.1 /\
               xv_attrs var.2 !! "projection" = None /\
               xv_attrs var.2 !! "units" = da_attrs field.2 !! "units")
            v (data_vars Sample.output).
Proof.
  assert (Hrun : EvToNetcdf "out/wrf_20080505_00_00.nc" Sample.output
                   ∈ new_events Sample.world
                       (@main Sample.library Sample.args Sample.world).2)
    by (apply last_elem_of; vm_compute; reflexivity).
  split; [exact Hrun |].
  destruct (@projection_is_the_only_attribute_removed Sample.library Sample.args
              Sample.world _ _ Hrun)
    as (d & ds & w1 & v & Hfs & _ & Hattrs & Hfields).
  vm_compute in Hfs. injection Hfs as <-.
  split; [rewrite Hattrs; vm_compute; reflexivity |].
  exists v. eapply Forall2_impl; [exact Hfields |].
  intros field var [Hname Hkeys]. split; [exact Hname |].
  split; [apply (Hkeys "projection") | apply (Hkeys "units")].
Defined.

(** The sample run writes to [out/wrf_20080505_00_00.nc]. *)
Lemma output_path_is_joined_witness :
  EvToNetcdf "out/wrf_20080505_00_00.nc" Sample.output
    ∈ new_events Sample.world (@main Sample.library Sample.args Sample.world).2 /\
  exists t,
    strftime TIME_FORMAT t = "20080505_00_00" /\
    "out/wrf_20080505_00_00.nc" =
    (outputdir Sample.args ++ "/" ++ prefix Sample.args ++ "_"
       ++ strftime TIME_FORMAT t ++ ".nc")%string.
Proof.
  assert (Hrun : EvToNetcdf "out/wrf_20080505_00_00.nc" Sample.output
                   ∈ new_events Sample.world
                       (@main Sample.library Sample.args Sample.world).2)
    by (apply last_elem_of; vm_compute; reflexivity).
  split; [exact Hrun |].
  destruct (@output_path_is_joined Sample.library Sample.args Sample.world _ _ Hrun)
    as (d & tv & u & x & t & Hfs & Htv & Hu & Hval & Hdate & Hstamp & _ & _
        & Hplain & _).
  simpl in Hdate. injection Hdate as <-.
  exists Sample.date. split; [reflexivity |].
  rewrite Hstamp. apply Hplain; [reflexivity | reflexivity | discriminate].
Defined.

(** C8. The run on the sample file with the output directory [out] and
    the prefix [/tmp/wrf] ends well: its last two calls, the latest first,
    are the write to [/tmp/wrf_20080505_00_00.nc] and the creation of the
    directory [out]. That path does not start
    with the output directory, and no time stamp at all makes it the
    directory, a slash, the prefix, an underscore, the stamp and [.nc]. *)
Theorem absolute_prefix_writes_outside_outputdir :
  exists out,
    (@main Sample.library Sample.args_absolute_prefix Sample.world).1 = Ok tt /\
    take 2 (reverse
              (new_events Sample.world
                 (@main Sample.library Sample.args_absolute_prefix Sample.world).2))
    = [EvToNetcdf "/tmp/wrf_20080505_00_00.nc" out; EvMakedirs "out"] /\
    output_path Sample.args_absolute_prefix "20080505_00_00"
    = "/tmp/wrf_20080505_00_00.nc" /\
    String.prefix (outputdir Sample.args_absolute_prefix)
      "/tmp/wrf_20080505_00_00.nc" = false /\
    forall stamp : string,
      "/tmp/wrf_20080505_00_00.nc" <>
      (outputdir Sample.args_absolute_prefix ++ "/"
         ++ prefix Sample.args_absolute_prefix ++ "_" ++ stamp ++ ".nc")%string.
Proof.
  eexists. split; [vm_compute; reflexivity |].
  split; [vm_compute; reflexivity |].
  split; [reflexivity |]. split; [reflexivity |].
  intros stamp. discriminate.
Qed.

(** A file with two time values: the run stops at the time-count check. *)
Lemma more_than_one_time_aborts_witness :
  fs Sample.world !! "two_times.nc"
    = Some (NetCDFFile (Sample.snapshot_with_times [0; 180]%Q)) /\
  (1 < nd_size (nv_values (Sample.xtime [0; 180]%Q)))%nat /\
  (@main Sample.library (Sample.args_of "two_times.nc") Sample.world).1
    = Raise AssertionError /\
  new_events Sample.world
    (@main Sample.library (Sample.args_of "two_times.nc") Sample.world).2 = [].
Proof.
  assert (H1 : fs Sample.world !! inputfile (Sample.args_of "two_times.nc")
               = Some (NetCDFFile (Sample.snapshot_with_times [0; 180]%Q)))
    by (vm_compute; reflexivity).
  assert (H2 : variables (Sample.snapshot_with_times [0; 180]%Q) !! "XTIME"
               = Some (Sample.xtime [0; 180]%Q))
    by (vm_compute; reflexivity).
  assert (H3 : (1 < nd_size (nv_values (Sample.xtime [0; 180]%Q)))%nat)
    by (simpl; lia).
  destruct (@more_than_one_time_aborts Sample.library
              (Sample.args_of "two_times.nc") Sample.world _ _ H1 H2 H3)
    as [(e & Hrun & Hevents) Hassert].
  split; [exact H1 |]. split; [exact H3 |]. split; [| exact Hevents].
  apply (Hassert Sample.xlong Sample.time_units [0; 180]%Q [Sample.date; Sample.date]);
    vm_compute; reflexivity.
Defined.

(** A file with no time value: the run stops at the time-count check. *)
Lemma no_time_aborts_witness :
  fs Sample.world !! "no_time.nc"
    = Some (NetCDFFile (Sample.snapshot_with_times [])) /\
  nd_size (nv_values (Sample.xtime [])) = 0%nat /\
  (@main Sample.library (Sample.args_of "no_time.nc") Sample.world).1
    = Raise AssertionError /\
  new_events Sample.world
    (@main Sample.library (Sample.args_of "no_time.nc") Sample.world).2 = [].
Proof.
  assert (H1 : fs Sample.world !! inputfile (Sample.args_of "no_time.nc")
               = Some (NetCDFFile (Sample.snapshot_with_times [])))
    by (vm_compute; reflexivity).
  assert (H2 : variables (Sample.snapshot_with_times []) !! "XTIME"
               = Some (Sample.xtime []))
    by (vm_compute; reflexivity).
  assert (H3 : nd_size (nv_values (Sample.xtime [])) = 0%nat) by reflexivity.
  destruct (@no_time_aborts Sample.library (Sample.args_of "no_time.nc")
              Sample.world _ _ H1 H2 H3)
    as [(e & Hrun & Hevents) Hassert].
  split; [exact H1 |]. split; [exact H3 |]. split; [| exact Hevents].
  apply (Hassert Sample.xlong Sample.time_units); vm_compute; reflexivity.
Defined.

(** With a library whose pressure diagnostic raises [KeyError], the run on
    the sample snapshot ends with [KeyError] right after the pressure call. *)
Lemma pressure_once_outside_handler_witness :
  fs Sample.world !! "wrfout.nc" = Some (NetCDFFile Sample.snapshot) /\
  @wrf_getvar (Sample.library_failing "p" KeyError)
    (with_normalised_longitudes Sample.snapshot Sample.xlong) "p" (Some "hPa")
    = Raise KeyError /\
  (@main (Sample.library_failing "p" KeyError) Sample.args Sample.world).1
    = Raise KeyError /\
  new_events Sample.world
    (@main (Sample.library_failing "p" KeyError) Sample.args Sample.world).2
    = [EvPrint "20080505_00_00"; EvGetvar "p" (Some "hPa")].
Proof.
  assert (H1 : fs Sample.world !! inputfile Sample.args
               = Some (NetCDFFile Sample.snapshot))
    by (vm_compute; reflexivity).
  assert (H2 : variables Sample.snapshot !! "XLONG" = Some Sample.xlong)
    by (vm_compute; reflexivity).
  assert (H3 : (3 <= ndim (nv_values Sample.xlong))%nat) by (simpl; lia).
  assert (H4 : variables Sample.snapshot !! "XTIME" = Some (Sample.xtime [0]%Q))
    by (vm_compute; reflexivity).
  assert (H5 : @wrf_getvar (Sample.library_failing "p" KeyError)
                 (with_normalised_longitudes Sample.snapshot Sample.xlong)
                 "p" (Some "hPa") = Raise KeyError)
    by reflexivity.
  destruct (@pressure_once_outside_handler (Sample.library_failing "p" KeyError)
              Sample.args Sample.world Sample.snapshot Sample.xlong
              (Sample.xtime [0]%Q) Sample.time_units 0%Q Sample.date
              H1 H2 H3 H4 eq_refl eq_refl eq_refl)
    as (_ & Hfail & _).
  destruct (Hfail KeyError H5) as [Hrun Hevents].
  split; [exact H1 |]. split; [exact H5 |]. split; [exact Hrun | exact Hevents].
Defined.

(** Relative humidity raises [KeyError] in the sample library: the file is
    written with the eight other fields, in the order of the table. *)
Example sample_run_omits_failed_field :
  (@main Sample.library Sample.args Sample.world).1 = Ok tt /\
  map fst (data_vars Sample.output) =
  ["absvprs"; "capesfc"; "hgtprs"; "tmpprs"; "ugrdprs"; "vgrdprs"; "vvelprs"; "slp"].
Proof. split; vm_compute; reflexivity. Qed.

(** An exception of another kind in the temperature diagnostic ends the run
    in the middle of the loop: nothing is written. *)
Example sample_run_fatal_field :
  (@main (Sample.library_failing "T" (Exception "RuntimeError"))
     Sample.args Sample.world).1 = Raise (Exception "RuntimeError") /\
  List.filter is_write
    (new_events Sample.world
       (@main (Sample.library_failing "T" (Exception "RuntimeError"))
          Sample.args Sample.world).2) = [].
Proof. split; vm_compute; reflexivity. Qed.

(** A file without record: the longitudes have three axes, the first one
    empty, and pass the rewrite; the run stops at the time-count check. *)
Example sample_run_zero_records :
  shape (nv_values (Sample.xlong)) = [1; 3; 4]%nat /\
  (forall xlong, variables Sample.zero_records !! "XLONG" = Some xlong ->
                 shape (nv_values xlong) = [0; 3; 4]%nat /\
                 ndim (nv_values xlong) = 3%nat) /\
  (@main Sample.library (Sample.args_of "empty.nc") Sample.zero_records_world).1
  = Raise AssertionError /\
  new_events Sample.zero_records_world
    (@main Sample.library (Sample.args_of "empty.nc") Sample.zero_records_world).2
  = [].
Proof.
  split; [reflexivity |]. split.
  - intros xlong Hx. vm_compute in Hx. injection Hx as <-. split; reflexivity.
  - split; vm_compute; reflexivity.
Qed.

(** A field of shape [(2, 0, 4)] has three axes and gets the three names;
    a crop that leaves no latitude keeps the three axes. *)
Example sample_hollow_field :
  ndim (da_data Sample.hollow) = 3%nat /\
  specify_dimensions_name Sample.hollow = ["lev"; "lat"; "lon"] /\
  shape (slice_axis (da_data Sample.field3d) 1 3 3) = [2; 0; 4]%nat /\
  ndim (slice_axis (da_data Sample.field3d) 1 3 3) = 3%nat.
Proof. repeat split. Qed.

(** * Further properties *)

(** ** The input file and the loading phase *)

Section InputFile.
Context `{Libraries}.

(** X1. A run on a path that is not a file stops at the first assertion
    with an [AssertionError]: no dataset is opened, nothing is printed or
    written, and the world is as it was. *)
Theorem missing_input_file_aborts (args : Args) (w : World) :
  fs w !! inputfile args = None ->
  main args w = (Raise AssertionError, w).
Proof.
  intros Hfs. unfold main, load_snapshot.
  apply bind_raise. rewrite bind_run. unfold os_path_isfile. rewrite Hfs.
  rewrite bool_decide_eq_false_2 by (intros [? ?]; discriminate).
  reflexivity.
Qed.

(** X2. A path that is a file but not a netCDF file passes the assertion
    and makes [Dataset] raise: the run ends with an [OSError] and the world
    is as it was. *)
Theorem non_netcdf_input_aborts (args : Args) (w : World) :
  fs w !! inputfile args = Some OtherFile ->
  main args w = (Raise OSError, w).
Proof.
  intros Hfs. unfold main, load_snapshot, bind, os_path_isfile, Dataset_open.
  rewrite Hfs. rewrite bool_decide_true by eauto.
  unfold assert, ret. rewrite Hfs. reflexivity.
Qed.
(** The run of [load_snapshot] once the file is open. *)
Lemma load_snapshot_opened args w d :
  fs w !! inputfile args = Some (NetCDFFile d) ->
  load_snapshot args w =
  (let! ds := convert_longitudes_to_0_360 (next_ref w) in
   let! time := ds_variables_get ds "XTIME" in
   let! units := match nv_units time with
                 | Some u => ret u
                 | None => raise AttributeError
                 end in
   let! time := lift (num2date (nv_values time) units) in
   let! n := lift (py_len time) in
   let! _ := assert (Nat.eqb n 1) in
   ret (ds, time))
    {| fs := fs w; heap := <[next_ref w := d]> (heap w);
       next_ref := S (next_ref w); trace := trace w |}.
Proof.
  intros Hfs. unfold load_snapshot.
  rewrite bind_run. unfold os_path_isfile at 1. rewrite Hfs.
  rewrite bool_decide_eq_true_2 by eauto.
  rewrite bind_run. cbn [assert ret].
  rewrite bind_run. unfold Dataset_open at 1. rewrite Hfs. reflexivity.
Qed.

(** X3. The exceptions of the loading phase end the run before anything is
    printed, computed or written: a file without [XLONG] gives an
    [IndexError], an [XLONG] with fewer than three axes a [ValueError], a
    file without [XTIME] a [KeyError], an [XTIME] without [units] an
    [AttributeError]. The [ValueError] and the [KeyError] are of the kinds
    that the extraction loop catches; here they are raised outside of it. *)
Theorem load_phase_errors_are_fatal (args : Args) (w : World) (d : NcDataset) :
  fs w !! inputfile args = Some (NetCDFFile d) ->
  (variables d !! "XLONG" = None ->
   (main args w).1 = Raise IndexError /\ new_events w (main args w).2 = []) /\
  (forall xlong,
      variables d !! "XLONG" = Some xlong ->
      (ndim (nv_values xlong) < 3)%nat ->
      (main args w).1 = Raise ValueError /\ new_events w (main args w).2 = []) /\
  (forall xlong,
      variables d !! "XLONG" = Some xlong ->
      (3 <= ndim (nv_values xlong))%nat ->
      variables d !! "XTIME" = None ->
      (main args w).1 = Raise KeyError /\ new_events w (main args w).2 = []) /\
  (forall xlong tv,
      variables d !! "XLONG" = Some xlong ->
      (3 <= ndim (nv_values xlong))%nat ->
      variables d !! "XTIME" = Some tv ->
      nv_units tv = None ->
      (main args w).1 = Raise AttributeError /\
      new_events w (main args w).2 = []) /\
  recoverable KeyError = true /\ recoverable ValueError = true.
Proof.
  intros Hfs.
  assert (Hmain : forall e,
             (load_snapshot args w).1 = Raise e ->
             (main args w).1 = Raise e /\ new_events w (main args w).2 = []).
  { intros e He. destruct (load_snapshot args w) as [r w1] eqn:E.
    simpl in He. subst r.
    pose proof (load_snapshot_spec _ _ _ _ E) as (Ht & _).
    unfold main. rewrite (bind_raise _ _ _ _ _ E). simpl.
    split; [reflexivity |]. apply new_events_app. rewrite Ht.
    symmetry. apply app_nil_r. }
  set (w0 := {| fs := fs w; heap := <[next_ref w := d]> (heap w);
                next_ref := S (next_ref w); trace := trace w |}).
  assert (Hd0 : heap w0 !! next_ref w = Some d) by apply lookup_insert_eq.
  split; [| split; [| split; [| split; [| split; reflexivity]]]].
  - intros Hx. apply Hmain. rewrite (load_snapshot_opened args w d Hfs). fold w0.
    rewrite bind_run. unfold convert_longitudes_to_0_360.
    rewrite bind_run. unfold ds_getitem.
    rewrite bind_run, (deref_run _ _ _ Hd0), Hx. reflexivity.
  - intros xlong Hx Hn. apply Hmain.
    rewrite (load_snapshot_opened args w d Hfs). fold w0.
    rewrite bind_run. unfold convert_longitudes_to_0_360.
    rewrite bind_run. unfold ds_getitem at 1.
    rewrite bind_run, (deref_run _ _ _ Hd0), Hx. cbn [ret].
    rewrite bind_run. unfold var_get_all3.
    destruct (Nat.leb_spec 3 (ndim (nv_values xlong))); [lia | reflexivity].
  - intros xlong Hx Hn Ht. apply Hmain.
    rewrite (load_snapshot_opened args w d Hfs). fold w0.
    rewrite bind_run, (convert_longitudes_run _ w0 d xlong Hd0 Hx Hn).
    rewrite bind_run. unfold ds_variables_get.
    rewrite bind_run. erewrite deref_run by apply lookup_insert_eq.
    simpl. rewrite lookup_insert_ne by discriminate. rewrite Ht. reflexivity.
  - intros xlong tv Hx Hn Ht Hu. apply Hmain.
    rewrite (load_snapshot_opened args w d Hfs). fold w0.
    rewrite bind_run, (convert_longitudes_run _ w0 d xlong Hd0 Hx Hn).
    rewrite bind_run. unfold ds_variables_get.
    rewrite bind_run. erewrite deref_run by apply lookup_insert_eq.
    simpl. rewrite lookup_insert_ne by discriminate. rewrite Ht.
    cbn [ret]. rewrite Hu. reflexivity.
Qed.
End InputFile.

(** ** Longitudes: range, second rewrite, date line *)

Lemma where_negative_add_360_fixed (x : Q) :
  (-360 <= x)%Q ->
  where_negative_add_360 (where_negative_add_360 x) = where_negative_add_360 x.
Proof.
  intros Hlo. apply where_nonnegative. unfold where_negative_add_360.
  destruct (Qlt_le_dec x 0); lra.
Qed.

Lemma nd_map_ext_in {A B} (f g : A -> B) (a : ndarray A) :
  (forall idx x, nd_get a idx = Some x -> f x = g x) -> nd_map f a = nd_map g a.
Proof.
  induction a as [x | xs IH | n rest] using ndarray_nested_ind; intros Hfg.
  - simpl. f_equal. apply (Hfg []). reflexivity.
  - simpl. f_equal. apply list_eq. intros i. rewrite !list_lookup_fmap.
    destruct (xs !! i) as [y |] eqn:Hy; [| reflexivity]. simpl. f_equal.
    rewrite Forall_forall in IH. apply IH.
    + eapply list_elem_of_lookup_2; eassumption.
    + intros idx x Hx. apply (Hfg (i :: idx)). simpl. now rewrite Hy.
  - reflexivity.
Qed.

Lemma nd_map_nd_map {A B C} (f : A -> B) (g : B -> C) (a : ndarray A) :
  nd_map g (nd_map f a) = nd_map (fun x => g (f x)) a.
Proof.
  induction a as [x | xs IH | n rest] using ndarray_nested_ind;
    [reflexivity | | reflexivity].
  simpl. f_equal. rewrite <- list_fmap_compose. apply list_eq. intros i.
  rewrite !list_lookup_fmap. destruct (xs !! i) as [y |] eqn:Hy; [| reflexivity].
  simpl. f_equal. rewrite Forall_forall in IH. apply IH.
  eapply list_elem_of_lookup_2; eassumption.
Qed.

Lemma ndim_nd_map {A B} (f : A -> B) (a : ndarray A) :
  ndim (nd_map f a) = ndim a.
Proof.
  induction a as [x | xs IH | n rest] using ndarray_nested_ind;
    [reflexivity | | reflexivity].
  simpl. destruct xs as [| y ys]; [reflexivity |].
  simpl. f_equal. now inversion IH.
Qed.

(** X4. On longitudes that are all at least -360, the rewrite yields values
    that are all at least 0, and at most 360 when the inputs are; a second
    rewrite of the same dataset then changes nothing at all. The upper
    bound is 360 included: it is kept by a sum that is rounded. *)
Theorem convert_longitudes_twice (ds : Dataset) (w : World) (d : NcDataset)
    (xlong : NcVariable) :
  heap w !! ds = Some d ->
  variables d !! "XLONG" = Some xlong ->
  (3 <= ndim (nv_values xlong))%nat ->
  (forall idx x, nd_get (nv_values xlong) idx = Some x -> (-360 <= x)%Q) ->
  exists w1 d1 xlong1,
    convert_longitudes_to_0_360 ds w = (Ok ds, w1) /\
    convert_longitudes_to_0_360 ds w1 = (Ok ds, w1) /\
    heap w1 !! ds = Some d1 /\
    variables d1 !! "XLONG" = Some xlong1 /\
    (forall idx x, nd_get (nv_values xlong1) idx = Some x -> (0 <= x)%Q) /\
    ((forall idx x, nd_get (nv_values xlong) idx = Some x -> (x <= 360)%Q) ->
     forall idx x, nd_get (nv_values xlong1) idx = Some x -> (x <= 360)%Q).
Proof.
  intros Hd Hx Hn Hlo.
  set (d1 := with_normalised_longitudes d xlong).
  set (xlong1 := {| nv_values := nd_map where_negative_add_360 (nv_values xlong);
                    nv_units := nv_units xlong |}).
  set (w1 := set_heap (<[ds := d1]> (heap w)) w).
  assert (Hd1 : heap w1 !! ds = Some d1) by apply lookup_insert_eq.
  assert (Hx1 : variables d1 !! "XLONG" = Some xlong1) by apply lookup_insert_eq.
  assert (Hn1 : (3 <= ndim (nv_values xlong1))%nat)
    by (simpl; now rewrite ndim_nd_map).
  exists w1, d1, xlong1.
  split; [apply (convert_longitudes_run ds w d xlong Hd Hx Hn) |].
  split.
  { rewrite (convert_longitudes_run ds w1 d1 xlong1 Hd1 Hx1 Hn1). f_equal.
    assert (Hsame : with_normalised_longitudes d1 xlong1 = d1).
    { unfold with_normalised_longitudes at 1. unfold d1 at 3.
      unfold with_normalised_longitudes. f_equal. simpl.
      rewrite insert_insert_eq. f_equal. f_equal.
      rewrite nd_map_nd_map. apply nd_map_ext_in.
      intros idx x Hget. apply where_negative_add_360_fixed. eauto. }
    rewrite Hsame. unfold w1, set_heap. simpl. f_equal.
    apply insert_insert_eq. }
  split; [exact Hd1 |]. split; [exact Hx1 |]. split.
  - intros idx x. simpl. rewrite nd_get_nd_map.
    destruct (nd_get (nv_values xlong) idx) as [x0 |] eqn:Hget; [| discriminate].
    simpl. intros E. injection E as <-.
    specialize (Hlo idx x0 Hget). unfold where_negative_add_360.
    destruct (Qlt_le_dec x0 0); lra.
  - intros Hhi idx x. simpl. rewrite nd_get_nd_map.
    destruct (nd_get (nv_values xlong) idx) as [x0 |] eqn:Hget; [| discriminate].
    simpl. intros E. injection E as <-.
    specialize (Hlo idx x0 Hget). specialize (Hhi idx x0 Hget).
    unfold where_negative_add_360. destruct (Qlt_le_dec x0 0); lra.
Qed.

Lemma is_monotonic_increasing_app (l1 l2 : list Q) :
  is_monotonic_increasing l1 = true ->
  is_monotonic_increasing l2 = true ->
  (forall x y, last l1 = Some x -> head l2 = Some y -> (x <= y)%Q) ->
  is_monotonic_increasing (l1 ++ l2) = true.
Proof.
  induction l1 as [| x l1 IH]; intros H1 H2 Hj; [exact H2 |].
  destruct l1 as [| x' l1].
  - simpl. destruct l2 as [| y l2]; [reflexivity |].
    apply andb_true_intro. split; [| exact H2].
    apply Qle_bool_iff. now apply Hj.
  - pose proof H1 as H1'. simpl in H1'. apply andb_prop in H1' as [Hxx' Hrest].
    change ((x :: x' :: l1) ++ l2) with (x :: (x' :: l1) ++ l2).
    change (is_monotonic_increasing (x :: (x' :: l1) ++ l2))
      with (Qle_bool x x' && is_monotonic_increasing ((x' :: l1) ++ l2))%bool.
    rewrite Hxx'. simpl andb. apply IH; [exact Hrest | exact H2 |].
    intros a b Ha Hb. apply Hj; [| exact Hb]. exact Ha.
Qed.

Lemma is_monotonic_increasing_shift (k : Q) (l : list Q) :
  is_monotonic_increasing l = true ->
  is_monotonic_increasing (map (fun y => (y + k)%Q) l) = true.
Proof.
  induction l as [| x l IH]; [reflexivity |].
  destruct l as [| y l]; [reflexivity |].
  intros Hm. pose proof Hm as Hm'. simpl in Hm'.
  apply andb_prop in Hm' as [Hxy Hrest].
  change (is_monotonic_increasing (map (fun y => (y + k)%Q) (x :: y :: l)))
    with (Qle_bool (x + k) (y + k)
          && is_monotonic_increasing (map (fun y => (y + k)%Q) (y :: l)))%bool.
  rewrite (IH Hrest), andb_true_r. apply Qle_bool_iff.
  apply Qle_bool_iff in Hxy. lra.
Qed.

Lemma coord_values_scalars (l : list Q) : coord_values (Arr (Scalar <$> l)) = Ok l.
Proof.
  simpl. induction l as [| x l IH]; [reflexivity |].
  change (Scalar <$> x :: l) with (Scalar x :: (Scalar <$> l)).
  cbn [mapM]. now rewrite IH.
Qed.

Lemma nd_map_scalars {A B} (f : A -> B) (l : list A) :
  nd_map f (Arr (Scalar <$> l)) = Arr (Scalar <$> (f <$> l)).
Proof.
  simpl. f_equal. induction l as [| x l IH]; [reflexivity |].
  change (Scalar <$> x :: l) with (Scalar x :: (Scalar <$> l)).
  simpl. now rewrite IH.
Qed.

(** X5. A first longitude row that crosses the date line, increasing and
    non-negative east of it, then increasing and negative west of it, is
    after the rewrite the coordinate read by [[0, 0, :]]: the eastern
    values unchanged, followed by the western ones plus 360. That
    coordinate increases, as the crop needs, when the last eastern value is
    at most the first western one plus 360. *)
Theorem date_line_row_becomes_increasing (east west : list Q)
    (rows times : list (ndarray Q)) :
  is_monotonic_increasing east = true ->
  is_monotonic_increasing west = true ->
  (forall x, x ∈ east -> (0 <= x)%Q) ->
  (forall y, y ∈ west -> (y < 0)%Q) ->
  (forall x y, last east = Some x -> head west = Some y -> (x <= y + 360)%Q) ->
  exists lon,
    index_0_0_all
      (nd_map where_negative_add_360
         (Arr (Arr (Arr (Scalar <$> east ++ west) :: rows) :: times))) = Ok lon /\
    coord_values lon = Ok (east ++ map (fun y => (y + 360)%Q) west) /\
    is_monotonic_increasing (east ++ map (fun y => (y + 360)%Q) west) = true.
Proof.
  intros Heast Hwest Hpos Hneg Hjoin.
  assert (Hmap : where_negative_add_360 <$> (east ++ west)
                 = east ++ map (fun y => (y + 360)%Q) west).
  { rewrite fmap_app. f_equal.
    - clear -Hpos. induction east as [| x l IH]; [reflexivity |].
      change (where_negative_add_360 <$> x :: l)
        with (where_negative_add_360 x :: (where_negative_add_360 <$> l)).
      rewrite where_nonnegative by (apply Hpos; left).
      f_equal. apply IH. intros y Hy. apply Hpos. now right.
    - clear -Hneg. induction west as [| x l IH]; [reflexivity |].
      change (where_negative_add_360 <$> x :: l)
        with (where_negative_add_360 x :: (where_negative_add_360 <$> l)).
      rewrite where_negative by (apply Hneg; left).
      simpl. f_equal. apply IH. intros y Hy. apply Hneg. now right. }
  exists (Arr (Scalar <$> (east ++ map (fun y => (y + 360)%Q) west))).
  split; [| split].
  - change (nd_map where_negative_add_360
              (Arr (Arr (Arr (Scalar <$> east ++ west) :: rows) :: times)))
      with (Arr (Arr (nd_map where_negative_add_360 (Arr (Scalar <$> east ++ west))
                        :: map (nd_map where_negative_add_360) rows)
                   :: map (nd_map where_negative_add_360) times)).
    rewrite nd_map_scalars, Hmap. reflexivity.
  - apply coord_values_scalars.
  - apply is_monotonic_increasing_app; [exact Heast | |].
    + now apply is_monotonic_increasing_shift.
    + intros x y Hx Hy. destruct west as [| y0 west]; [discriminate |].
      simpl in Hy. injection Hy as <-. now apply Hjoin.
Qed.

(** ** The mapping of the loop and its log lines *)

Lemma odict_set_fresh {V} (v : list (string * V)) name x :
  name ∉ map fst v -> map fst (odict_set v name x) = map fst v ++ [name].
Proof.
  induction v as [| [k y] v IH]; intros Hfresh; [reflexivity |].
  simpl in Hfresh. apply not_elem_of_cons in Hfresh as [Hne Hfresh].
  simpl. destruct (String.eqb_spec k name) as [-> | _]; [contradiction |].
  simpl. now rewrite IH.
Qed.

Lemma NoDup_map_filter {A B} (f : A -> B) (p : A -> bool) (l : list A) :
  NoDup (map f l) -> NoDup (map f (List.filter p l)).
Proof.
  induction l as [| x l IH]; intros Hnd; [constructor |].
  simpl in Hnd. apply NoDup_cons in Hnd as [Hx Hnd].
  simpl. destruct (p x); [| now apply IH].
  simpl. apply NoDup_cons. split; [| now apply IH].
  intros Hin. apply Hx. apply list_elem_of_fmap in Hin as (y & -> & Hy).
  apply list_elem_of_fmap. exists y. split; [reflexivity |].
  apply list_elem_of_In. apply list_elem_of_In, filter_In in Hy. tauto.
Qed.

Section LoopOrder.
Context `{Libraries}.

Lemma emits_table_calls (P : Event -> Prop) ds entry :
  (forall varname units, P (EvGetvar varname units)) -> P EvDestagger ->
  entry ∈ variables_table -> emits P (entry.1.2 ds).
Proof.
  intros Hget Hdes. unfold variables_table. intros Hin.
  repeat (apply elem_of_cons in Hin as [-> | Hin]);
    try (apply emits_getvar, Hget).
  - simpl. unfold calculate_geopotential.
    apply emits_bind; [apply emits_getvar, Hget |]. intros ph.
    apply emits_bind; [apply emits_getvar, Hget |]. intros phb.
    apply emits_bind; [apply emits_lift |]. intros hgt.
    apply emits_bind; [apply emits_emit, Hdes |].
    intros _. apply emits_lift.
  - apply elem_of_nil in Hin. contradiction.
Qed.

Lemma extract_loop_keys ds pressures entries :
  (forall entry, entry ∈ entries -> emits field_event (entry.1.2 ds)) ->
  NoDup (map field_name entries) ->
  forall v w v',
    (forall entry, entry ∈ entries -> field_name entry ∉ map fst v) ->
    (extract_loop ds pressures entries v w).1 = Ok v' ->
    map fst v' =
    map fst v ++
    map field_name
      (List.filter (fun entry => succeeded (field_outcome ds pressures entry w))
         entries).
Proof.
  induction entries as [| entry rest IH]; intros Hall Hnodup v w v' Hfresh Hrun.
  - simpl in Hrun. injection Hrun as <-. simpl. now rewrite app_nil_r.
  - apply NoDup_cons in Hnodup as [Hnew Hnodup].
    assert (Hrest : forall entry', entry' ∈ rest -> emits field_event (entry'.1.2 ds))
      by (intros entry' Hin; apply Hall; now right).
    assert (Hentry : emits field_event (entry.1.2 ds)) by (apply Hall; left).
    simpl in Hrun. rewrite bind_run in Hrun.
    pose proof (extract_variable_outcome ds pressures v entry w) as Hout.
    destruct (emits_extract_variable ds pressures v entry Hentry w)
      as (_ & Hheap & _).
    destruct (extract_variable ds pressures v entry w) as [[v1 | e1] w1];
      simpl in Hout, Hheap; [| discriminate].
    assert (Hfilter :
              List.filter (fun entry0 => succeeded (field_outcome ds pressures entry0 w1)) rest
              = List.filter (fun entry0 => succeeded (field_outcome ds pressures entry0 w)) rest).
    { apply filter_ext_in. intros entry' Hin. apply list_elem_of_In in Hin.
      now rewrite (field_outcome_heap _ _ _ w w1 (Hrest _ Hin) Hheap). }
    specialize (IH Hrest Hnodup v1 w1 v').
    simpl. destruct (field_outcome ds pressures entry w) as [values | e] eqn:Hfo.
    + injection Hout as ->. simpl.
      rewrite IH; [| | exact Hrun].
      * rewrite odict_set_fresh by (apply Hfresh; left).
        rewrite <- app_assoc, Hfilter. reflexivity.
      * intros entry' Hin. rewrite odict_set_fresh by (apply Hfresh; left).
        rewrite elem_of_app, list_elem_of_singleton. intros [Hold | Heq].
        -- revert Hold. apply Hfresh. now right.
        -- apply Hnew. rewrite <- Heq. apply list_elem_of_fmap. eauto.
    + destruct (recoverable e); [| discriminate]. injection Hout as ->. simpl.
      rewrite IH; [| | exact Hrun].
      * now rewrite Hfilter.
      * intros entry' Hin. apply Hfresh. now right.
Qed.

(** X7. In a loop that completes, the keys of the mapping are the names of
    the fields whose computation raised nothing, in the order of the table
    and without repetition. *)
Theorem mapping_keeps_table_order (ds : Dataset) (pressures : DataArray)
    (w : World) (v : list (string * DataArray)) :
  (extract_loop ds pressures variables_table [] w).1 = Ok v ->
  map fst v =
  map field_name
    (List.filter (fun entry => succeeded (field_outcome ds pressures entry w))
       variables_table) /\
  NoDup (map fst v).
Proof.
  intros Hrun.
  rewrite (extract_loop_keys ds pressures variables_table
             (fun entry => emits_table ds entry) variables_table_NoDup
             [] w v); [| | exact Hrun].
  - split; [reflexivity |].
    apply NoDup_map_filter, variables_table_NoDup.
  - intros entry _ Hin. now apply elem_of_nil in Hin.
Qed.

Lemma filter_is_logging_call_none evs :
  Forall (fun ev => is_logging_call ev = false) evs -> List.filter is_logging_call evs = [].
Proof.
  induction 1 as [| ev evs Hev _ IH]; [reflexivity |]. simpl. now rewrite Hev.
Qed.

Lemma extract_variable_log ds pressures v entry w :
  entry ∈ variables_table ->
  exists evs,
    trace (extract_variable ds pressures v entry w).2 = trace w ++ evs /\
    List.filter is_logging_call evs =
    logging_calls [(field_name entry, field_outcome ds pressures entry w)].
Proof.
  intros Hin.
  assert (Hcalls : emits (fun ev => is_logging_call ev = false)
                     (compute_field ds pressures entry.1.2 entry.2)).
  { apply emits_compute_field; [| reflexivity].
    apply emits_table_calls; auto. }
  destruct (Hcalls w) as ((evs & Ht & Hevs) & _).
  apply filter_is_logging_call_none in Hevs.
  destruct entry as [[name fn] flag].
  unfold field_outcome, field_name, extract_variable, try_except, bind.
  simpl in *.
  destruct (compute_field ds pressures fn flag w) as [[values | e] w1];
    simpl in *.
  - exists (evs ++ [EvLogInfo name]). rewrite Ht, <- app_assoc.
    split; [reflexivity |]. rewrite List.filter_app, Hevs. reflexivity.
  - destruct (recoverable e); simpl.
    + exists (evs ++ [EvLogWarning name]). rewrite Ht, <- app_assoc.
      split; [reflexivity |]. rewrite List.filter_app, Hevs. reflexivity.
    + exists evs. auto.
Qed.

Lemma extract_loop_logs ds pressures entries :
  (forall entry, entry ∈ entries -> entry ∈ variables_table) ->
  forall v w,
  exists evs,
    trace (extract_loop ds pressures entries v w).2 = trace w ++ evs /\
    List.filter is_logging_call evs =
    logging_calls (map (fun entry => (field_name entry,
                                  field_outcome ds pressures entry w)) entries).
Proof.
  induction entries as [| entry rest IH]; intros Hsub v w.
  - exists []. simpl. now rewrite app_nil_r.
  - assert (Hin : entry ∈ variables_table) by (apply Hsub; left).
    assert (Hrest : forall entry', entry' ∈ rest -> entry' ∈ variables_table)
      by (intros entry' Hin'; apply Hsub; now right).
    destruct (extract_variable_log ds pressures v entry w Hin) as (evs1 & Ht1 & Hlog1).
    pose proof (extract_variable_outcome ds pressures v entry w) as Hout.
    destruct (emits_extract_variable ds pressures v entry (emits_table ds entry Hin) w)
      as (_ & Hheap & _).
    simpl. rewrite bind_run.
    destruct (extract_variable ds pressures v entry w) as [[v1 | e1] w1];
      simpl in Ht1, Hout, Hheap.
    + destruct (IH Hrest v1 w1) as (evs2 & Ht2 & Hlog2).
      exists (evs1 ++ evs2). rewrite Ht2, Ht1, <- app_assoc.
      split; [reflexivity |]. rewrite List.filter_app, Hlog1, Hlog2.
      assert (Hsame :
                map (fun entry0 => (field_name entry0,
                                    field_outcome ds pressures entry0 w1)) rest
                = map (fun entry0 => (field_name entry0,
                                      field_outcome ds pressures entry0 w)) rest).
      { apply map_ext_in. intros entry' Hin'. apply list_elem_of_In in Hin'.
        now rewrite (field_outcome_heap _ _ _ w w1
                       (emits_table ds entry' (Hrest _ Hin')) Hheap). }
      rewrite Hsame. simpl.
      destruct (field_outcome ds pressures entry w) as [values | e];
        [reflexivity |].
      destruct (recoverable e); [reflexivity | discriminate].
    + exists evs1. simpl. split; [exact Ht1 |]. rewrite Hlog1. simpl.
      destruct (field_outcome ds pressures entry w) as [values | e];
        [discriminate |].
      destruct (recoverable e); [discriminate | reflexivity].
Qed.

Lemma filter_writes_log_line evs :
  List.filter writes_log_line (List.filter is_logging_call evs)
  = List.filter writes_log_line evs.
Proof.
  induction evs as [| ev evs IH]; [reflexivity |].
  destruct ev; simpl; rewrite ?IH; reflexivity.
Qed.

Lemma logging_calls_warnings results :
  List.filter writes_log_line (logging_calls results)
  = map EvLogWarning (dropped_fields results).
Proof.
  induction results as [| [name [values | e]] rest IH]; [reflexivity | exact IH |].
  simpl. destruct (recoverable e); [| reflexivity]. simpl. now rewrite IH.
Qed.

(** X8. For each field it goes through, in the order of the table, the loop
    calls [logging.info] once if it keeps the field and [logging.warning]
    once if it drops it; it calls neither for the field whose exception
    ends the loop nor for the fields after it. Of these calls only the
    warnings write a line, the logger being left at its default level: the
    log of the loop names the dropped fields, in the order of the table,
    and no kept field. *)
Theorem one_logging_call_per_field (ds : Dataset) (pressures : DataArray)
    (w : World) :
  let results :=
    map (fun entry => (field_name entry, field_outcome ds pressures entry w))
      variables_table in
  let calls := new_events w (extract_loop ds pressures variables_table [] w).2 in
  List.filter is_logging_call calls = logging_calls results /\
  List.filter writes_log_line calls = map EvLogWarning (dropped_fields results).
Proof.
  cbv zeta.
  destruct (extract_loop_logs ds pressures variables_table (fun _ Hin => Hin) [] w)
    as (evs & Ht & Hlog).
  rewrite (new_events_app _ _ _ Ht). split; [exact Hlog |].
  now rewrite <- filter_writes_log_line, Hlog, logging_calls_warnings.
Qed.
End LoopOrder.

(** ** The container builder: shapes *)

Lemma dim_size_ok_axis (var : XrVariable) (dim : string) (n i : nat) :
  dim_size_ok var dim n = true ->
  dim_axis dim (xv_dims var) = Some i ->
  axis_len (xv_data var) i = Some n.
Proof.
  unfold dim_size_ok. intros Hok Hax. rewrite Hax in Hok.
  destruct (axis_len (xv_data var) i) as [k |]; [| discriminate].
  apply Nat.eqb_eq in Hok. now subst.
Qed.

(** X9. In a container that the builder returns, the variables carry the
    names of the fields in the same order, and each one either has three
    axes named [lev], [lat], [lon], as long as the level, latitude and
    longitude coordinates, or has two axes named [lat], [lon], as long as
    the latitude and longitude coordinates. *)
Theorem assembled_fields_fit_the_axes (vars : list (string * DataArray))
    (lat lon : ndarray Q) (lev : list Z) (attrs : gmap string string)
    (xds : XrDataset) :
  construct_xr_dataset vars lat lon lev attrs = Ok xds ->
  map fst (data_vars xds) = map fst vars /\
  Forall (fun var =>
            (ndim (xv_data var.2) = 3%nat /\
             xv_dims var.2 = ["lev"; "lat"; "lon"] /\
             axis_len (xv_data var.2) 0 = Some (length (coord_lev xds)) /\
             axis_len (xv_data var.2) 1 = Some (length (coord_lat xds)) /\
             axis_len (xv_data var.2) 2 = Some (length (coord_lon xds)))
            \/
            (ndim (xv_data var.2) = 2%nat /\
             xv_dims var.2 = ["lat"; "lon"] /\
             axis_len (xv_data var.2) 0 = Some (length (coord_lat xds)) /\
             axis_len (xv_data var.2) 1 = Some (length (coord_lon xds))))
         (data_vars xds).
Proof.
  unfold construct_xr_dataset.
  destruct (mapM _ vars) as [xvars | e] eqn:Hm; [| discriminate].
  unfold xr_Dataset.
  destruct (coord_values lat) as [lat' | e]; [| discriminate].
  destruct (coord_values lon) as [lon' | e]; [| discriminate].
  destruct (forallb _ xvars) eqn:Hall; [| discriminate].
  intros E. injection E as <-. cbn [data_vars coord_lat coord_lon coord_lev].
  apply mapM_Forall2 in Hm. split.
  - clear Hall. induction Hm as [| [name var] [name' xv] vars xvars Hx _ IH];
      [reflexivity |].
    simpl. rewrite IH. f_equal. revert Hx.
    destruct (xr_Variable _ _ _); [| discriminate]. congruence.
  - rewrite forallb_forall in Hall. apply Forall_forall. intros [name xv] Hin.
    assert (Hok := Hall (name, xv) (proj1 (list_elem_of_In _ _) Hin)).
    simpl in Hok. apply andb_prop in Hok as [Hok Hlev].
    apply andb_prop in Hok as [Hlat Hlon].
    apply list_elem_of_lookup in Hin as [i Hi].
    destruct (Forall2_lookup_r _ _ _ _ _ Hm Hi) as ([name0 var] & _ & Hx).
    unfold xr_Variable, specify_dimensions_name in Hx. revert Hx.
    destruct (Nat.eqb (ndim (da_data var)) 3) eqn:H3.
    + destruct (Nat.eqb (length _) _); [| discriminate]. intros E. inversion E; subst.
      apply Nat.eqb_eq in H3. left. cbn [snd xv_data xv_dims].
      split; [exact H3 |]. split; [reflexivity |].
      split; [exact (dim_size_ok_axis _ "lev" _ 0 Hlev eq_refl) |].
      split; [exact (dim_size_ok_axis _ "lat" _ 1 Hlat eq_refl) |].
      exact (dim_size_ok_axis _ "lon" _ 2 Hlon eq_refl).
    + destruct (Nat.eqb (length _) _) eqn:H2; [| discriminate].
      intros E. inversion E; subst.
      apply Nat.eqb_eq in H2. right. cbn [snd xv_data xv_dims].
      split; [now rewrite <- H2 |]. split; [reflexivity |].
      split; [exact (dim_size_ok_axis _ "lat" _ 0 Hlat eq_refl) |].
      exact (dim_size_ok_axis _ "lon" _ 1 Hlon eq_refl).
Qed.

(** X10. A field whose array has neither two nor three axes makes the
    builder raise a [ValueError], whatever the other fields and the
    coordinates are: it gets the two names [lat] and [lon], which
    [xr.Variable] refuses for any other number of axes. *)
Theorem builder_rejects_other_ranks (vars : list (string * DataArray))
    (lat lon : ndarray Q) (lev : list Z) (attrs : gmap string string)
    (name : string) (var : DataArray) :
  (name, var) ∈ vars ->
  ndim (da_data var) <> 2%nat ->
  ndim (da_data var) <> 3%nat ->
  construct_xr_dataset vars lat lon lev attrs = Raise ValueError.
Proof.
  intros Hin H2 H3. unfold construct_xr_dataset.
  rewrite (mapM_raise _ vars ValueError); [reflexivity | |].
  - intros [name' var'] e' _. unfold xr_Variable.
    destruct (Nat.eqb _ _); [discriminate |]. now intros [= <-].
  - exists (name, var). split; [exact Hin |]. exists ValueError.
    unfold xr_Variable, specify_dimensions_name.
    destruct (Nat.eqb (ndim (da_data var)) 3) eqn:E3.
    + apply Nat.eqb_eq in E3. contradiction.
    + cbn [length]. destruct (Nat.eqb 2 (ndim (da_data var))) eqn:E2;
        [| reflexivity].
      apply Nat.eqb_eq in E2. congruence.
Qed.

(** ** The crop: increasing axes, values *)

Lemma is_monotonic_increasing_drop (n : nat) (a : list Q) :
  is_monotonic_increasing a = true -> is_monotonic_increasing (drop n a) = true.
Proof.
  revert a. induction n as [| n IH]; intros a Hm; [now rewrite drop_0 |].
  destruct a as [| x a]; [reflexivity |].
  apply IH. eapply is_monotonic_increasing_tail. exact Hm.
Qed.

Lemma is_monotonic_increasing_take (n : nat) (a : list Q) :
  is_monotonic_increasing a = true -> is_monotonic_increasing (take n a) = true.
Proof.
  revert a. induction n as [| n IH]; intros a Hm; [reflexivity |].
  destruct a as [| x a]; [reflexivity |].
  pose proof (IH a (is_monotonic_increasing_tail _ _ Hm)) as Htl.
  cbn [take]. destruct n as [| n]; [reflexivity |].
  destruct a as [| y a]; [reflexivity |].
  cbn [take] in Htl |- *. simpl in Hm. apply andb_prop in Hm as [Hxy _].
  change (is_monotonic_increasing (x :: y :: take n a))
    with (Qle_bool x y && is_monotonic_increasing (y :: take n a))%bool.
  now rewrite Hxy, Htl.
Qed.

Lemma filter_none {A} (p : A -> bool) (l : list A) :
  (forall x, x ∈ l -> p x = false) -> List.filter p l = [].
Proof.
  induction l as [| x l IH]; intros Hall; [reflexivity |].
  simpl. rewrite (Hall x) by now left. apply IH. intros y Hy. apply Hall. now right.
Qed.

Section CropTotal.
Context `{Libraries}.

(** X11. On latitudes and longitudes that increase, the crop raises
    nothing, whatever the window: it keeps the variables under their names
    and in their order, its coordinates increase again, and a coordinate
    with no value in the window comes out empty. *)
Theorem crop_of_increasing_axes_succeeds (xds : XrDataset)
    (latrange lonrange : Q * Q) :
  is_monotonic_increasing (coord_lat xds) = true ->
  is_monotonic_increasing (coord_lon xds) = true ->
  exists out,
    extract_in_domain xds latrange lonrange = Ok out /\
    map fst (data_vars out) = map fst (data_vars xds) /\
    is_monotonic_increasing (coord_lat out) = true /\
    is_monotonic_increasing (coord_lon out) = true /\
    ((forall x, x ∈ coord_lat xds -> in_window latrange.1 latrange.2 x = false) ->
     coord_lat out = []) /\
    ((forall x, x ∈ coord_lon xds -> in_window lonrange.1 lonrange.2 x = false) ->
     coord_lon out = []).
Proof.
  intros Hlat Hlon.
  destruct (extract_in_domain xds latrange lonrange) as [out | e] eqn:E.
  2:{ unfold extract_in_domain, slice_indexer in E. rewrite Hlat, Hlon in E.
      discriminate. }
  exists out. split; [reflexivity |].
  destruct (extract_in_domain_sorted _ _ _ _ E Hlat Hlon) as [Elat Elon].
  destruct (extract_in_domain_inv _ _ _ _ E) as (_ & _ & Hvars).
  split.
  { clear -Hvars. induction Hvars as [| var var' vars vars' [Hname _] _ IH];
      [reflexivity |].
    simpl. now rewrite Hname, IH. }
  assert (Hslice : coord_lat out
                   = slice_list (searchsorted (coord_lat xds) latrange.1 false)
                       (searchsorted (coord_lat xds) latrange.2 true) (coord_lat xds)
                   /\ coord_lon out
                   = slice_list (searchsorted (coord_lon xds) lonrange.1 false)
                       (searchsorted (coord_lon xds) lonrange.2 true) (coord_lon xds)).
  { rewrite !window_slice by assumption. now split. }
  destruct Hslice as [Slat Slon].
  split; [rewrite Slat; unfold slice_list;
          now apply is_monotonic_increasing_take, is_monotonic_increasing_drop |].
  split; [rewrite Slon; unfold slice_list;
          now apply is_monotonic_increasing_take, is_monotonic_increasing_drop |].
  split; intros Hnone; [rewrite Elat | rewrite Elon]; now apply filter_none.
Qed.
End CropTotal.

Lemma slice_list_lookup {A} (start stop i : nat) (l : list A) :
  (i < stop - start)%nat -> slice_list start stop l !! i = l !! (start + i)%nat.
Proof.
  intros Hi. unfold slice_list. rewrite lookup_take.
  destruct (decide (i < stop - start)%nat) as [_ | Hn]; [| contradiction].
  apply lookup_drop.
Qed.

Lemma slice_list_lookup_Some {A} (start stop i : nat) (l : list A) x :
  slice_list start stop l !! i = Some x ->
  (i < stop - start)%nat /\ l !! (start + i)%nat = Some x.
Proof.
  intros Hx. assert (Hi : (i < stop - start)%nat).
  { apply lookup_lt_Some in Hx. unfold slice_list in Hx.
    rewrite length_take in Hx. lia. }
  split; [exact Hi |]. now rewrite <- slice_list_lookup with (stop := stop).
Qed.

Lemma nd_get_empty_of {A} (sh : list nat) (idx : list nat) :
  nd_get (@empty_of A sh) idx = None.
Proof. destruct sh, idx; reflexivity. Qed.

Lemma nd_get_slice_axis {A} (a : ndarray A) :
  forall axis start stop idx,
    (forall k, idx !! axis = Some k -> (k < stop - start)%nat) ->
    nd_get (slice_axis a axis start stop) idx =
    nd_get a (alter (fun k => (start + k)%nat) axis idx).
Proof.
  induction a as [x | xs IH | n rest] using ndarray_nested_ind;
    intros axis start stop idx Hidx.
  - destruct idx as [| i idx]; [reflexivity |]. destruct axis; reflexivity.
  - destruct axis as [| axis].
    + cbn [slice_axis].
      destruct idx as [| i idx].
      { destruct (slice_list start stop xs); [apply nd_get_empty_of | reflexivity]. }
      pose proof (slice_list_lookup start stop i xs (Hidx i eq_refl)) as Hi.
      destruct (slice_list start stop xs) as [| y ys] eqn:Hs; cbv beta match.
      * rewrite nd_get_empty_of. cbn [alter list_alter nd_get]. now rewrite <- Hi.
      * cbn [alter list_alter nd_get]. now rewrite Hi.
    + destruct idx as [| i idx]; [reflexivity |].
      simpl. rewrite list_lookup_fmap.
      destruct (xs !! i) as [y |] eqn:Hy; [| reflexivity]. simpl.
      rewrite Forall_forall in IH. apply IH.
      * eapply list_elem_of_lookup_2; eassumption.
      * intros k Hk. apply Hidx. exact Hk.
  - destruct axis as [| [| axis]], idx; reflexivity.
Qed.

Lemma isel_data (var : XrVariable) (dim : string) (start stop : nat) :
  xv_dims (isel var dim start stop) = xv_dims var /\
  xv_data (isel var dim start stop) =
  match dim_axis dim (xv_dims var) with
  | Some i => slice_axis (xv_data var) i start stop
  | None => xv_data var
  end.
Proof. unfold isel. destruct (dim_axis dim (xv_dims var)); split; reflexivity. Qed.

Lemma isel_lat_lon_get (var : XrVariable) (lat0 lat1 lon0 lon1 i j : nat) :
  (i < lat1 - lat0)%nat -> (j < lon1 - lon0)%nat ->
  (xv_dims var = ["lat"; "lon"] ->
   nd_get (xv_data (isel (isel var "lat" lat0 lat1) "lon" lon0 lon1)) [i; j]
   = nd_get (xv_data var) [lat0 + i; lon0 + j]%nat) /\
  (xv_dims var = ["lev"; "lat"; "lon"] ->
   forall k,
     nd_get (xv_data (isel (isel var "lat" lat0 lat1) "lon" lon0 lon1)) [k; i; j]
     = nd_get (xv_data var) [k; lat0 + i; lon0 + j]%nat).
Proof.
  intros Hi Hj.
  destruct (isel_data (isel var "lat" lat0 lat1) "lon" lon0 lon1) as [_ ->].
  destruct (isel_data var "lat" lat0 lat1) as [-> ->].
  split.
  - intros ->. change (dim_axis "lon" ["lat"; "lon"]) with (Some 1%nat).
    change (dim_axis "lat" ["lat"; "lon"]) with (Some 0%nat). cbv beta iota.
    rewrite nd_get_slice_axis by (intros k Hk; injection Hk as <-; exact Hj).
    rewrite nd_get_slice_axis by (intros k Hk; injection Hk as <-; exact Hi).
    reflexivity.
  - intros -> k. change (dim_axis "lon" ["lev"; "lat"; "lon"]) with (Some 2%nat).
    change (dim_axis "lat" ["lev"; "lat"; "lon"]) with (Some 1%nat). cbv beta iota.
    rewrite nd_get_slice_axis by (intros k' Hk; injection Hk as <-; exact Hj).
    rewrite nd_get_slice_axis by (intros k' Hk; injection Hk as <-; exact Hi).
    reflexivity.
Qed.

Section CropValues.
Context `{Libraries}.

(** X12. The crop cuts the variables as it cuts the coordinates: there are
    two offsets such that the latitude and the longitude at positions [i]
    and [j] of the cropped container are those at positions [lat0 + i] and
    [lon0 + j] of the container, and the value of every variable at
    [(i, j)], or at [(k, i, j)] on any level [k], is the value that the
    variable had at [(lat0 + i, lon0 + j)], or [(k, lat0 + i, lon0 + j)]. *)
Theorem crop_keeps_values_at_coordinates (xds : XrDataset)
    (latrange lonrange : Q * Q) (out : XrDataset) :
  extract_in_domain xds latrange lonrange = Ok out ->
  exists lat0 lon0,
    (forall i x, coord_lat out !! i = Some x ->
                 coord_lat xds !! (lat0 + i)%nat = Some x) /\
    (forall j x, coord_lon out !! j = Some x ->
                 coord_lon xds !! (lon0 + j)%nat = Some x) /\
    Forall2 (fun var var' =>
               var'.1 = var.1 /\
               forall i j la lo,
                 coord_lat out !! i = Some la ->
                 coord_lon out !! j = Some lo ->
                 (xv_dims var.2 = ["lat"; "lon"] ->
                  nd_get (xv_data var'.2) [i; j]
                  = nd_get (xv_data var.2) [lat0 + i; lon0 + j]%nat) /\
                 (xv_dims var.2 = ["lev"; "lat"; "lon"] ->
                  forall k,
                    nd_get (xv_data var'.2) [k; i; j]
                    = nd_get (xv_data var.2) [k; lat0 + i; lon0 + j]%nat))
            (data_vars xds) (data_vars out).
Proof.
  unfold extract_in_domain.
  destruct (slice_indexer (coord_lat xds) _ _) as [[lat0 lat1] | e]; [| discriminate].
  destruct (slice_indexer (coord_lon xds) _ _) as [[lon0 lon1] | e]; [| discriminate].
  intros E. injection E as <-. exists lat0, lon0.
  cbn [coord_lat coord_lon data_vars].
  split; [intros i x Hx; now apply slice_list_lookup_Some in Hx |].
  split; [intros j x Hx; now apply slice_list_lookup_Some in Hx |].
  induction (data_vars xds) as [| [name var] vars IH]; constructor; [| exact IH].
  split; [reflexivity |]. intros i j la lo Hla Hlo.
  apply slice_list_lookup_Some in Hla as [Hi _].
  apply slice_list_lookup_Some in Hlo as [Hj _].
  apply isel_lat_lon_get; assumption.
Qed.
End CropValues.

(** ** Time stamps *)

Lemma zero_padded_4_value (n : nat) :
  (n < 10000)%nat -> digits_value (zero_padded 4 n) 0 = n.
Proof.
  intros Hn.
  assert (Hall : forallb (fun k => Nat.eqb (digits_value (zero_padded 4 k) 0) k)
                   (seq 0 10000) = true) by (vm_compute; reflexivity).
  rewrite forallb_forall in Hall. apply Nat.eqb_eq, Hall, in_seq. lia.
Qed.

Lemma zero_padded_2_value (n : nat) :
  (n < 100)%nat -> digits_value (zero_padded 2 n) 0 = n.
Proof.
  intros Hn.
  assert (Hall : forallb (fun k => Nat.eqb (digits_value (zero_padded 2 k) 0) k)
                   (seq 0 100) = true) by (vm_compute; reflexivity).
  rewrite forallb_forall in Hall. apply Nat.eqb_eq, Hall, in_seq. lia.
Qed.

Lemma string_app_inj (s1 s2 t1 t2 : string) :
  String.length s1 = String.length s2 ->
  (s1 ++ t1 = s2 ++ t2)%string -> s1 = s2 /\ t1 = t2.
Proof.
  revert s2. induction s1 as [| c s1 IH]; intros [| c' s2] Hlen E;
    try discriminate.
  - now split.
  - simpl in E. injection E as <- E. injection Hlen as Hlen.
    destruct (IH s2 Hlen E) as [-> ->]. now split.
Qed.

(** X13. Two time values get the same stamp under [TIME_FORMAT] exactly
    when they agree on the year, the month, the day, the hour and the
    minute: the seconds play no part, so two snapshots of the same minute
    are written under the same name, and snapshots of different minutes
    under different stamps. *)
Theorem stamp_identifies_the_minute (t1 t2 : datetime) :
  in_calendar_range t1 -> in_calendar_range t2 ->
  strftime TIME_FORMAT t1 = strftime TIME_FORMAT t2 <->
  (year t1 = year t2 /\ month t1 = month t2 /\ day t1 = day t2
   /\ hour t1 = hour t2 /\ minute t1 = minute t2).
Proof.
  intros (_ & Hy1 & Hm1 & Hd1 & Hh1 & Hmi1) (_ & Hy2 & Hm2 & Hd2 & Hh2 & Hmi2).
  rewrite !strftime_TIME_FORMAT. split.
  - intros E.
    apply string_app_inj in E as [Ey E];
      [| now rewrite !zero_padded_length_4].
    apply string_app_inj in E as [Em E];
      [| now rewrite !zero_padded_length_2].
    apply string_app_inj in E as [Ed E];
      [| now rewrite !zero_padded_length_2].
    apply (string_app_inj "_" "_") in E as [_ E]; [| reflexivity].
    apply string_app_inj in E as [Eh E];
      [| now rewrite !zero_padded_length_2].
    apply (string_app_inj "_" "_") in E as [_ Emi]; [| reflexivity].
    apply (f_equal (fun s => digits_value s 0)) in Ey, Em, Ed, Eh, Emi.
    rewrite !zero_padded_4_value in Ey by assumption.
    rewrite !zero_padded_2_value in Em, Ed, Eh, Emi by assumption.
    auto.
  - intros (-> & -> & -> & -> & ->). reflexivity.
Qed.

(** ** The outcome of a run *)

Section RunOutcome.
Context `{Libraries}.

Lemma export_outcome args ds time v w r w' :
  export args ds time v w = (r, w') ->
  exists evs,
    trace w' = trace w ++ evs /\
    ((evs = [] /\ exists e, r = Raise e) \/
     (evs = [EvMakedirs (outputdir args)] /\
      exists e, r = Raise e /\
                (os_makedirs_result (outputdir args) = Raise e \/
                 first_strftime time TIME_FORMAT = Raise e)) \/
     (exists out stamp,
         first_strftime time TIME_FORMAT = Ok stamp /\
         os_makedirs_result (outputdir args) = Ok tt /\
         evs = [EvMakedirs (outputdir args);
                EvToNetcdf (output_path args stamp) out] /\
         r = to_netcdf_result (output_path args stamp) out)).
Proof.
  assert (Hnil : forall e, r = Raise e ->
             exists evs,
               trace w = trace w ++ evs /\
               ((evs = [] /\ exists e, r = Raise e) \/
                (evs = [EvMakedirs (outputdir args)] /\
                 exists e, r = Raise e /\
                           (os_makedirs_result (outputdir args) = Raise e \/
                            first_strftime time TIME_FORMAT = Raise e)) \/
                (exists out stamp,
                    first_strftime time TIME_FORMAT = Ok stamp /\
                    os_makedirs_result (outputdir args) = Ok tt /\
                    evs = [EvMakedirs (outputdir args);
                           EvToNetcdf (output_path args stamp) out] /\
                    r = to_netcdf_result (output_path args stamp) out))).
  { intros e He. exists []. split; [symmetry; apply app_nil_r |]. left. eauto. }
  unfold export. intros E.
  step E as xlat w1 E0; apply ds_getitem_inv in E0 as [-> Hxlat];
    [| done_run E; eauto].
  step E as lat w2 E0; apply lift_inv in E0 as [-> Hlat]; [| done_run E; eauto].
  step E as xlong w3 E0; apply ds_getitem_inv in E0 as [-> Hxlong];
    [| done_run E; eauto].
  step E as lon w4 E0; apply lift_inv in E0 as [-> Hlon]; [| done_run E; eauto].
  step E as attrs w5 E0; apply ds_dict_inv in E0 as [-> Hattrs];
    [| done_run E; eauto].
  step E as assembled w6 E0; apply lift_inv in E0 as [-> Hasm];
    [| done_run E; eauto].
  step E as out w7 E0; apply lift_inv in E0 as [-> Hcrop]; [| done_run E; eauto].
  step E as u1 w8 E0; apply emit_inv in E0 as (Hr & Ht8 & Hh8 & Hf8);
    [| discriminate].
  step E as u2 w9 E0; apply lift_inv in E0 as [-> Hmkdir].
  2:{ done_run E. exists [EvMakedirs (outputdir args)]. split; [exact Ht8 |].
      right. left. eauto. }
  destruct u2.
  step E as stamp w10 E0; apply lift_inv in E0 as [-> Hstamp].
  2:{ done_run E. exists [EvMakedirs (outputdir args)]. split; [exact Ht8 |].
      right. left. eauto. }
  step E as u3 w11 E0; apply emit_inv in E0 as (Hr' & Ht11 & Hh11 & Hf11);
    [| discriminate].
  apply lift_inv in E as [-> <-].
  exists [EvMakedirs (outputdir args); EvToNetcdf (output_path args stamp) out].
  split; [rewrite Ht11, Ht8, <- app_assoc; reflexivity |].
  right. right. exists out, stamp. auto.
Qed.

Lemma main_outcome_cases args w :
  (exists e evs,
      (main args w).1 = Raise e /\
      new_events w (main args w).2 = evs /\
      Forall (fun ev => is_write ev = false /\ ev <> EvMakedirs (outputdir args)) evs) \/
  (exists e stamp evs,
      (main args w).1 = Raise e /\
      os_makedirs_result (outputdir args) = Raise e /\
      Forall field_event evs /\
      new_events w (main args w).2 =
        EvPrint stamp :: pressure_call :: evs ++ [EvMakedirs (outputdir args)]) \/
  (exists stamp evs out,
      (main args w).1 = to_netcdf_result (output_path args stamp) out /\
      os_makedirs_result (outputdir args) = Ok tt /\
      Forall field_event evs /\
      new_events w (main args w).2 =
        EvPrint stamp :: pressure_call :: evs
          ++ [EvMakedirs (outputdir args);
              EvToNetcdf (output_path args stamp) out]).
Proof.
  assert (Hquiet : forall evs, Forall field_event evs ->
             Forall (fun ev => is_write ev = false
                               /\ ev <> EvMakedirs (outputdir args)) evs).
  { intros evs Hevs. eapply Forall_impl; [exact Hevs |].
    intros ev [Hev _]. destruct Hev; split; try reflexivity; discriminate. }
  destruct (main args w) as [r w'] eqn:Hmain. simpl. unfold main in Hmain.
  step Hmain as loaded w1 E0;
    pose proof (load_snapshot_spec _ _ _ _ E0) as (Ht1 & Hf1 & Hload).
  2:{ done_run Hmain. left. exists e, []. repeat split; [| constructor].
      apply new_events_app. rewrite Ht1. symmetry. apply app_nil_r. }
  destruct loaded as [ds time].
  destruct Hload as (d & xlong & tv & u & Hfs & Hx & Hn & Htv & Hu & Hnum & Hlen & Hheap).
  step Hmain as stamp w2 E1; apply lift_inv in E1 as [-> Hstamp].
  2:{ done_run Hmain. left. exists e, []. repeat split; [| constructor].
      apply new_events_app. rewrite Ht1. symmetry. apply app_nil_r. }
  step Hmain as u1 w3 E2; apply emit_inv in E2 as (Hr3 & Ht3 & Hh3 & Hf3);
    [| discriminate].
  rewrite bind_run in Hmain.
  assert (Hheap3 : heap w3 !! ds = Some (with_normalised_longitudes d xlong))
    by congruence.
  destruct (extract_fields_events ds w3 _ Hheap3) as (evs & Ht4 & Hevs & Hh4 & _).
  destruct (extract_fields ds w3) as [[v | e] w4] eqn:E3; simpl in Ht4, Hh4.
  2:{ done_run Hmain. left. exists e, (EvPrint stamp :: pressure_call :: evs).
      split; [reflexivity |]. split.
      - apply new_events_app. rewrite Ht4, Ht3, Ht1, <- app_assoc. reflexivity.
      - constructor; [split; [reflexivity | discriminate] |].
        constructor; [split; [reflexivity | discriminate] |]. auto. }
  apply export_outcome in Hmain as (evs2 & Ht5 & Hexp).
  assert (Htrace : trace w' =
                   trace w ++ EvPrint stamp :: pressure_call :: evs ++ evs2).
  { rewrite Ht5, Ht4, Ht3, Ht1, <- !app_assoc. reflexivity. }
  rewrite (new_events_app _ _ _ Htrace).
  destruct Hexp as [[-> (e & ->)] | [[-> (e & -> & Hwhy)] | Hw]].
  - left. exists e, (EvPrint stamp :: pressure_call :: evs).
    rewrite app_nil_r. repeat split; try reflexivity.
    constructor; [split; [reflexivity | discriminate] |].
    constructor; [split; [reflexivity | discriminate] |]. auto.
  - right. left. exists e, stamp, evs.
    destruct Hwhy as [Hmk | Hbad]; [auto | congruence].
  - right. right.
    destruct Hw as (out & stamp' & Hstamp' & Hmk & -> & ->).
    assert (stamp' = stamp) as -> by congruence.
    exists stamp, evs, out. auto.
Qed.

Lemma field_events_no_write evs path out :
  Forall field_event evs -> EvToNetcdf path out ∉ evs.
Proof.
  intros Hevs Hmem. rewrite Forall_forall in Hevs.
  apply Hevs, field_event_not_write in Hmem. discriminate.
Qed.


(** X15. When a run calls [to_netcdf], every earlier step has succeeded and
    the outcome of the run is the outcome of that call, on the path made of
    the stamp that the run printed first: a run that fails anywhere else
    has written nothing. *)
Theorem write_decides_outcome (args : Args) (w : World) (path : string)
    (out : XrDataset) :
  EvToNetcdf path out ∈ new_events w (main args w).2 ->
  (main args w).1 = to_netcdf_result path out /\
  os_makedirs_result (outputdir args) = Ok tt /\
  exists stamp, path = output_path args stamp /\
                head (new_events w (main args w).2) = Some (EvPrint stamp).
Proof.
  intros Hin.
  destruct (main_outcome_cases args w)
    as [(e & evs & Hr & Hev & Hevs) | [(e & stamp & evs & Hr & Hmk & Hevs & Hev)
                             | (stamp & evs & out' & Hr & Hmk & Hevs & Hev)]].
  - exfalso. rewrite Hev in Hin. rewrite Forall_forall in Hevs.
    apply Hevs in Hin as [Hw _]. discriminate.
  - exfalso. rewrite Hev in Hin.
    apply elem_of_cons in Hin as [Hin | Hin]; [discriminate |].
    apply elem_of_cons in Hin as [Hin | Hin]; [discriminate |].
    apply elem_of_app in Hin as [Hin | Hin].
    + now apply field_events_no_write in Hin.
    + apply list_elem_of_singleton in Hin. discriminate.
  - rewrite Hev in Hin |- *.
    apply elem_of_cons in Hin as [Hin | Hin]; [discriminate |].
    apply elem_of_cons in Hin as [Hin | Hin]; [discriminate |].
    apply elem_of_app in Hin as [Hin | Hin];
      [now apply field_events_no_write in Hin |].
    apply elem_of_cons in Hin as [Hin | Hin]; [discriminate |].
    apply list_elem_of_singleton in Hin. injection Hin as -> ->.
    split; [exact Hr |]. split; [exact Hmk |]. exists stamp. auto.
Qed.

(** X16. When the output directory cannot be created, every run fails and
    writes nothing, whatever the input; a run that gets as far as
    [os.makedirs] ends with the exception of that call. *)
Theorem makedirs_failure_is_fatal (args : Args) (w : World) (e : exn) :
  os_makedirs_result (outputdir args) = Raise e ->
  (exists e', (main args w).1 = Raise e') /\
  List.filter is_write (new_events w (main args w).2) = [] /\
  (EvMakedirs (outputdir args) ∈ new_events w (main args w).2 ->
   (main args w).1 = Raise e).
Proof.
  intros Hfail.
  destruct (main_outcome_cases args w)
    as [(e' & evs & Hr & Hev & Hevs) | [(e' & stamp & evs & Hr & Hmk & Hevs & Hev)
                             | (stamp & evs & out' & Hr & Hmk & Hevs & Hev)]];
    [| | congruence].
  - split; [eauto |]. rewrite Hev. split.
    + clear -Hevs. induction Hevs as [| ev evs [Hw _] _ IH]; [reflexivity |].
      simpl. now rewrite Hw.
    + intros Hin. rewrite Forall_forall in Hevs.
      apply Hevs in Hin as [_ Hne]. contradiction.
  - split; [eauto |]. rewrite Hev. split.
    + simpl. rewrite List.filter_app, (filter_is_write_field_events evs Hevs).
      reflexivity.
    + intros _. congruence.
Qed.
End RunOutcome.

(** ** Concrete runs for the further properties *)

Lemma nd_forallb_get {A} (p : A -> bool) (a : ndarray A) :
  nd_forallb p a = true ->
  forall idx x, nd_get a idx = Some x -> p x = true.
Proof.
  induction a as [y | xs IH | n rest] using ndarray_nested_ind;
    intros Hall idx x Hget.
  3:{ destruct idx; discriminate. }
  - destruct idx; [| discriminate]. simpl in Hget, Hall. congruence.
  - destruct idx as [| i idx]; [discriminate |]. simpl in Hget.
    destruct (xs !! i) as [y |] eqn:Hy; [| discriminate].
    simpl in Hall. rewrite forallb_forall in Hall. rewrite Forall_forall in IH.
    assert (Hin : y ∈ xs) by (eapply list_elem_of_lookup_2; eassumption).
    apply (IH y Hin (Hall y (proj1 (list_elem_of_In _ _) Hin)) idx x Hget).
Qed.

(** No file is called [absent.nc]. *)
Lemma missing_input_file_aborts_witness :
  fs Sample.world !! "absent.nc" = None /\
  @main Sample.library (Sample.args_of "absent.nc") Sample.world
  = (Raise AssertionError, Sample.world).
Proof.
  assert (H : fs Sample.world !! inputfile (Sample.args_of "absent.nc") = None)
    by (vm_compute; reflexivity).
  split; [exact H |].
  exact (@missing_input_file_aborts Sample.library (Sample.args_of "absent.nc")
           Sample.world H).
Defined.

(** [notes.txt] is a file, not a netCDF file. *)
Lemma non_netcdf_input_aborts_witness :
  fs Sample.world !! "notes.txt" = Some OtherFile /\
  @main Sample.library (Sample.args_of "notes.txt") Sample.world
  = (Raise OSError, Sample.world).
Proof.
  assert (H : fs Sample.world !! inputfile (Sample.args_of "notes.txt")
              = Some OtherFile) by (vm_compute; reflexivity).
  split; [exact H |].
  exact (@non_netcdf_input_aborts Sample.library (Sample.args_of "notes.txt")
           Sample.world H).
Defined.

(** A netCDF file without any variable: the run ends on [XLONG]. *)
Lemma load_phase_errors_are_fatal_witness :
  fs Sample.bare_world !! "bare.nc" = Some (NetCDFFile Sample.bare_snapshot) /\
  variables Sample.bare_snapshot !! "XLONG" = None /\
  (@main Sample.library (Sample.args_of "bare.nc") Sample.bare_world).1
  = Raise IndexError /\
  new_events Sample.bare_world
    (@main Sample.library (Sample.args_of "bare.nc") Sample.bare_world).2 = [].
Proof.
  assert (H : fs Sample.bare_world !! inputfile (Sample.args_of "bare.nc")
              = Some (NetCDFFile Sample.bare_snapshot)) by (vm_compute; reflexivity).
  assert (Hx : variables Sample.bare_snapshot !! "XLONG" = None)
    by (vm_compute; reflexivity).
  split; [exact H |]. split; [exact Hx |].
  destruct (@load_phase_errors_are_fatal Sample.library (Sample.args_of "bare.nc")
              Sample.bare_world Sample.bare_snapshot H) as (Hmissing & _).
  exact (Hmissing Hx).
Defined.

(** The longitudes of the sample snapshot, rewritten twice. *)
Lemma convert_longitudes_twice_witness :
  heap Sample.opened !! 0%nat = Some Sample.snapshot /\
  variables Sample.snapshot !! "XLONG" = Some Sample.xlong /\
  (3 <= ndim (nv_values Sample.xlong))%nat /\
  nd_forallb (Qle_bool (-360)) (nv_values Sample.xlong) = true /\
  nd_forallb (fun x => Qle_bool x 360) (nv_values Sample.xlong) = true /\
  exists w1 d1 xlong1,
    convert_longitudes_to_0_360 0%nat Sample.opened = (Ok 0%nat, w1) /\
    convert_longitudes_to_0_360 0%nat w1 = (Ok 0%nat, w1) /\
    heap w1 !! 0%nat = Some d1 /\
    variables d1 !! "XLONG" = Some xlong1 /\
    (forall idx x, nd_get (nv_values xlong1) idx = Some x -> (0 <= x)%Q) /\
    (forall idx x, nd_get (nv_values xlong1) idx = Some x -> (x <= 360)%Q).
Proof.
  assert (H1 : heap Sample.opened !! 0%nat = Some Sample.snapshot)
    by (vm_compute; reflexivity).
  assert (H2 : variables Sample.snapshot !! "XLONG" = Some Sample.xlong)
    by (vm_compute; reflexivity).
  assert (H3 : (3 <= ndim (nv_values Sample.xlong))%nat) by (simpl; lia).
  assert (H4 : nd_forallb (Qle_bool (-360)) (nv_values Sample.xlong) = true)
    by (vm_compute; reflexivity).
  assert (H5 : nd_forallb (fun x => Qle_bool x 360) (nv_values Sample.xlong) = true)
    by (vm_compute; reflexivity).
  split; [exact H1 |]. split; [exact H2 |]. split; [exact H3 |].
  split; [exact H4 |]. split; [exact H5 |].
  destruct (convert_longitudes_twice 0%nat Sample.opened Sample.snapshot
              Sample.xlong H1 H2 H3
              (fun idx x Hget =>
                 proj1 (Qle_bool_iff _ _) (nd_forallb_get _ _ H4 idx x Hget)))
    as (w1 & d1 & xlong1 & Hrun & Hagain & Hheap & Hvar & Hpos & Hmax).
  exists w1, d1, xlong1.
  split; [exact Hrun |]. split; [exact Hagain |]. split; [exact Hheap |].
  split; [exact Hvar |]. split; [exact Hpos |].
  apply Hmax. intros idx x Hget.
  exact (proj1 (Qle_bool_iff _ _)
           (nd_forallb_get (fun x => Qle_bool x 360) _ H5 idx x Hget)).
Defined.

(** The first row of the sample grid: 90, 150, then -170, -90 across the
    date line, read back as 90, 150, 190, 270. *)
Lemma date_line_row_becomes_increasing_witness :
  is_monotonic_increasing [90; 150]%Q = true /\
  is_monotonic_increasing [-170; -90]%Q = true /\
  exists lon,
    index_0_0_all (nd_map where_negative_add_360 Sample.xlong_values) = Ok lon /\
    coord_values lon = Ok [90; 150; -170 + 360; -90 + 360]%Q /\
    is_monotonic_increasing [90; 150; -170 + 360; -90 + 360]%Q = true.
Proof.
  assert (H1 : is_monotonic_increasing [90; 150]%Q = true) by reflexivity.
  assert (H2 : is_monotonic_increasing [-170; -90]%Q = true) by reflexivity.
  split; [exact H1 |]. split; [exact H2 |].
  apply (date_line_row_becomes_increasing [90; 150]%Q [-170; -90]%Q
           [Sample.row [90; 150; -170; -90]%Q; Sample.row [90; 150; -170; -90]%Q]
           [] H1 H2).
  - intros x Hx. apply elem_of_cons in Hx as [-> | Hx]; [discriminate |].
    apply list_elem_of_singleton in Hx as ->. discriminate.
  - intros y Hy. apply elem_of_cons in Hy as [-> | Hy]; [reflexivity |].
    apply list_elem_of_singleton in Hy as ->. reflexivity.
  - intros x y Hx Hy. injection Hx as <-. injection Hy as <-. discriminate.
Defined.

(** The loop of the sample run: every field but [rhprs], in table order. *)
Lemma mapping_keeps_table_order_witness :
  (@extract_loop Sample.library 0%nat Sample.field3d
     (@variables_table Sample.library) [] Sample.opened).1 = Ok Sample.extracted /\
  map fst Sample.extracted
  = ["absvprs"; "capesfc"; "hgtprs"; "tmpprs"; "ugrdprs"; "vgrdprs"; "vvelprs";
     "slp"] /\
  NoDup (map fst Sample.extracted).
Proof.
  assert (H : (@extract_loop Sample.library 0%nat Sample.field3d
                 (@variables_table Sample.library) [] Sample.opened).1
              = Ok Sample.extracted) by (vm_compute; reflexivity).
  split; [exact H |].
  destruct (@mapping_keeps_table_order Sample.library 0%nat Sample.field3d
              Sample.opened Sample.extracted H) as [Hkeys Hnodup].
  split; [| exact Hnodup].
  rewrite Hkeys. vm_compute. reflexivity.
Defined.

(** The container of the sample run: 19 levels, 3 latitudes, 4 longitudes. *)
Lemma assembled_fields_fit_the_axes_witness :
  construct_xr_dataset Sample.extracted Sample.lat_coord Sample.lon_coord
    PRESSURE_LEVELS (ncattrs Sample.snapshot) = Ok Sample.assembled /\
  length (coord_lev Sample.assembled) = 19%nat /\
  length (coord_lat Sample.assembled) = 3%nat /\
  length (coord_lon Sample.assembled) = 4%nat /\
  map fst (data_vars Sample.assembled) = map fst Sample.extracted /\
  Forall (fun var =>
            (ndim (xv_data var.2) = 3%nat /\
             xv_dims var.2 = ["lev"; "lat"; "lon"] /\
             axis_len (xv_data var.2) 0 = Some (length (coord_lev Sample.assembled)) /\
             axis_len (xv_data var.2) 1 = Some (length (coord_lat Sample.assembled)) /\
             axis_len (xv_data var.2) 2 = Some (length (coord_lon Sample.assembled)))
            \/
            (ndim (xv_data var.2) = 2%nat /\
             xv_dims var.2 = ["lat"; "lon"] /\
             axis_len (xv_data var.2) 0 = Some (length (coord_lat Sample.assembled)) /\
             axis_len (xv_data var.2) 1 = Some (length (coord_lon Sample.assembled))))
         (data_vars Sample.assembled).
Proof.
  assert (H : construct_xr_dataset Sample.extracted Sample.lat_coord
                Sample.lon_coord PRESSURE_LEVELS (ncattrs Sample.snapshot)
              = Ok Sample.assembled) by (vm_compute; reflexivity).
  split; [exact H |].
  split; [vm_compute; reflexivity |].
  split; [vm_compute; reflexivity |].
  split; [vm_compute; reflexivity |].
  exact (assembled_fields_fit_the_axes _ _ _ _ _ _ H).
Defined.

(** A profile along one axis among the fields. *)
Lemma builder_rejects_other_ranks_witness :
  ("slp", Sample.profile) ∈ [("capesfc", Sample.field2d); ("slp", Sample.profile)] /\
  ndim (da_data Sample.profile) = 1%nat /\
  construct_xr_dataset [("capesfc", Sample.field2d); ("slp", Sample.profile)]
    Sample.lat_coord Sample.lon_coord PRESSURE_LEVELS ∅ = Raise ValueError.
Proof.
  assert (H : ("slp", Sample.profile)
              ∈ [("capesfc", Sample.field2d); ("slp", Sample.profile)])
    by (right; left).
  split; [exact H |]. split; [reflexivity |].
  apply (builder_rejects_other_ranks _ Sample.lat_coord Sample.lon_coord
           PRESSURE_LEVELS ∅ "slp" Sample.profile H); simpl; lia.
Defined.

(** The crop of the sample container: one latitude and two longitudes are
    left. *)
Lemma crop_of_increasing_axes_succeeds_witness :
  is_monotonic_increasing (coord_lat Sample.assembled) = true /\
  is_monotonic_increasing (coord_lon Sample.assembled) = true /\
  exists out,
    @extract_in_domain Sample.library Sample.assembled (5, 45)%Q (100, 260)%Q
    = Ok out /\
    map fst (data_vars out) = map fst (data_vars Sample.assembled) /\
    is_monotonic_increasing (coord_lat out) = true /\
    is_monotonic_increasing (coord_lon out) = true.
Proof.
  assert (H1 : is_monotonic_increasing (coord_lat Sample.assembled) = true)
    by (vm_compute; reflexivity).
  assert (H2 : is_monotonic_increasing (coord_lon Sample.assembled) = true)
    by (vm_compute; reflexivity).
  split; [exact H1 |]. split; [exact H2 |].
  destruct (@crop_of_increasing_axes_succeeds Sample.library Sample.assembled
              (5, 45)%Q (100, 260)%Q H1 H2)
    as (out & Hcrop & Hnames & Hlat & Hlon & _).
  exists out. auto.
Defined.

(** In the sample run the crop starts at the second latitude and at the
    second longitude. *)
Lemma crop_keeps_values_at_coordinates_witness :
  @extract_in_domain Sample.library Sample.assembled (5, 45)%Q (100, 260)%Q
  = Ok Sample.cropped /\
  coord_lat Sample.cropped = [10]%Q /\
  coord_lon Sample.cropped = [150; 190]%Q /\
  exists lat0 lon0,
    (forall i x, coord_lat Sample.cropped !! i = Some x ->
                 coord_lat Sample.assembled !! (lat0 + i)%nat = Some x) /\
    (forall j x, coord_lon Sample.cropped !! j = Some x ->
                 coord_lon Sample.assembled !! (lon0 + j)%nat = Some x) /\
    Forall2 (fun var var' =>
               var'.1 = var.1 /\
               forall i j la lo,
                 coord_lat Sample.cropped !! i = Some la ->
                 coord_lon Sample.cropped !! j = Some lo ->
                 (xv_dims var.2 = ["lat"; "lon"] ->
                  nd_get (xv_data var'.2) [i; j]
                  = nd_get (xv_data var.2) [lat0 + i; lon0 + j]%nat) /\
                 (xv_dims var.2 = ["lev"; "lat"; "lon"] ->
                  forall k,
                    nd_get (xv_data var'.2) [k; i; j]
                    = nd_get (xv_data var.2) [k; lat0 + i; lon0 + j]%nat))
            (data_vars Sample.assembled) (data_vars Sample.cropped).
Proof.
  assert (H : @extract_in_domain Sample.library Sample.assembled (5, 45)%Q
                (100, 260)%Q = Ok Sample.cropped) by (vm_compute; reflexivity).
  split; [exact H |].
  split; [vm_compute; reflexivity |].
  split; [vm_compute; reflexivity |].
  exact (@crop_keeps_values_at_coordinates Sample.library Sample.assembled
           (5, 45)%Q (100, 260)%Q Sample.cropped H).
Defined.

(** Two times of the same minute, thirty seconds apart. *)
Lemma stamp_identifies_the_minute_witness :
  in_calendar_range Sample.date /\
  in_calendar_range Sample.date_later /\
  Sample.date <> Sample.date_later /\
  strftime TIME_FORMAT Sample.date = strftime TIME_FORMAT Sample.date_later.
Proof.
  assert (H1 : in_calendar_range Sample.date)
    by (split; [apply Nat.leb_le; vm_compute; reflexivity |];
        repeat split; apply Nat.ltb_lt; vm_compute; reflexivity).
  assert (H2 : in_calendar_range Sample.date_later)
    by (split; [apply Nat.leb_le; vm_compute; reflexivity |];
        repeat split; apply Nat.ltb_lt; vm_compute; reflexivity).
  split; [exact H1 |]. split; [exact H2 |]. split; [discriminate |].
  apply (stamp_identifies_the_minute Sample.date Sample.date_later H1 H2).
  simpl. auto.
Defined.


(** The write of the sample run. *)
Lemma write_decides_outcome_witness :
  EvToNetcdf "out/wrf_20080505_00_00.nc" Sample.output
    ∈ new_events Sample.world (@main Sample.library Sample.args Sample.world).2 /\
  (@main Sample.library Sample.args Sample.world).1
  = @to_netcdf_result Sample.library "out/wrf_20080505_00_00.nc" Sample.output /\
  @os_makedirs_result Sample.library (outputdir Sample.args) = Ok tt.
Proof.
  assert (Hrun : EvToNetcdf "out/wrf_20080505_00_00.nc" Sample.output
                   ∈ new_events Sample.world
                       (@main Sample.library Sample.args Sample.world).2)
    by (apply last_elem_of; vm_compute; reflexivity).
  split; [exact Hrun |].
  destruct (@write_decides_outcome Sample.library Sample.args Sample.world _ _ Hrun)
    as (Hout & Hmk & _).
  split; [exact Hout | exact Hmk].
Defined.

(** The sample run where no directory can be created. *)
Lemma makedirs_failure_is_fatal_witness :
  @os_makedirs_result Sample.library_read_only (outputdir Sample.args)
  = Raise OSError /\
  EvMakedirs (outputdir Sample.args)
    ∈ new_events Sample.world
        (@main Sample.library_read_only Sample.args Sample.world).2 /\
  (@main Sample.library_read_only Sample.args Sample.world).1 = Raise OSError /\
  List.filter is_write
    (new_events Sample.world
       (@main Sample.library_read_only Sample.args Sample.world).2) = [].
Proof.
  assert (H : @os_makedirs_result Sample.library_read_only (outputdir Sample.args)
              = Raise OSError) by reflexivity.
  assert (Hreached : EvMakedirs (outputdir Sample.args)
                       ∈ new_events Sample.world
                           (@main Sample.library_read_only Sample.args
                              Sample.world).2)
    by (apply last_elem_of; vm_compute; reflexivity).
  split; [exact H |]. split; [exact Hreached |].
  destruct (@makedirs_failure_is_fatal Sample.library_read_only Sample.args
              Sample.world OSError H) as (_ & Hnone & Hfail).
  split; [exact (Hfail Hreached) | exact Hnone].
Defined.
